(** * Dual-context bearer tokens: context resolution, guards and the auth service

    A shallow embedding of the identity boundary of the repository
    ([src/security.py], [src/api/query.py], [src/api/services.py],
    [src/api/endpoints.py], [src/models.py]) and the properties its
    specification states about it.

    Python exceptions are values of [exn]; a coroutine working on the request's
    [AsyncSession] is a function from the session's state to an outcome and
    the new state.  Every SELECT that is executed is recorded in the session,
    so that "no lookup is performed" is a statement about the record. *)

From Stdlib Require Import ZArith String Ascii List Bool Lia.
Import ListNotations.

Local Open Scope string_scope.
Local Open Scope Z_scope.

(* ===================================================================== *)
(** ** Python built-ins used by the code *)
(* ===================================================================== *)

Module Py.

(** A [str] is modelled as a [string] whose characters are code points
    below 256.  These are the ones [int()] skips around a literal: tab to
    carriage return, the space, and the two of the upper half, NEL and the
    no-break space.  (The separators 28 to 31, for which [str.isspace]
    holds as well, are not skipped: [int] refuses a literal next to one.) *)
Definition is_space (c : ascii) : bool :=
  let n := Z.of_nat (nat_of_ascii c) in
  ((9 <=? n) && (n <=? 13)) || (n =? 32) || (n =? 133) || (n =? 160).

Definition digit_of (c : ascii) : option Z :=
  let n := Z.of_nat (nat_of_ascii c) in
  if (48 <=? n) && (n <=? 57) then Some (n - 48) else None.

Definition is_underscore (c : ascii) : bool := Ascii.eqb c "_"%char.

(** Digits of a base-10 literal; a single underscore may separate two
    digits.  [after_digit] tells whether the previous character was a
    digit. *)
Fixpoint digits (acc : Z) (after_digit : bool) (l : list ascii) : option Z :=
  match l with
  | [] => if after_digit then Some acc else None
  | c :: l' =>
      match digit_of c with
      | Some d => digits (10 * acc + d) true l'
      | None =>
          if is_underscore c && after_digit then digits acc false l'
          else None
      end
  end.

Fixpoint lstrip (l : list ascii) : list ascii :=
  match l with
  | c :: l' => if is_space c then lstrip l' else l
  | [] => []
  end.

Definition strip (l : list ascii) : list ascii :=
  rev (lstrip (rev (lstrip l))).

(** [int(s)] for a [str]: surrounding white space, an optional sign, then
    decimal digits; [None] stands for [ValueError].  (The limit the
    interpreter can be configured to put on the number of digits,
    [sys.set_int_max_str_digits], is outside the model: a decimal literal
    of any length is read as the integer it denotes.) *)
Definition int (s : string) : option Z :=
  match strip (list_ascii_of_string s) with
  | "-"%char :: l => option_map Z.opp (digits 0 false l)
  | "+"%char :: l => digits 0 false l
  | l => digits 0 false l
  end.

(** [str(n)] for an [int]. *)
Definition digit_char (d : Z) : ascii := ascii_of_nat (Z.to_nat (48 + d)).

Fixpoint str_pos (fuel : nat) (n : Z) (acc : list ascii) : list ascii :=
  match fuel with
  | O => acc
  | S fuel' =>
      let acc' := digit_char (n mod 10) :: acc in
      if n <? 10 then acc' else str_pos fuel' (n / 10) acc'
  end.

Definition str (n : Z) : string :=
  if n <? 0
  then String "-" (string_of_list_ascii (str_pos (S (Z.to_nat (Z.log2 (- n)))) (- n) []))
  else string_of_list_ascii (str_pos (S (Z.to_nat (Z.log2 n))) n []).

(** [needle in haystack] on strings. *)
Fixpoint contains (needle haystack : string) : bool :=
  String.prefix needle haystack ||
  match haystack with
  | EmptyString => false
  | String _ rest => contains needle rest
  end.

(** [text.split(sep)] for a separator of one character. *)
Fixpoint split (sep : ascii) (text : string) : list string :=
  match text with
  | EmptyString => [EmptyString]
  | String c rest =>
      if Ascii.eqb c sep
      then EmptyString :: split sep rest
      else
        let segments := split sep rest in
        String c (hd EmptyString segments) :: tl segments
  end.

End Py.

(* ===================================================================== *)
(** ** Exceptions *)
(* ===================================================================== *)

Inductive exn : Type :=
| ValueError (msg : string)
| AttributeError (msg : string)
| HTTPException (status_code : Z) (detail : string).

(** [str(e)]; Starlette prints an [HTTPException] as ["<status>: <detail>"]. *)
Definition str_exn (e : exn) : string :=
  match e with
  | ValueError msg => msg
  | AttributeError msg => msg
  | HTTPException status_code detail => Py.str status_code ++ ": " ++ detail
  end.

Definition is_ValueError (e : exn) : bool :=
  match e with ValueError _ => true | _ => false end.

(** [fastapi.status] *)
Module status.
Definition HTTP_400_BAD_REQUEST : Z := 400.
Definition HTTP_401_UNAUTHORIZED : Z := 401.
Definition HTTP_403_FORBIDDEN : Z := 403.
Definition HTTP_404_NOT_FOUND : Z := 404.
End status.

(** The two errors of the [jwt] package that the code tells apart. *)
Inductive jwt_error : Type :=
| ExpiredSignatureError
| InvalidTokenError.

(* ===================================================================== *)
(** ** [src/models.py] *)
(* ===================================================================== *)

Module CoreUser.
Record t : Type := {
  id : Z;
  email : string;
  hashed_password : string;
  first_name : option string;
  last_name : option string;
  is_active : bool;
  created_at : Z
}.
End CoreUser.

Module Organization.
Record t : Type := {
  id : Z;
  name : string;
  slug : string;
  description : option string;
  is_active : bool;
  created_at : Z;
  database_name : string
}.
End Organization.

Module TenantUser.
Record t : Type := {
  id : Z;
  email : string;
  hashed_password : string;
  first_name : option string;
  last_name : option string;
  phone : option string;
  is_active : bool;
  created_at : Z;
  updated_at : Z;
  avatar : option string;
  bio : option string;
  organization_id : Z
}.
End TenantUser.

(** The shared store: the three tables and the [organization_owners]
    association table (user id, organization id). *)
Record Database : Type := {
  core_users : list CoreUser.t;
  organizations : list Organization.t;
  tenant_users : list TenantUser.t;
  organization_owners : list (Z * Z)
}.

(** The column constraints of [models.py] that the properties rely on. *)
Definition unique_slugs (db : Database) : Prop :=
  NoDup (map Organization.slug (organizations db)).

(* ===================================================================== *)
(** ** The request's session and coroutines over it *)
(* ===================================================================== *)

(** Statements a session has executed, oldest first. *)
Inductive Statement : Type :=
| SelectCoreUserById (user_id : Z)
| SelectCoreUserByEmail (email : string)
| SelectOrganizationBySlug (slug : string)
| SelectOrganizationById (org_id : Z)
| SelectOrganizationOwner (user_id org_id : Z)
| SelectTenantUserById (user_id : Z)
| SelectTenantUserByEmail (email : string)
| Commit.

Record Session : Type := {
  store : Database;
  executed : list Statement
}.

(** [database.get_async_session] opens one [AsyncSession] per request; the
    code passes around references to it. *)
Inductive AsyncSession : Type := RequestSession.

Definition M (A : Type) : Type := Session -> (exn + A) * Session.

Definition ret {A} (a : A) : M A := fun s => (inr a, s).

Definition raise {A} (e : exn) : M A := fun s => (inl e, s).

Definition bind {A B} (m : M A) (k : A -> M B) : M B :=
  fun s =>
    match m s with
    | (inl e, s') => (inl e, s')
    | (inr a, s') => k a s'
    end.

(** [try: body  except ...: handler]; an exception raised by the handler is
    not handled again. *)
Definition try_except {A} (body : M A) (handler : exn -> M A) : M A :=
  fun s =>
    match body s with
    | (inl e, s') => handler e s'
    | (inr a, s') => (inr a, s')
    end.

Declare Scope py_scope.
Delimit Scope py_scope with py.
Notation "x <- m ;; k" := (bind m (fun x => k))
  (at level 100, m at next level, right associativity) : py_scope.
Notation "' pat <- m ;; k" := (bind m (fun x => match x with pat => k end))
  (at level 100, pat pattern, m at next level, right associativity) : py_scope.
Local Open Scope py_scope.

(** [await db_session.execute(stmt)] followed by [.scalars().first()], for
    parameters the driver takes: an integer compared with an [Integer]
    column lies within 32 bits. *)
Definition execute_first {Row} (db_session : AsyncSession) (stmt : Statement)
    (table : Database -> list Row) (where_ : Row -> bool) : M (option Row) :=
  fun s =>
    (inr (find where_ (table (store s))),
     {| store := store s; executed := executed s ++ [stmt] |}).

Definition outcome {A} (m : M A) (s : Session) : exn + A := fst (m s).
Definition statements {A} (m : M A) (s : Session) : list Statement :=
  executed (snd (m s)).
Definition fresh (db : Database) : Session := {| store := db; executed := [] |}.

(* ===================================================================== *)
(** ** [src/api/query.py] *)
(* ===================================================================== *)

Module query.

Definition get_core_user_by_id (user_id : Z) (db_session : AsyncSession)
  : M (option CoreUser.t) :=
  execute_first db_session (SelectCoreUserById user_id) core_users
    (fun u => CoreUser.id u =? user_id).

Definition get_core_user_by_email (email : string) (db_session : AsyncSession)
  : M (option CoreUser.t) :=
  execute_first db_session (SelectCoreUserByEmail email) core_users
    (fun u => String.eqb (CoreUser.email u) email).

Definition get_organization_by_slug (slug : string) (db_session : AsyncSession)
  : M (option Organization.t) :=
  execute_first db_session (SelectOrganizationBySlug slug) organizations
    (fun o => String.eqb (Organization.slug o) slug && Organization.is_active o).

Definition get_organization_by_id (org_id : Z) (db_session : AsyncSession)
  : M (option Organization.t) :=
  execute_first db_session (SelectOrganizationById org_id) organizations
    (fun o => (Organization.id o =? org_id) && Organization.is_active o).

Definition check_organization_owner (user_id org_id : Z)
    (db_session : AsyncSession) : M bool :=
  fun s =>
    let db := store s in
    let owned (o : Organization.t) :=
      (Organization.id o =? org_id)
      && existsb (fun u => (CoreUser.id u =? user_id)
                           && existsb (fun '(u', o') => (u' =? CoreUser.id u)
                                                       && (o' =? Organization.id o))
                                      (organization_owners db))
                 (core_users db) in
    (inr (match find owned (organizations db) with Some _ => true | None => false end),
     {| store := db;
        executed := executed s ++ [SelectOrganizationOwner user_id org_id] |}).

Definition get_tenant_user_by_id (user_id : Z) (db_session : AsyncSession)
  : M (option TenantUser.t) :=
  execute_first db_session (SelectTenantUserById user_id) tenant_users
    (fun u => TenantUser.id u =? user_id).

Definition get_tenant_user_by_email (email : string) (db_session : AsyncSession)
  : M (option TenantUser.t) :=
  execute_first db_session (SelectTenantUserByEmail email) tenant_users
    (fun u => String.eqb (TenantUser.email u) email).

End query.

(* ===================================================================== *)
(** ** Token payloads *)
(* ===================================================================== *)

(** The claim set of a token, with the keys and value types of the wire
    format: [sub] and [context] (strings), [tenant] (string) and [org_id]
    (integer) for tenant tokens, [email], and the timestamps [iat] and [exp].
    A key that is absent from the dictionary is [None], which is also what
    [payload.get(key)] returns for it. *)
Module Payload.
Record t : Type := {
  sub : option string;
  context : option string;
  tenant : option string;
  org_id : option Z;
  email : option string;
  iat : option Z;
  exp : option Z
}.
End Payload.

(* ===================================================================== *)
(** ** [src/security.py] *)
(* ===================================================================== *)

Module security.
Section WithJwt.

(** [jwt.decode(token, SECRET_KEY, algorithms=[ALGORITHM])] at the time of
    the request. *)
Variable jwt_decode : string -> jwt_error + Payload.t.

Definition get_current_user_context
    (credentials : option string) (db_session : AsyncSession)
  : M (Z * string * option string) :=
  match credentials with
  | None => raise (HTTPException status.HTTP_401_UNAUTHORIZED "Not authenticated")
  | Some token =>
    payload <-
      match jwt_decode token with
      | inr payload => ret payload
      | inl ExpiredSignatureError =>
          raise (HTTPException status.HTTP_401_UNAUTHORIZED "Token has expired")
      | inl InvalidTokenError =>
          raise (HTTPException status.HTTP_401_UNAUTHORIZED "Invalid token")
      end ;;
    let user_id_str := Payload.sub payload in
    let context := Payload.context payload in
    match user_id_str, context with
    | Some user_id_str, Some context =>
      if String.eqb user_id_str "" || String.eqb context "" then
        raise (HTTPException status.HTTP_401_UNAUTHORIZED "Invalid token payload")
      else
      match Py.int user_id_str with
      | None =>
          raise (HTTPException status.HTTP_401_UNAUTHORIZED "Invalid user ID in token")
      | Some user_id =>
        if String.eqb context "core" then
          user <- query.get_core_user_by_id user_id db_session ;;
          match user with
          | Some user =>
              if negb (CoreUser.is_active user) then
                raise (HTTPException status.HTTP_401_UNAUTHORIZED
                         "User not found or inactive")
              else ret (user_id, context, None)
          | None =>
              raise (HTTPException status.HTTP_401_UNAUTHORIZED
                       "User not found or inactive")
          end
        else if String.eqb context "tenant" then
          let tenant_slug := Payload.tenant payload in
          let org_id := Payload.org_id payload in
          match tenant_slug, org_id with
          | Some tenant_slug, Some org_id =>
            if String.eqb tenant_slug "" || (org_id =? 0) then
              raise (HTTPException status.HTTP_401_UNAUTHORIZED
                       "Invalid tenant token payload")
            else
              organization <- query.get_organization_by_slug tenant_slug db_session ;;
              match organization with
              | Some organization =>
                  if negb (Organization.id organization =? org_id) then
                    raise (HTTPException status.HTTP_401_UNAUTHORIZED
                             "Invalid tenant in token")
                  else ret (user_id, context, Some tenant_slug)
              | None =>
                  raise (HTTPException status.HTTP_401_UNAUTHORIZED
                           "Invalid tenant in token")
              end
          | _, _ =>
              raise (HTTPException status.HTTP_401_UNAUTHORIZED
                       "Invalid tenant token payload")
          end
        else
          raise (HTTPException status.HTTP_401_UNAUTHORIZED "Invalid context in token")
      end
    | _, _ =>
        raise (HTTPException status.HTTP_401_UNAUTHORIZED "Invalid token payload")
    end
  end.

Definition get_current_core_user_id
    (context_data : M (Z * string * option string)) : M Z :=
  ' (user_id, context, _) <- context_data ;;
  if negb (String.eqb context "core") then
    raise (HTTPException status.HTTP_403_FORBIDDEN "Access denied. Core user required")
  else ret user_id.

Definition get_current_tenant_user_id
    (context_data : M (Z * string * option string)) : M (Z * string) :=
  ' (user_id, context, tenant_slug) <- context_data ;;
  if negb (String.eqb context "tenant") then
    raise (HTTPException status.HTTP_403_FORBIDDEN "Access denied. Tenant user required")
  else
    match tenant_slug with
    | Some tenant_slug =>
        if String.eqb tenant_slug "" then
          raise (HTTPException status.HTTP_401_UNAUTHORIZED "Missing tenant information")
        else ret (user_id, tenant_slug)
    | None =>
        raise (HTTPException status.HTTP_401_UNAUTHORIZED "Missing tenant information")
    end.

Definition verify_organization_owner (organization_id : Z) (user_id : M Z)
    (db_session : AsyncSession) : M bool :=
  user_id <- user_id ;;
  is_owner <- query.check_organization_owner user_id organization_id db_session ;;
  if negb is_owner then
    raise (HTTPException status.HTTP_403_FORBIDDEN
             "Access denied. Organization owner required")
  else ret true.

End WithJwt.
End security.

(* ===================================================================== *)
(** ** [src/api/schemas.py] (the parts the endpoints below use) *)
(* ===================================================================== *)

Module schemas.

Record LoginRequest : Type := {
  login_email : string;
  login_password : string
}.

Record AuthResponse : Type := {
  success : bool;
  message : string;
  access_token : option string;
  refresh_token : option string;
  user_id : option Z;
  context : option string
}.

Record AccessToken : Type := { new_access_token : string }.

Record TenantUserResponse : Type := {
  id : Z;
  email : string;
  first_name : option string;
  last_name : option string;
  phone : option string;
  avatar : option string;
  bio : option string;
  is_active : bool;
  created_at : Z
}.

(** [TenantUserResponse.model_validate(user)] *)
Definition TenantUserResponse_model_validate (user : TenantUser.t)
  : TenantUserResponse :=
  {| id := TenantUser.id user;
     email := TenantUser.email user;
     first_name := TenantUser.first_name user;
     last_name := TenantUser.last_name user;
     phone := TenantUser.phone user;
     avatar := TenantUser.avatar user;
     bio := TenantUser.bio user;
     is_active := TenantUser.is_active user;
     created_at := TenantUser.created_at user |}.

(** A field of an update is unset ([None]) or set to a value, which may be
    [None] itself. *)
Record TenantUserUpdate : Type := {
  set_first_name : option (option string);
  set_last_name : option (option string);
  set_phone : option (option string);
  set_avatar : option (option string);
  set_bio : option (option string)
}.

End schemas.

(* ===================================================================== *)
(** ** [src/api/services.py] *)
(* ===================================================================== *)

Module services.

(** The dictionary a successful authentication returns. *)
Record AuthResult : Type := {
  success : bool;
  message : string;
  access_token : string;
  refresh_token : string;
  user_id : Z;
  context : string
}.

(** In [refresh_access_token] the variable [user] holds a core user or a
    tenant user, or [None]. *)
Inductive AnyUser : Type :=
| OfCore (u : CoreUser.t)
| OfTenant (u : TenantUser.t).

Definition user_is_active (u : AnyUser) : bool :=
  match u with
  | OfCore u => CoreUser.is_active u
  | OfTenant u => TenantUser.is_active u
  end.

(** [user.id] and [user.email]: on [None] the attribute access raises. *)
Definition getattr_id (user : option AnyUser) : M Z :=
  match user with
  | Some (OfCore u) => ret (CoreUser.id u)
  | Some (OfTenant u) => ret (TenantUser.id u)
  | None => raise (AttributeError "'NoneType' object has no attribute 'id'")
  end.

Definition getattr_email (user : option AnyUser) : M string :=
  match user with
  | Some (OfCore u) => ret (CoreUser.email u)
  | Some (OfTenant u) => ret (TenantUser.email u)
  | None => raise (AttributeError "'NoneType' object has no attribute 'email'")
  end.

(** [int(s)] inside a coroutine.  (The message shows the literal as
    [repr] writes one that needs no escape.) *)
Definition int_ (s : string) : M Z :=
  match Py.int s with
  | Some n => ret n
  | None => raise (ValueError ("invalid literal for int() with base 10: '" ++ s ++ "'"))
  end.

Definition claims (sub context : string) (tenant : option string)
    (org_id : option Z) (email : option string) : Payload.t :=
  {| Payload.sub := Some sub;
     Payload.context := Some context;
     Payload.tenant := tenant;
     Payload.org_id := org_id;
     Payload.email := email;
     Payload.iat := None;
     Payload.exp := None |}.

Section WithCollaborators.

(** [bcrypt.checkpw] on the UTF-8 encodings, where it returns: for a
    password of at most 72 bytes and a hash that [bcrypt.hashpw] made. *)
Variable verify_password : string -> string -> bool.

(** [src/api/jwt.py], at the time of the request. *)
Variable create_access_token : Payload.t -> string.
Variable create_refresh_token : Payload.t -> string.
Variable decode_token : string -> exn + Payload.t.

(** [datetime.utcnow()] *)
Variable utcnow : Z.

Definition authenticate_core_user (email password : string)
    (db_session : AsyncSession) : M AuthResult :=
  user <- query.get_core_user_by_email email db_session ;;
  match user with
  | None => raise (ValueError "Invalid credentials")
  | Some user =>
    if negb (verify_password password (CoreUser.hashed_password user)) then
      raise (ValueError "Invalid credentials")
    else if negb (CoreUser.is_active user) then
      raise (ValueError "Account is inactive")
    else
      let access_token :=
        create_access_token
          (claims (Py.str (CoreUser.id user)) "core" None None
                  (Some (CoreUser.email user))) in
      let refresh_token :=
        create_refresh_token
          (claims (Py.str (CoreUser.id user)) "core" None None None) in
      ret {| success := true;
             message := "Authentication successful";
             access_token := access_token;
             refresh_token := refresh_token;
             user_id := CoreUser.id user;
             context := "core" |}
  end.

Definition get_tenant_session (tenant_slug : string)
    (core_db_session : AsyncSession) : M (AsyncSession * Organization.t) :=
  organization <- query.get_organization_by_slug tenant_slug core_db_session ;;
  match organization with
  | None => raise (ValueError "Tenant not found")
  | Some organization => ret (core_db_session, organization)
  end.

Definition authenticate_tenant_user (email password tenant_slug : string)
    (core_db_session : AsyncSession) : M AuthResult :=
  ' (tenant_session, organization) <- get_tenant_session tenant_slug core_db_session ;;
  user <- query.get_tenant_user_by_email email tenant_session ;;
  match user with
  | None => raise (ValueError "Invalid credentials")
  | Some user =>
    if negb (verify_password password (TenantUser.hashed_password user)) then
      raise (ValueError "Invalid credentials")
    else if negb (TenantUser.is_active user) then
      raise (ValueError "Account is inactive")
    else
      let access_token :=
        create_access_token
          (claims (Py.str (TenantUser.id user)) "tenant" (Some tenant_slug)
                  (Some (Organization.id organization))
                  (Some (TenantUser.email user))) in
      let refresh_token :=
        create_refresh_token
          (claims (Py.str (TenantUser.id user)) "tenant" (Some tenant_slug)
                  (Some (Organization.id organization)) None) in
      ret {| success := true;
             message := "Authentication successful";
             access_token := access_token;
             refresh_token := refresh_token;
             user_id := TenantUser.id user;
             context := "tenant" |}
  end.

Definition get_tenant_user_profile (user_id : Z) (tenant_slug : string)
    (core_db_session : AsyncSession) : M TenantUser.t :=
  ' (tenant_session, _) <- get_tenant_session tenant_slug core_db_session ;;
  user <- query.get_tenant_user_by_id user_id tenant_session ;;
  match user with
  | None => raise (ValueError "User not found")
  | Some user => ret user
  end.

(** [setattr(user, field, value)] for the fields of the update that are
    set, then [user.updated_at = datetime.utcnow()]. *)
Definition apply_update (user : TenantUser.t) (update_data : schemas.TenantUserUpdate)
  : TenantUser.t :=
  let pick (new : option (option string)) (old : option string) :=
    match new with Some v => v | None => old end in
  {| TenantUser.id := TenantUser.id user;
     TenantUser.email := TenantUser.email user;
     TenantUser.hashed_password := TenantUser.hashed_password user;
     TenantUser.first_name :=
       pick (schemas.set_first_name update_data) (TenantUser.first_name user);
     TenantUser.last_name :=
       pick (schemas.set_last_name update_data) (TenantUser.last_name user);
     TenantUser.phone := pick (schemas.set_phone update_data) (TenantUser.phone user);
     TenantUser.is_active := TenantUser.is_active user;
     TenantUser.created_at := TenantUser.created_at user;
     TenantUser.updated_at := utcnow;
     TenantUser.avatar := pick (schemas.set_avatar update_data) (TenantUser.avatar user);
     TenantUser.bio := pick (schemas.set_bio update_data) (TenantUser.bio user);
     TenantUser.organization_id := TenantUser.organization_id user |}.

Fixpoint replace_row (user : TenantUser.t) (rows : list TenantUser.t)
  : list TenantUser.t :=
  match rows with
  | [] => []
  | r :: rows' =>
      if TenantUser.id r =? TenantUser.id user then user :: rows'
      else r :: replace_row user rows'
  end.

(** [await tenant_session.commit()] with [user] modified, then
    [refresh(user)], for values that fit their columns. *)
Definition commit_user (user : TenantUser.t) (db_session : AsyncSession) : M unit :=
  fun s =>
    let db := store s in
    (inr tt,
     {| store := {| core_users := core_users db;
                    organizations := organizations db;
                    tenant_users := replace_row user (tenant_users db);
                    organization_owners := organization_owners db |};
        executed := executed s ++ [Commit] |}).

Definition update_tenant_user_profile (user_id : Z)
    (update_data : schemas.TenantUserUpdate) (tenant_slug : string)
    (core_db_session : AsyncSession) : M TenantUser.t :=
  ' (tenant_session, _) <- get_tenant_session tenant_slug core_db_session ;;
  user <- query.get_tenant_user_by_id user_id tenant_session ;;
  match user with
  | None => raise (ValueError "User not found")
  | Some user =>
      let user := apply_update user update_data in
      _ <- commit_user user tenant_session ;;
      ret user
  end.

Definition refresh_access_token (refresh_token_str : string)
    (db_session : AsyncSession) : M schemas.AccessToken :=
  payload <-
    match decode_token refresh_token_str with
    | inr payload => ret payload
    | inl (ValueError _) => raise (ValueError "Invalid or expired refresh token")
    | inl e => raise e
    end ;;
  let user_id := Payload.sub payload in
  let context := Payload.context payload in
  match user_id, context with
  | Some user_id, Some context =>
    if String.eqb user_id "" || String.eqb context "" then
      raise (ValueError "Invalid token payload")
    else
      ' (user, token_data) <-
        (if String.eqb context "core" then
           uid <- int_ user_id ;;
           user <- query.get_core_user_by_id uid db_session ;;
           let user := option_map OfCore user in
           id <- getattr_id user ;;
           email <- getattr_email user ;;
           ret (user, claims (Py.str id) "core" None None (Some email))
         else if String.eqb context "tenant" then
           let tenant_slug := Payload.tenant payload in
           let org_id := Payload.org_id payload in
           match tenant_slug, org_id with
           | Some tenant_slug, Some org_id =>
             if String.eqb tenant_slug "" || (org_id =? 0) then
               raise (ValueError "Invalid tenant token payload")
             else
               ' (tenant_session, _) <- get_tenant_session tenant_slug db_session ;;
               uid <- int_ user_id ;;
               user <- query.get_tenant_user_by_id uid tenant_session ;;
               let user := option_map OfTenant user in
               id <- getattr_id user ;;
               email <- getattr_email user ;;
               ret (user, claims (Py.str id) "tenant" (Some tenant_slug)
                                 (Some org_id) (Some email))
           | _, _ => raise (ValueError "Invalid tenant token payload")
           end
         else raise (ValueError "Invalid context")) ;;
      match user with
      | None => raise (ValueError "User not found or inactive")
      | Some user =>
          if negb (user_is_active user) then
            raise (ValueError "User not found or inactive")
          else
            let access_token := create_access_token token_data in
            ret {| schemas.new_access_token := access_token |}
      end
  | _, _ => raise (ValueError "Invalid token payload")
  end.

End WithCollaborators.
End services.

(* ===================================================================== *)
(** ** [src/api/endpoints.py] *)
(* ===================================================================== *)

Module endpoints.
Section WithCollaborators.

Variable verify_password : string -> string -> bool.
Variable create_access_token : Payload.t -> string.
Variable create_refresh_token : Payload.t -> string.
Variable decode_token : string -> exn + Payload.t.
Variable utcnow : Z.

(** [try: body  except ValueError as e: on_value_error  except Exception as
    e: on_exception]: every exception that is not a [ValueError], an
    [HTTPException] raised by the body included, reaches the second
    clause. *)
Definition try_endpoint {A} (body : M A)
    (on_value_error : string -> M A) (on_exception : string -> M A) : M A :=
  try_except body
    (fun e =>
       if is_ValueError e then on_value_error (str_exn e)
       else on_exception (str_exn e)).

(** [if tenant_context:] on the optional [X-Tenant] header. *)
Definition header_given (x_tenant : option string) : option string :=
  match x_tenant with
  | Some v => if String.eqb v "" then None else Some v
  | None => None
  end.

Definition AuthResponse_of (result : services.AuthResult) : schemas.AuthResponse :=
  {| schemas.success := services.success result;
     schemas.message := services.message result;
     schemas.access_token := Some (services.access_token result);
     schemas.refresh_token := Some (services.refresh_token result);
     schemas.user_id := Some (services.user_id result);
     schemas.context := Some (services.context result) |}.

Definition login (login_data : schemas.LoginRequest)
    (tenant_context : option string) (db_session : AsyncSession)
  : M schemas.AuthResponse :=
  try_endpoint
    (result <-
       match header_given tenant_context with
       | Some tenant_context =>
           services.authenticate_tenant_user verify_password
             create_access_token create_refresh_token
             (schemas.login_email login_data) (schemas.login_password login_data)
             tenant_context db_session
       | None =>
           services.authenticate_core_user verify_password
             create_access_token create_refresh_token
             (schemas.login_email login_data) (schemas.login_password login_data)
             db_session
       end ;;
     ret (AuthResponse_of result))
    (fun e =>
       if Py.contains "Invalid credentials" e then
         raise (HTTPException status.HTTP_401_UNAUTHORIZED e)
       else if Py.contains "Account is inactive" e then
         raise (HTTPException status.HTTP_401_UNAUTHORIZED e)
       else if Py.contains "Tenant not found" e then
         raise (HTTPException status.HTTP_404_NOT_FOUND e)
       else raise (HTTPException 400 e))
    (fun e => raise (HTTPException 500 ("Authentication error: " ++ e))).

Definition refresh_token (refresh_data : string) (db_session : AsyncSession)
  : M schemas.AccessToken :=
  try_endpoint
    (services.refresh_access_token create_access_token decode_token
       refresh_data db_session)
    (fun e => raise (HTTPException status.HTTP_401_UNAUTHORIZED e))
    (fun e => raise (HTTPException 500 ("Token refresh error: " ++ e))).

Definition get_user_profile (user_context : Z * string)
    (tenant_context : option string) (db_session : AsyncSession)
  : M schemas.TenantUserResponse :=
  try_endpoint
    (let '(user_id, token_tenant) := user_context in
     match header_given tenant_context with
     | None =>
         raise (HTTPException status.HTTP_400_BAD_REQUEST "X-TENANT header required")
     | Some tenant_context =>
         if negb (String.eqb token_tenant tenant_context) then
           raise (HTTPException status.HTTP_403_FORBIDDEN
                    "Token tenant does not match request tenant")
         else
           user <- services.get_tenant_user_profile user_id tenant_context db_session ;;
           ret (schemas.TenantUserResponse_model_validate user)
     end)
    (fun e =>
       if Py.contains "User not found" e then raise (HTTPException 404 e)
       else raise (HTTPException 400 e))
    (fun e => raise (HTTPException 500 ("Profile retrieval error: " ++ e))).

Definition update_user_profile (update_data : schemas.TenantUserUpdate)
    (user_context : Z * string) (tenant_context : option string)
    (db_session : AsyncSession) : M schemas.TenantUserResponse :=
  try_endpoint
    (let '(user_id, token_tenant) := user_context in
     match header_given tenant_context with
     | None =>
         raise (HTTPException status.HTTP_400_BAD_REQUEST "X-TENANT header required")
     | Some tenant_context =>
         if negb (String.eqb token_tenant tenant_context) then
           raise (HTTPException status.HTTP_403_FORBIDDEN
                    "Token tenant does not match request tenant")
         else
           user <- services.update_tenant_user_profile utcnow user_id update_data
                     tenant_context db_session ;;
           ret (schemas.TenantUserResponse_model_validate user)
     end)
    (fun e =>
       if Py.contains "User not found" e then raise (HTTPException 404 e)
       else raise (HTTPException 400 e))
    (fun e => raise (HTTPException 500 ("Profile update error: " ++ e))).

End WithCollaborators.
End endpoints.

(* ===================================================================== *)
(** ** The token codec *)
(* ===================================================================== *)

(** Neither [src/api/jwt.py] nor the [jwt] package it wraps is part of the
    sources at hand; the codec is modelled from the specification's
    description of it (sections 4.1 and 6) and from the behaviour its tests
    record.  Octet strings are [string]s, a character being an octet. *)

Module base64url.

(** Modelled from the spec: the digits of base64url text (section 6), six
    bits each, the most significant first. *)
Definition sextet : Type := (bool * bool * bool * bool * bool * bool)%type.

Definition index (s : sextet) : N :=
  let '(b5, b4, b3, b2, b1, b0) := s in
  (32 * N.b2n b5 + 16 * N.b2n b4 + 8 * N.b2n b3
   + 4 * N.b2n b2 + 2 * N.b2n b1 + N.b2n b0)%N.

Definition of_index (n : N) : sextet :=
  (N.testbit n 5, N.testbit n 4, N.testbit n 3,
   N.testbit n 2, N.testbit n 1, N.testbit n 0).

(** Modelled from the spec: the URL-safe alphabet of the token's segments,
    [A-Z a-z 0-9 - _]. *)
Definition to_char (s : sextet) : ascii :=
  let n := index s in
  if (n <? 26)%N then ascii_of_N (65 + n)
  else if (n <? 52)%N then ascii_of_N (97 + (n - 26))
  else if (n <? 62)%N then ascii_of_N (48 + (n - 52))
  else if (n =? 62)%N then "-"%char
  else "_"%char.

Definition of_char (c : ascii) : option sextet :=
  let n := N_of_ascii c in
  if ((65 <=? n) && (n <=? 90))%N then Some (of_index (n - 65))
  else if ((97 <=? n) && (n <=? 122))%N then Some (of_index (n - 97 + 26))
  else if ((48 <=? n) && (n <=? 57))%N then Some (of_index (n - 48 + 52))
  else if Ascii.eqb c "-" then Some (of_index 62)
  else if Ascii.eqb c "_" then Some (of_index 63)
  else None.

(** Modelled from the spec: the four sextets of three octets [a], [b],
    [c] of a segment. *)
Definition first (a : ascii) : sextet :=
  let 'Ascii _ _ a2 a3 a4 a5 a6 a7 := a in (a7, a6, a5, a4, a3, a2).

Definition second (a b : ascii) : sextet :=
  let 'Ascii a0 a1 _ _ _ _ _ _ := a in
  let 'Ascii _ _ _ _ b4 b5 b6 b7 := b in (a1, a0, b7, b6, b5, b4).

Definition third (b c : ascii) : sextet :=
  let 'Ascii b0 b1 b2 b3 _ _ _ _ := b in
  let 'Ascii _ _ _ _ _ _ c6 c7 := c in (b3, b2, b1, b0, c7, c6).

Definition fourth (c : ascii) : sextet :=
  let 'Ascii c0 c1 c2 c3 c4 c5 _ _ := c in (c5, c4, c3, c2, c1, c0).

(** Modelled from the spec: a segment is the base64url text of its octets,
    without padding. *)
Fixpoint encode (octets : string) : string :=
  match octets with
  | EmptyString => EmptyString
  | String a EmptyString =>
      String (to_char (first a)) (String (to_char (second a zero)) EmptyString)
  | String a (String b EmptyString) =>
      String (to_char (first a)) (String (to_char (second a b))
        (String (to_char (third b zero)) EmptyString))
  | String a (String b (String c rest)) =>
      String (to_char (first a)) (String (to_char (second a b))
        (String (to_char (third b c)) (String (to_char (fourth c)) (encode rest))))
  end.

(** Modelled from the spec: the octets that the sextets [x], [y], [z], [w]
    of a segment carry. *)
Definition octet1 (x y : sextet) : ascii :=
  let '(x5, x4, x3, x2, x1, x0) := x in
  let '(y5, y4, _, _, _, _) := y in
  Ascii y4 y5 x0 x1 x2 x3 x4 x5.

Definition octet2 (y z : sextet) : ascii :=
  let '(_, _, y3, y2, y1, y0) := y in
  let '(z5, z4, z3, z2, _, _) := z in
  Ascii z2 z3 z4 z5 y0 y1 y2 y3.

Definition octet3 (z w : sextet) : ascii :=
  let '(_, _, _, _, z1, z0) := z in
  let '(w5, w4, w3, w2, w1, w0) := w in
  Ascii w0 w1 w2 w3 w4 w5 z0 z1.

(** Modelled from the spec: reading a segment back; [None] when the text is
    not base64url. *)
Fixpoint decode (text : string) : option string :=
  match text with
  | EmptyString => Some EmptyString
  | String _ EmptyString => None
  | String c1 (String c2 EmptyString) =>
      match of_char c1, of_char c2 with
      | Some x, Some y => Some (String (octet1 x y) EmptyString)
      | _, _ => None
      end
  | String c1 (String c2 (String c3 EmptyString)) =>
      match of_char c1, of_char c2, of_char c3 with
      | Some x, Some y, Some z =>
          Some (String (octet1 x y) (String (octet2 y z) EmptyString))
      | _, _, _ => None
      end
  | String c1 (String c2 (String c3 (String c4 rest))) =>
      match of_char c1, of_char c2, of_char c3, of_char c4, decode rest with
      | Some x, Some y, Some z, Some w, Some octets =>
          Some (String (octet1 x y) (String (octet2 y z) (String (octet3 z w) octets)))
      | _, _, _, _, _ => None
      end
  end.

End base64url.

(** Flipping bits of one octet: the octet at index [i] is combined with a
    mask by exclusive or. *)
Definition xor_octet (mask c : ascii) : ascii :=
  let 'Ascii m0 m1 m2 m3 m4 m5 m6 m7 := mask in
  let 'Ascii c0 c1 c2 c3 c4 c5 c6 c7 := c in
  Ascii (xorb m0 c0) (xorb m1 c1) (xorb m2 c2) (xorb m3 c3)
        (xorb m4 c4) (xorb m5 c5) (xorb m6 c6) (xorb m7 c7).

Fixpoint flip (i : nat) (mask : ascii) (octets : string) : string :=
  match octets, i with
  | EmptyString, _ => EmptyString
  | String c rest, O => String (xor_octet mask c) rest
  | String c rest, S i' => String c (flip i' mask rest)
  end.

(** Modelled from the spec: the payload of a token is the claim set as a
    flat key/value map (section 6), with string and integer values.  It is
    written as an object in the notation of JSON: members between braces
    and separated by commas, strings between double quotes with a
    backslash before a double quote or a backslash, integers in decimal. *)
Module json.

Definition quote : ascii := ascii_of_nat 34.
Definition backslash : ascii := ascii_of_nat 92.

Inductive value : Type :=
| Text (s : string)
| Number (n : Z).

Fixpoint escape (s : string) : string :=
  match s with
  | EmptyString => EmptyString
  | String c rest =>
      if Ascii.eqb c quote || Ascii.eqb c backslash
      then String backslash (String c (escape rest))
      else String c (escape rest)
  end.

Definition write_string (s : string) : string :=
  String quote (escape s ++ String quote EmptyString).

Definition write_value (v : value) : string :=
  match v with
  | Text s => write_string s
  | Number n => Py.str n
  end.

Definition write_member (m : string * value) : string :=
  write_string (fst m) ++ ":" ++ write_value (snd m).

Fixpoint write_rest (ms : list (string * value)) : string :=
  match ms with
  | [] => "}"
  | m :: ms' => "," ++ write_member m ++ write_rest ms'
  end.

Definition write_object (ms : list (string * value)) : string :=
  match ms with
  | [] => "{}"
  | m :: ms' => "{" ++ write_member m ++ write_rest ms'
  end.

(** The characters of a string up to its closing quote, and the text after
    it. *)
Fixpoint read_chars (text : string) : option (string * string) :=
  match text with
  | EmptyString => None
  | String c rest =>
      if Ascii.eqb c quote then Some (EmptyString, rest)
      else if Ascii.eqb c backslash then
        match rest with
        | String d rest' =>
            match read_chars rest' with
            | Some (s, after) => Some (String d s, after)
            | None => None
            end
        | EmptyString => None
        end
      else
        match read_chars rest with
        | Some (s, after) => Some (String c s, after)
        | None => None
        end
  end.

Definition read_string (text : string) : option (string * string) :=
  match text with
  | String c rest => if Ascii.eqb c quote then read_chars rest else None
  | EmptyString => None
  end.

(** The text up to the next comma or closing brace, and the text from
    there. *)
Fixpoint read_literal (text : string) : string * string :=
  match text with
  | EmptyString => (EmptyString, EmptyString)
  | String c rest =>
      if Ascii.eqb c "," || Ascii.eqb c "}" then (EmptyString, text)
      else let (literal, after) := read_literal rest in (String c literal, after)
  end.

Definition read_value (text : string) : option (value * string) :=
  match text with
  | String c rest =>
      if Ascii.eqb c quote then
        match read_chars rest with
        | Some (s, after) => Some (Text s, after)
        | None => None
        end
      else
        let (literal, after) := read_literal text in
        match Py.int literal with
        | Some n => Some (Number n, after)
        | None => None
        end
  | EmptyString => None
  end.

Definition read_member (text : string) : option ((string * value) * string) :=
  match read_string text with
  | Some (key, String c rest) =>
      if Ascii.eqb c ":" then
        match read_value rest with
        | Some (v, after) => Some ((key, v), after)
        | None => None
        end
      else None
  | _ => None
  end.

(** The members after the first, up to the closing brace, which ends the
    text.  [fuel] bounds the number of members. *)
Fixpoint read_rest (fuel : nat) (text : string) : option (list (string * value)) :=
  match fuel with
  | O => None
  | S fuel' =>
      match text with
      | String c rest =>
          if Ascii.eqb c "}" then
            if String.eqb rest EmptyString then Some [] else None
          else if Ascii.eqb c "," then
            match read_member rest with
            | Some (m, after) =>
                match read_rest fuel' after with
                | Some ms => Some (m :: ms)
                | None => None
                end
            | None => None
            end
          else None
      | EmptyString => None
      end
  end.

Definition read_object (text : string) : option (list (string * value)) :=
  match text with
  | String c rest =>
      if Ascii.eqb c "{" then
        if String.eqb rest "}" then Some []
        else
          match read_member rest with
          | Some (m, after) =>
              match read_rest (String.length after) after with
              | Some ms => Some (m :: ms)
              | None => None
              end
          | None => None
          end
      else None
  | EmptyString => None
  end.

(** The members of a claim set: its entries under the keys of the wire
    format, an absent entry left out. *)
Definition text_member (key : string) (entry : option string)
  : list (string * value) :=
  match entry with
  | Some s => [(key, Text s)]
  | None => []
  end.

Definition number_member (key : string) (entry : option Z)
  : list (string * value) :=
  match entry with
  | Some n => [(key, Number n)]
  | None => []
  end.

Definition members (p : Payload.t) : list (string * value) :=
  text_member "sub" (Payload.sub p)
    ++ text_member "context" (Payload.context p)
    ++ text_member "tenant" (Payload.tenant p)
    ++ number_member "org_id" (Payload.org_id p)
    ++ text_member "email" (Payload.email p)
    ++ number_member "iat" (Payload.iat p)
    ++ number_member "exp" (Payload.exp p).

(** Modelled from the spec: the serialisation of a claim set (section 6). *)
Definition dumps (p : Payload.t) : string := write_object (members p).

Definition get (key : string) (ms : list (string * value)) : option value :=
  match find (fun m => String.eqb (fst m) key) ms with
  | Some m => Some (snd m)
  | None => None
  end.

(** An entry that is to hold a string; [None] when the member holds a
    number. *)
Definition text_entry (v : option value) : option (option string) :=
  match v with
  | None => Some None
  | Some (Text s) => Some (Some s)
  | Some (Number _) => None
  end.

Definition number_entry (v : option value) : option (option Z) :=
  match v with
  | None => Some None
  | Some (Number n) => Some (Some n)
  | Some (Text _) => None
  end.

Definition payload_of (ms : list (string * value)) : option Payload.t :=
  match text_entry (get "sub" ms), text_entry (get "context" ms),
        text_entry (get "tenant" ms), number_entry (get "org_id" ms),
        text_entry (get "email" ms), number_entry (get "iat" ms),
        number_entry (get "exp" ms) with
  | Some sub, Some context, Some tenant, Some org_id, Some email, Some iat, Some exp =>
      Some {| Payload.sub := sub;
              Payload.context := context;
              Payload.tenant := tenant;
              Payload.org_id := org_id;
              Payload.email := email;
              Payload.iat := iat;
              Payload.exp := exp |}
  | _, _, _, _, _, _, _ => None
  end.

(** Modelled from the spec: the claim set a payload segment holds, if it
    is one. *)
Definition loads (text : string) : option Payload.t :=
  match read_object text with
  | Some ms => payload_of ms
  | None => None
  end.

End json.

Module jwt.

(** [security.ALGORITHM] *)
Definition ALGORITHM : string := "HS256".

Definition quoted (s : string) : string :=
  String (ascii_of_nat 34) (s ++ String (ascii_of_nat 34) EmptyString).

(** Modelled from the spec: the header segment of a token (section 6)
    carries the algorithm identifier; written as the JSON object with the
    entries [alg] and [typ]. *)
Definition JOSE_HEADER : string :=
  "{" ++ quoted "alg" ++ ":" ++ quoted ALGORITHM ++ ","
      ++ quoted "typ" ++ ":" ++ quoted "JWT" ++ "}".

(** Modelled from the spec: what [issue] of section 4.1 serialises,
    [claims] plus the computed [iat] and [exp = iat + ttl]. *)
Definition stamp (now ttl : Z) (claims : Payload.t) : Payload.t :=
  {| Payload.sub := Payload.sub claims;
     Payload.context := Payload.context claims;
     Payload.tenant := Payload.tenant claims;
     Payload.org_id := Payload.org_id claims;
     Payload.email := Payload.email claims;
     Payload.iat := Some now;
     Payload.exp := Some (now + ttl) |}.

Section Codec.

(** The process-wide secret and the symmetric signature algorithm (key,
    then message). *)
Variable SECRET_KEY : string.
Variable hmac_sha256 : string -> string -> string.

(** The serialisation of a claim set as a flat key/value map. *)
Variable json_dumps : Payload.t -> string.
Variable json_loads : string -> option Payload.t.

(** Lifetimes in seconds: minutes for access tokens, days for refresh
    tokens. *)
Variable ACCESS_TOKEN_EXPIRE : Z.
Variable REFRESH_TOKEN_EXPIRE : Z.

(** Modelled from the spec: the wire format of a token (section 6), three
    dot-separated base64url segments: header, payload, signature over the
    first two. *)
Definition signing_input (payload : Payload.t) : string :=
  base64url.encode JOSE_HEADER ++ "." ++ base64url.encode (json_dumps payload).

(** Modelled from the spec: the compact string of a signed text and a
    signature. *)
Definition compact (signed signature : string) : string :=
  signed ++ "." ++ base64url.encode signature.

(** Modelled from the spec: signing with the process-wide secret. *)
Definition encode (payload : Payload.t) : string :=
  compact (signing_input payload) (hmac_sha256 SECRET_KEY (signing_input payload)).

(** Modelled from the spec: [verify] of section 4.1 at time [now].  The
    token is refused as invalid when its structure cannot be parsed or its
    signature does not verify, and as expired when [now > exp]. *)
Definition decode (now : Z) (token : string) : jwt_error + Payload.t :=
  match Py.split "." token with
  | [h; p; s] =>
      match base64url.decode h, base64url.decode p, base64url.decode s with
      | Some header, Some body, Some signature =>
          if negb (String.eqb header JOSE_HEADER) then inl InvalidTokenError
          else if negb (String.eqb signature (hmac_sha256 SECRET_KEY (h ++ "." ++ p)))
          then inl InvalidTokenError
          else
            match json_loads body with
            | Some payload =>
                match Payload.exp payload with
                | Some exp => if exp <? now then inl ExpiredSignatureError else inr payload
                | None => inr payload
                end
            | None => inl InvalidTokenError
            end
      | _, _, _ => inl InvalidTokenError
      end
  | _ => inl InvalidTokenError
  end.

(** Modelled from the spec: the structure of a token that can be parsed
    (section 6), namely the text that was signed, the octets of the
    signature, and the claim set. *)
Definition parse (token : string) : option (string * string * Payload.t) :=
  match Py.split "." token with
  | [h; p; s] =>
      match base64url.decode h, base64url.decode p, base64url.decode s with
      | Some header, Some body, Some signature =>
          if String.eqb header JOSE_HEADER then
            match json_loads body with
            | Some payload => Some (h ++ "." ++ p, signature, payload)
            | None => None
            end
          else None
      | _, _, _ => None
      end
  | _ => None
  end.

(** Modelled from the spec: the signature of a parsed token verifies. *)
Definition signature_verifies (signed signature : string) : bool :=
  String.eqb signature (hmac_sha256 SECRET_KEY signed).

(** Modelled from the spec: [issue(claims, ttl)] of section 4.1 at time
    [now]. *)
Definition issue (now : Z) (claims : Payload.t) (ttl : Z) : string :=
  encode (stamp now ttl claims).

(** Modelled from the spec: [create_access_token(data, expires_delta)] of
    [src/api/jwt.py]; the default lifetime applies when no delta is given. *)
Definition create_access_token (now : Z) (data : Payload.t)
    (expires_delta : option Z) : string :=
  issue now data (match expires_delta with
                  | Some delta => delta
                  | None => ACCESS_TOKEN_EXPIRE
                  end).

(** Modelled from the spec: [create_refresh_token(data)] of
    [src/api/jwt.py]. *)
Definition create_refresh_token (now : Z) (data : Payload.t) : string :=
  issue now data REFRESH_TOKEN_EXPIRE.

(** Modelled from the spec: [decode_token(token)] of [src/api/jwt.py], which
    turns the codec's two errors into [ValueError]s with the messages the
    tests expect. *)
Definition decode_token (now : Z) (token : string) : exn + Payload.t :=
  match decode now token with
  | inr payload => inr payload
  | inl ExpiredSignatureError => inl (ValueError "Token has expired")
  | inl InvalidTokenError => inl (ValueError "Invalid token")
  end.

End Codec.
End jwt.

(* ===================================================================== *)
(** ** Outcomes and notions the properties are stated with *)
(* ===================================================================== *)

(** The request is refused as unauthenticated: status 401, whatever the
    detail. *)
Definition Unauthenticated {A} (r : exn + A) : Prop :=
  exists detail, r = inl (HTTPException status.HTTP_401_UNAUTHORIZED detail).

(** [o] is a live organization for [slug]: it has the slug and is active. *)
Definition live (slug : string) (o : Organization.t) : Prop :=
  Organization.slug o = slug /\ Organization.is_active o = true.

(** The session after the statements [stmts] were executed on it. *)
Definition after (s : Session) (stmts : list Statement) : Session :=
  {| store := store s; executed := executed s ++ stmts |}.

(** A tenant user belongs to the organization its row links it to. *)
Definition belongs_to (u : TenantUser.t) (o : Organization.t) : Prop :=
  TenantUser.organization_id u = Organization.id o.

(* ===================================================================== *)
(** ** A small deployment, for concrete runs *)
(* ===================================================================== *)

Module Scenario.

Definition organization (id : Z) (slug : string) (is_active : bool) : Organization.t :=
  {| Organization.id := id;
     Organization.name := slug;
     Organization.slug := slug;
     Organization.description := None;
     Organization.is_active := is_active;
     Organization.created_at := 0;
     Organization.database_name := "tenant_" ++ slug |}.

Definition acme : Organization.t := organization 1 "acme" true.
Definition other : Organization.t := organization 2 "other" true.
Definition closed : Organization.t := organization 3 "closed" false.

Definition core_user (id : Z) (email hashed : string) (is_active : bool) : CoreUser.t :=
  {| CoreUser.id := id;
     CoreUser.email := email;
     CoreUser.hashed_password := hashed;
     CoreUser.first_name := None;
     CoreUser.last_name := None;
     CoreUser.is_active := is_active;
     CoreUser.created_at := 0 |}.

Definition tenant_user (id : Z) (email hashed : string) (is_active : bool)
    (organization_id : Z) : TenantUser.t :=
  {| TenantUser.id := id;
     TenantUser.email := email;
     TenantUser.hashed_password := hashed;
     TenantUser.first_name := None;
     TenantUser.last_name := None;
     TenantUser.phone := None;
     TenantUser.is_active := is_active;
     TenantUser.created_at := 0;
     TenantUser.updated_at := 0;
     TenantUser.avatar := None;
     TenantUser.bio := None;
     TenantUser.organization_id := organization_id |}.

(** A stand-in for [bcrypt]: the hash of [p] is ["hash(p)"]. *)
Definition checkpw (password hashed : string) : bool :=
  String.eqb hashed ("hash(" ++ password ++ ")").

Definition alice : CoreUser.t := core_user 1 "alice@example.com" "hash(Passw0rd!)" true.
Definition carol : CoreUser.t := core_user 2 "carol@example.com" "hash(Passw0rd!)" false.

(** [bob] is a user of [other]; [dave] is a deactivated user of [acme]. *)
Definition bob : TenantUser.t := tenant_user 7 "bob@example.com" "hash(Secret123)" true 2.
Definition dave : TenantUser.t := tenant_user 8 "dave@example.com" "hash(Secret123)" false 1.

Definition db : Database :=
  {| core_users := [alice; carol];
     organizations := [acme; other; closed];
     tenant_users := [bob; dave];
     organization_owners := [(1, 1)] |}.

(** The claims of a tenant token. *)
Definition tenant_claims (sub tenant : string) (org_id : Z) : Payload.t :=
  services.claims sub "tenant" (Some tenant) (Some org_id) None.

Definition core_claims (sub : string) : Payload.t :=
  services.claims sub "core" None None None.

(** A decoder for which every token verifies, with payload [p]. *)
Definition verified (p : Payload.t) (token : string) : jwt_error + Payload.t := inr p.

(** Stand-ins for the collaborators of the codec: a keyed digest that is
    the key followed by the message, and a serialisation that writes the
    seven entries of a claim set separated by bars, an absent entry as the
    empty text. *)
Definition SECRET_KEY : string := "secret".
Definition digest (key message : string) : string := key ++ message.
Definition now : Z := 1000.
Definition ACCESS_TOKEN_EXPIRE : Z := 900.
Definition REFRESH_TOKEN_EXPIRE : Z := 604800.

Definition text_of (entry : option string) : string :=
  match entry with Some text => text | None => EmptyString end.

Definition number_of (entry : option Z) : string :=
  match entry with Some n => Py.str n | None => EmptyString end.

Definition dumps (p : Payload.t) : string :=
  text_of (Payload.sub p) ++ "|" ++ text_of (Payload.context p)
    ++ "|" ++ text_of (Payload.tenant p) ++ "|" ++ number_of (Payload.org_id p)
    ++ "|" ++ text_of (Payload.email p) ++ "|" ++ number_of (Payload.iat p)
    ++ "|" ++ number_of (Payload.exp p).

Definition text_entry (text : string) : option string :=
  if String.eqb text EmptyString then None else Some text.

(** [None] when the text is not a number, [Some None] when it is empty. *)
Definition number_entry (text : string) : option (option Z) :=
  if String.eqb text EmptyString then Some None
  else match Py.int text with
       | Some n => Some (Some n)
       | None => None
       end.

Definition loads (body : string) : option Payload.t :=
  match Py.split "|" body with
  | [sub; context; tenant; org_id; email; iat; exp] =>
      match number_entry org_id, number_entry iat, number_entry exp with
      | Some org_id, Some iat, Some exp =>
          Some {| Payload.sub := text_entry sub;
                  Payload.context := text_entry context;
                  Payload.tenant := text_entry tenant;
                  Payload.org_id := org_id;
                  Payload.email := text_entry email;
                  Payload.iat := iat;
                  Payload.exp := exp |}
      | _, _, _ => None
      end
  | _ => None
  end.

Definition create_access_token (data : Payload.t) : string :=
  jwt.create_access_token SECRET_KEY digest dumps ACCESS_TOKEN_EXPIRE now data None.

Definition create_refresh_token (data : Payload.t) : string :=
  jwt.create_refresh_token SECRET_KEY digest dumps REFRESH_TOKEN_EXPIRE now data.

Definition decode_token (token : string) : exn + Payload.t :=
  jwt.decode_token SECRET_KEY digest loads now token.

Definition jwt_decode (token : string) : jwt_error + Payload.t :=
  jwt.decode SECRET_KEY digest loads now token.

End Scenario.

(* ===================================================================== *)
(** ** Further notions the properties are stated with *)
(* ===================================================================== *)

(** The token written for [data] verifies, at the time of the request, to a
    payload with the subject, context and tenant binding of [data]. *)
Definition reads_back (jwt_decode : string -> jwt_error + Payload.t)
    (create_token : Payload.t -> string) (data : Payload.t) : Prop :=
  exists payload,
    jwt_decode (create_token data) = inr payload
    /\ Payload.sub payload = Payload.sub data
    /\ Payload.context payload = Payload.context data
    /\ Payload.tenant payload = Payload.tenant data
    /\ Payload.org_id payload = Payload.org_id data.

(** The primary keys of the three tables. *)
Definition unique_ids (db : Database) : Prop :=
  NoDup (map CoreUser.id (core_users db))
  /\ NoDup (map Organization.id (organizations db))
  /\ NoDup (map TenantUser.id (tenant_users db)).

(** The unique indexes on the email columns. *)
Definition unique_emails (db : Database) : Prop :=
  NoDup (map CoreUser.email (core_users db))
  /\ NoDup (map TenantUser.email (tenant_users db)).

(** The values of a profile update fit the columns they are written to
    ([String(100)], [String(100)], [String(20)], [String(500)],
    [String(1000)] in [models.py]); an unset entry and [None] always fit. *)
Definition within (n : nat) (entry : option (option string)) : Prop :=
  match entry with
  | Some (Some text) => (String.length text <= n)%nat
  | _ => True
  end.


(* ===================================================================== *)
(** ** [src/api/schemas.py]: the request bodies and their validators *)
(* ===================================================================== *)

(** The character classes and the two uses of [re] in the validators. *)
Module re.

Definition code (c : ascii) : N := N_of_ascii c.

(** [[A-Z]], [[a-z]], [\d] (among code points below 256) and
    [[a-z0-9-]]. *)
Definition upper (c : ascii) : bool := ((65 <=? code c) && (code c <=? 90))%N.
Definition lower (c : ascii) : bool := ((97 <=? code c) && (code c <=? 122))%N.
Definition digit (c : ascii) : bool := ((48 <=? code c) && (code c <=? 57))%N.
Definition slug_char (c : ascii) : bool := lower c || digit c || Ascii.eqb c "-".

(** [re.search(r'[class]', text)] is not [None]. *)
Definition search (class : ascii -> bool) (text : string) : bool :=
  existsb class (list_ascii_of_string text).

(** [re.match(r'^[class]+$', text)] is not [None]: one or more characters of
    the class and then the end of the text, which [$] also sees before a
    final newline. *)
Fixpoint match_all (class : ascii -> bool) (seen : bool) (text : string) : bool :=
  match text with
  | EmptyString => seen
  | String c rest =>
      if class c then match_all class true rest
      else seen && Ascii.eqb c (ascii_of_nat 10) && String.eqb rest EmptyString
  end.

End re.

Module CoreUserCreate.

Record t : Type := {
  email : string;
  password : string;
  first_name : option string;
  last_name : option string
}.

Definition validate_password (password : string) : exn + string :=
  if String.eqb password EmptyString then inl (ValueError "Password is required")
  else if (String.length password <? 8)%nat then
    inl (ValueError "Password must contain at least 8 characters")
  else if negb (re.search re.upper password) then
    inl (ValueError "Password must contain at least one uppercase letter")
  else if negb (re.search re.lower password) then
    inl (ValueError "Password must contain at least one lowercase letter")
  else if negb (re.search re.digit password) then
    inl (ValueError "Password must contain at least one digit")
  else inr password.

End CoreUserCreate.

Module TenantUserCreate.

Record t : Type := {
  email : string;
  password : string;
  first_name : option string;
  last_name : option string;
  phone : option string
}.

Definition validate_password (password : string) : exn + string :=
  if String.eqb password EmptyString then inl (ValueError "Password is required")
  else if (String.length password <? 8)%nat then
    inl (ValueError "Password must contain at least 8 characters")
  else if negb (re.search re.upper password) then
    inl (ValueError "Password must contain at least one uppercase letter")
  else if negb (re.search re.lower password) then
    inl (ValueError "Password must contain at least one lowercase letter")
  else if negb (re.search re.digit password) then
    inl (ValueError "Password must contain at least one digit")
  else inr password.

End TenantUserCreate.

Module OrganizationCreate.

Record t : Type := {
  name : string;
  slug : string;
  description : option string
}.

(** [constr(min_length, max_length)] *)
Definition length_between (least most : nat) (text : string) : bool :=
  ((least <=? String.length text) && (String.length text <=? most))%nat.

(** The [pattern] of the [constr]: the whole text is one or more characters
    of the class. *)
Definition pattern (text : string) : bool :=
  negb (String.eqb text EmptyString)
  && forallb re.slug_char (list_ascii_of_string text).

Definition validate_slug (slug : string) : exn + string :=
  if negb (re.match_all re.slug_char false slug) then
    inl (ValueError "Slug can only contain lowercase letters, numbers, and hyphens")
  else inr slug.

(** The body passes the constraints of its fields and the validator that
    runs after them. *)
Definition accepted (org_data : t) : bool :=
  length_between 2 255 (name org_data)
  && length_between 2 100 (slug org_data)
  && pattern (slug org_data)
  && match validate_slug (slug org_data) with inr _ => true | inl _ => false end.

End OrganizationCreate.

Module CoreUserResponse.

Record t : Type := {
  id : Z;
  email : string;
  first_name : option string;
  last_name : option string;
  is_active : bool;
  created_at : Z
}.

Definition model_validate (user : CoreUser.t) : t :=
  {| id := CoreUser.id user;
     email := CoreUser.email user;
     first_name := CoreUser.first_name user;
     last_name := CoreUser.last_name user;
     is_active := CoreUser.is_active user;
     created_at := CoreUser.created_at user |}.

End CoreUserResponse.

Module OrganizationResponse.

Record t : Type := {
  id : Z;
  name : string;
  slug : string;
  description : option string;
  is_active : bool;
  created_at : Z;
  database_name : string
}.

Definition model_validate (organization : Organization.t) : t :=
  {| id := Organization.id organization;
     name := Organization.name organization;
     slug := Organization.slug organization;
     description := Organization.description organization;
     is_active := Organization.is_active organization;
     created_at := Organization.created_at organization;
     database_name := Organization.database_name organization |}.

End OrganizationResponse.

(* ===================================================================== *)
(** ** What the database enforces when a new row is flushed *)
(* ===================================================================== *)

(** The columns and constraints are those of [src/models.py] and of the
    initial migration: [String(n)] columns, unique indexes on the emails
    and on the slug, a unique constraint on [database_name], primary keys
    assigned by the database. *)
Module postgres.

Inductive DBAPIError : Type :=
| IntegrityError
| DataError.

Definition all_spaces (text : string) : bool :=
  forallb (Ascii.eqb " ") (list_ascii_of_string text).

(** What a [character varying(n)] column stores of a value: the value when
    it fits, the value cut to [n] characters when only spaces are cut, and
    nothing ([DataError]) otherwise. *)
Definition varchar (n : nat) (value : string) : option string :=
  if (String.length value <=? n)%nat then Some value
  else if all_spaces (substring n (String.length value - n) value)
       then Some (substring 0 n value)
       else None.

Definition nullable_varchar (n : nat) (value : option string) : option (option string) :=
  match value with
  | None => Some None
  | Some text => option_map Some (varchar n text)
  end.

(** The primary key a new row receives: one that no row holds. *)
Definition next_id (ids : list Z) : Z := 1 + fold_right Z.max 0 ids.

End postgres.

(** A coroutine that writes can also fail with an error of the database
    driver, which is neither a [ValueError] nor an [HTTPException]. *)
Inductive failure : Type :=
| PythonError (e : exn)
| DatabaseError (e : postgres.DBAPIError).

Definition W (A : Type) : Type := Session -> (failure + A) * Session.

Definition retW {A} (a : A) : W A := fun s => (inr a, s).

Definition raiseW {A} (e : exn) : W A := fun s => (inl (PythonError e), s).

Definition bindW {A B} (m : W A) (k : A -> W B) : W B :=
  fun s =>
    match m s with
    | (inl e, s') => (inl e, s')
    | (inr a, s') => k a s'
    end.

(** A reading coroutine inside a writing one. *)
Definition lift {A} (m : M A) : W A :=
  fun s =>
    match m s with
    | (inl e, s') => (inl (PythonError e), s')
    | (inr a, s') => (inr a, s')
    end.

Declare Scope w_scope.
Delimit Scope w_scope with w.
Notation "x <- m ;; k" := (bindW m (fun x => k))
  (at level 100, m at next level, right associativity) : w_scope.
Notation "' pat <- m ;; k" := (bindW m (fun x => match x with pat => k end))
  (at level 100, pat pattern, m at next level, right associativity) : w_scope.
Local Open Scope w_scope.

(** [db_session.add(row)], [await db_session.commit()] and
    [await db_session.refresh(row)] for a new row of each table.  A failed
    flush leaves the store as it was. *)
Module flush.

Definition core_user (email hashed_password : string)
    (first_name last_name : option string) (utcnow : Z) (db_session : AsyncSession)
  : W CoreUser.t :=
  fun s =>
    let db := store s in
    match postgres.varchar 255 email, postgres.varchar 255 hashed_password,
          postgres.nullable_varchar 100 first_name,
          postgres.nullable_varchar 100 last_name with
    | Some email, Some hashed_password, Some first_name, Some last_name =>
        if existsb (fun u => String.eqb (CoreUser.email u) email) (core_users db)
        then (inl (DatabaseError postgres.IntegrityError), s)
        else
          let row :=
            {| CoreUser.id := postgres.next_id (map CoreUser.id (core_users db));
               CoreUser.email := email;
               CoreUser.hashed_password := hashed_password;
               CoreUser.first_name := first_name;
               CoreUser.last_name := last_name;
               CoreUser.is_active := true;
               CoreUser.created_at := utcnow |} in
          (inr row,
           {| store := {| core_users := core_users db ++ [row];
                          organizations := organizations db;
                          tenant_users := tenant_users db;
                          organization_owners := organization_owners db |};
              executed := executed s ++ [Commit] |})
    | _, _, _, _ => (inl (DatabaseError postgres.DataError), s)
    end.

Definition tenant_user (email hashed_password : string)
    (first_name last_name phone : option string) (organization_id : Z) (utcnow : Z)
    (db_session : AsyncSession) : W TenantUser.t :=
  fun s =>
    let db := store s in
    match postgres.varchar 255 email, postgres.varchar 255 hashed_password,
          postgres.nullable_varchar 100 first_name,
          postgres.nullable_varchar 100 last_name,
          postgres.nullable_varchar 20 phone with
    | Some email, Some hashed_password, Some first_name, Some last_name, Some phone =>
        if existsb (fun u => String.eqb (TenantUser.email u) email) (tenant_users db)
        then (inl (DatabaseError postgres.IntegrityError), s)
        else
          let row :=
            {| TenantUser.id := postgres.next_id (map TenantUser.id (tenant_users db));
               TenantUser.email := email;
               TenantUser.hashed_password := hashed_password;
               TenantUser.first_name := first_name;
               TenantUser.last_name := last_name;
               TenantUser.phone := phone;
               TenantUser.is_active := true;
               TenantUser.created_at := utcnow;
               TenantUser.updated_at := utcnow;
               TenantUser.avatar := None;
               TenantUser.bio := None;
               TenantUser.organization_id := organization_id |} in
          (inr row,
           {| store := {| core_users := core_users db;
                          organizations := organizations db;
                          tenant_users := tenant_users db ++ [row];
                          organization_owners := organization_owners db |};
              executed := executed s ++ [Commit] |})
    | _, _, _, _, _ => (inl (DatabaseError postgres.DataError), s)
    end.

(** The organization and, through [organization.owners], its row in the
    association table. *)
Definition organization (name slug : string) (description : option string)
    (database_name : string) (owner : CoreUser.t) (utcnow : Z)
    (db_session : AsyncSession) : W Organization.t :=
  fun s =>
    let db := store s in
    match postgres.varchar 255 name, postgres.varchar 100 slug,
          postgres.nullable_varchar 500 description,
          postgres.varchar 100 database_name with
    | Some name, Some slug, Some description, Some database_name =>
        if existsb (fun o => String.eqb (Organization.slug o) slug
                             || String.eqb (Organization.database_name o) database_name)
                   (organizations db)
        then (inl (DatabaseError postgres.IntegrityError), s)
        else
          let row :=
            {| Organization.id := postgres.next_id (map Organization.id (organizations db));
               Organization.name := name;
               Organization.slug := slug;
               Organization.description := description;
               Organization.is_active := true;
               Organization.created_at := utcnow;
               Organization.database_name := database_name |} in
          (inr row,
           {| store := {| core_users := core_users db;
                          organizations := organizations db ++ [row];
                          tenant_users := tenant_users db;
                          organization_owners :=
                            organization_owners db
                              ++ [(CoreUser.id owner, Organization.id row)] |};
              executed := executed s ++ [Commit] |})
    | _, _, _, _ => (inl (DatabaseError postgres.DataError), s)
    end.

End flush.

(* ===================================================================== *)
(** ** [src/api/services.py]: the services that write *)
(* ===================================================================== *)

Module creating.
Section WithCollaborators.

(** [bcrypt.hashpw] with the salt drawn for the request, where it
    returns: for a password of at most 72 bytes. *)
Variable hash_password : string -> string.

(** [datetime.utcnow()] *)
Variable utcnow : Z.

(** [services.create_core_user] *)
Definition create_core_user (user_data : CoreUserCreate.t) (db_session : AsyncSession)
  : W CoreUser.t :=
  existing_user <-
    lift (query.get_core_user_by_email (CoreUserCreate.email user_data) db_session) ;;
  match existing_user with
  | Some _ => raiseW (ValueError "Email already registered")
  | None =>
      flush.core_user (CoreUserCreate.email user_data)
        (hash_password (CoreUserCreate.password user_data))
        (CoreUserCreate.first_name user_data) (CoreUserCreate.last_name user_data)
        utcnow db_session
  end.

(** [services.create_organization] *)
Definition create_organization (org_data : OrganizationCreate.t) (owner_id : Z)
    (db_session : AsyncSession) : W Organization.t :=
  existing_org <-
    lift (query.get_organization_by_slug (OrganizationCreate.slug org_data) db_session) ;;
  match existing_org with
  | Some _ => raiseW (ValueError "Organization with this slug already exists")
  | None =>
      owner <- lift (query.get_core_user_by_id owner_id db_session) ;;
      match owner with
      | None => raiseW (ValueError "Owner not found")
      | Some owner =>
          let db_name := "tenant_" ++ OrganizationCreate.slug org_data in
          flush.organization (OrganizationCreate.name org_data)
            (OrganizationCreate.slug org_data) (OrganizationCreate.description org_data)
            db_name owner utcnow db_session
      end
  end.

(** [services.create_tenant_user] *)
Definition create_tenant_user (user_data : TenantUserCreate.t) (tenant_slug : string)
    (core_db_session : AsyncSession) : W TenantUser.t :=
  ' (tenant_session, organization) <-
      lift (services.get_tenant_session tenant_slug core_db_session) ;;
  existing_user <-
    lift (query.get_tenant_user_by_email (TenantUserCreate.email user_data)
            tenant_session) ;;
  match existing_user with
  | Some _ => raiseW (ValueError "Email already registered in this tenant")
  | None =>
      flush.tenant_user (TenantUserCreate.email user_data)
        (hash_password (TenantUserCreate.password user_data))
        (TenantUserCreate.first_name user_data) (TenantUserCreate.last_name user_data)
        (TenantUserCreate.phone user_data) (Organization.id organization)
        utcnow tenant_session
  end.

End WithCollaborators.
End creating.

(* ===================================================================== *)
(** ** [src/api/endpoints.py]: the endpoints that write *)
(* ===================================================================== *)

Module writing.
Section WithCollaborators.

Variable hash_password : string -> string.
Variable utcnow : Z.

(** [str(e)] of an error of the database driver, and the text in which a
    validation error carries the message of a validator. *)
Variable describe : postgres.DBAPIError -> string.
Variable validation_error : string -> string.

Definition str_failure (f : failure) : string :=
  match f with
  | PythonError e => str_exn e
  | DatabaseError e => describe e
  end.

(** [try: body  except ValueError as e: ...  except Exception as e: ...]
    around a body that writes; both handlers raise an [HTTPException]. *)
Definition try_endpoint {A} (body : W A)
    (on_value_error : string -> M A) (on_exception : string -> M A) : M A :=
  fun s =>
    match body s with
    | (inl (PythonError (ValueError msg)), s') => on_value_error msg s'
    | (inl f, s') => on_exception (str_failure f) s'
    | (inr a, s') => (inr a, s')
    end.

(** [schemas.TenantUserCreate] built from [user_data.model_dump()]: the
    fields are validated again. *)
Definition TenantUserCreate_of (user_data : CoreUserCreate.t) : W TenantUserCreate.t :=
  match TenantUserCreate.validate_password (CoreUserCreate.password user_data) with
  | inl e => raiseW (ValueError (validation_error (str_exn e)))
  | inr password =>
      retW {| TenantUserCreate.email := CoreUserCreate.email user_data;
              TenantUserCreate.password := password;
              TenantUserCreate.first_name := CoreUserCreate.first_name user_data;
              TenantUserCreate.last_name := CoreUserCreate.last_name user_data;
              TenantUserCreate.phone := None |}
  end.

(** [endpoints.register_user] *)
Definition register_user (user_data : CoreUserCreate.t)
    (tenant_context : option string) (db_session : AsyncSession)
  : M (schemas.TenantUserResponse + CoreUserResponse.t) :=
  try_endpoint
    (match endpoints.header_given tenant_context with
     | Some tenant_context =>
         tenant_user_data <- TenantUserCreate_of user_data ;;
         user <- creating.create_tenant_user hash_password utcnow tenant_user_data
                   tenant_context db_session ;;
         retW (inl (schemas.TenantUserResponse_model_validate user))
     | None =>
         user <- creating.create_core_user hash_password utcnow user_data db_session ;;
         retW (inr (CoreUserResponse.model_validate user))
     end)
    (fun e => raise (HTTPException 400 e))
    (fun e => raise (HTTPException 500 ("Registration error: " ++ e))).

(** [endpoints.create_organization], for the user id the core guard
    returned. *)
Definition create_organization (org_data : OrganizationCreate.t) (user_id : Z)
    (db_session : AsyncSession) : M OrganizationResponse.t :=
  try_endpoint
    (organization <- creating.create_organization utcnow org_data user_id db_session ;;
     retW (OrganizationResponse.model_validate organization))
    (fun e => raise (HTTPException 400 e))
    (fun e => raise (HTTPException 500 ("Organization creation error: " ++ e))).

End WithCollaborators.
End writing.

Local Close Scope w_scope.

(* ===================================================================== *)
(** ** [src/api/query.py]: the statements no service executes *)
(* ===================================================================== *)

(** [get_user_organizations] and [check_tenant_user_email_exists] are
    called from nowhere; they are given as what they select from a store. *)
Module selects.

(** [Organization.owners.any(CoreUser.id == user_id)] *)
Definition owners_any (db : Database) (user_id : Z) (o : Organization.t) : bool :=
  existsb (fun u => (CoreUser.id u =? user_id)
                    && existsb (fun '(u', o') => (u' =? CoreUser.id u)
                                                 && (o' =? Organization.id o))
                               (organization_owners db))
          (core_users db).

Definition get_user_organizations (user_id : Z) (db : Database)
  : list Organization.t :=
  filter (fun o => owners_any db user_id o && Organization.is_active o)
         (organizations db).

Definition check_tenant_user_email_exists (email : string) (user_id : Z)
    (db : Database) : bool :=
  match find (fun u => String.eqb (TenantUser.email u) email
                       && negb (TenantUser.id u =? user_id))
             (tenant_users db) with
  | Some _ => true
  | None => false
  end.

End selects.

(** The values the driver takes for a parameter compared with an [Integer]
    column; it refuses any other before the statement is executed, and the
    statements are modelled for these. *)
Definition int32 (n : Z) : Prop := - 2147483648 <= n <= 2147483647.

(** What [bcrypt] asks of its arguments. *)
Module bcrypt.

(** The number of bytes of [text.encode('utf-8')]. *)
Definition utf8_length (text : string) : nat :=
  fold_right (fun c n => ((if (N_of_ascii c <? 128)%N then 1 else 2) + n)%nat) O
             (list_ascii_of_string text).

(** The passwords [hashpw] and [checkpw] take without raising
    [ValueError]: at most 72 bytes, none of them NUL. *)
Definition takes (password : string) : Prop :=
  (utf8_length password <= 72)%nat /\ ~ In zero (list_ascii_of_string password).

(** Every hash in the store is one [hash_password] made, which is what
    [checkpw] takes as a hash. *)
Definition hashed_by (hash_password : string -> string) (db : Database) : Prop :=
  (forall u, In u (core_users db) ->
             exists p, takes p /\ CoreUser.hashed_password u = hash_password p)
  /\ (forall u, In u (tenant_users db) ->
                exists p, takes p /\ TenantUser.hashed_password u = hash_password p).

End bcrypt.

(* ===================================================================== *)
(** ** More of the small deployment *)
(* ===================================================================== *)

Module Fixtures.

(** The stand-in for [bcrypt.hashpw] that [Scenario.checkpw] verifies. *)
Definition hashpw (password : string) : string := "hash(" ++ password ++ ")".

Definition describe (e : postgres.DBAPIError) : string :=
  match e with
  | postgres.IntegrityError => "IntegrityError"
  | postgres.DataError => "DataError"
  end.

Definition validation_error (message : string) : string :=
  "Value error, " ++ message.

Definition erin : CoreUserCreate.t :=
  {| CoreUserCreate.email := "erin@example.com";
     CoreUserCreate.password := "Passw0rd!";
     CoreUserCreate.first_name := Some "Erin";
     CoreUserCreate.last_name := None |}.

Definition erin_again : CoreUserCreate.t :=
  {| CoreUserCreate.email := "alice@example.com";
     CoreUserCreate.password := "Passw0rd!";
     CoreUserCreate.first_name := None;
     CoreUserCreate.last_name := None |}.


Definition shop : OrganizationCreate.t :=
  {| OrganizationCreate.name := "Shop";
     OrganizationCreate.slug := "shop";
     OrganizationCreate.description := None |}.

Definition closed_again : OrganizationCreate.t :=
  {| OrganizationCreate.name := "Closed";
     OrganizationCreate.slug := "closed";
     OrganizationCreate.description := None |}.

(** [n] times the character [c]. *)
Fixpoint times (n : nat) (c : ascii) : string :=
  match n with
  | O => EmptyString
  | S n => String c (times n c)
  end.

(** A body whose first name has 101 characters. *)
Definition long_named : CoreUserCreate.t :=
  {| CoreUserCreate.email := "frank@example.com";
     CoreUserCreate.password := "Passw0rd!";
     CoreUserCreate.first_name := Some (times 101 "F");
     CoreUserCreate.last_name := None |}.

(** A body whose slug has 94 characters. *)
Definition long_slug : OrganizationCreate.t :=
  {| OrganizationCreate.name := "Long";
     OrganizationCreate.slug := times 94 "a";
     OrganizationCreate.description := None |}.

(** An update that sets the first name. *)
Definition name_update : schemas.TenantUserUpdate :=
  {| schemas.set_first_name := Some (Some "Bob");
     schemas.set_last_name := None;
     schemas.set_phone := None;
     schemas.set_avatar := None;
     schemas.set_bio := None |}.

End Fixtures.

(** The constraints the initial migration declares on the tables: the
    primary keys, the unique indexes on the emails and on the slug, the
    unique constraint on [database_name], and the primary and foreign keys
    of the association table. *)
Definition constraints (db : Database) : Prop :=
  unique_ids db /\ unique_emails db /\ unique_slugs db
  /\ NoDup (map Organization.database_name (organizations db))
  /\ NoDup (organization_owners db)
  /\ (forall user_id organization_id,
         In (user_id, organization_id) (organization_owners db) ->
         (exists u, In u (core_users db) /\ CoreUser.id u = user_id)
         /\ (exists o, In o (organizations db) /\ Organization.id o = organization_id)).

(** A value that is stored as it is in a [String(n)] column. *)
Definition fits (n : nat) (value : string) : Prop := (String.length value <= n)%nat.

(* ===================================================================== *)
(** * Properties *)
(* ===================================================================== *)

Lemma find_none_iff {A} (f : A -> bool) (l : list A) :
  find f l = None <-> forall x, In x l -> f x = false.
Proof.
  split.
  - intros H x Hx. exact (find_none f l H x Hx).
  - induction l as [|a l IH]; simpl; intros H; [reflexivity|].
    rewrite (H a (or_introl eq_refl)). apply IH. intros x Hx. apply H. now right.
Qed.

Ltac run_queries :=
  unfold query.get_core_user_by_id, query.get_core_user_by_email,
    query.get_organization_by_slug, query.get_tenant_user_by_id,
    query.get_tenant_user_by_email, execute_first, bind, ret, raise in *;
  cbn [fst snd store executed] in *.

(* --------------------------------------------------------------------- *)
(** ** [int(str(n))] *)
(* --------------------------------------------------------------------- *)

Lemma decimal_digit_cases d :
  0 <= d <= 9 ->
  d = 0 \/ d = 1 \/ d = 2 \/ d = 3 \/ d = 4 \/ d = 5 \/ d = 6 \/ d = 7 \/ d = 8 \/ d = 9.
Proof. lia. Qed.

Ltac each_digit d H :=
  destruct (decimal_digit_cases d H) as [->|[->|[->|[->|[->|[->|[->|[->|[->| ->]]]]]]]]].

Lemma digit_of_digit_char d :
  0 <= d <= 9 -> Py.digit_of (Py.digit_char d) = Some d.
Proof. intros H. each_digit d H; reflexivity. Qed.

Lemma digit_char_not_space d :
  0 <= d <= 9 -> Py.is_space (Py.digit_char d) = false.
Proof. intros H. each_digit d H; reflexivity. Qed.

(** Reading the digits that [str_pos] writes in front of [tail]. *)
Lemma digits_str_pos fuel :
  forall n acc after_digit tail,
    0 <= n < 10 ^ Z.of_nat (S fuel) ->
    exists k, 0 <= k
              /\ Py.digits acc after_digit (Py.str_pos (S fuel) n tail)
                 = Py.digits (acc * 10 ^ k + n) true tail.
Proof.
  induction fuel as [|fuel IH]; intros n acc after_digit tail Hn;
    assert (0 <= n mod 10 <= 9) as Hd by (pose proof (Z.mod_pos_bound n 10); lia).
  - exists 1. split; [lia|].
    change (10 ^ Z.of_nat 1) with 10 in Hn.
    cbn [Py.str_pos]. destruct (Z.ltb_spec n 10) as [_|]; [|lia].
    cbn [Py.digits].
    rewrite (digit_of_digit_char _ Hd), Z.mod_small by lia.
    f_equal. lia.
  - change (Py.str_pos (S (S fuel)) n tail)
      with (if n <? 10 then Py.digit_char (n mod 10) :: tail
            else Py.str_pos (S fuel) (n / 10) (Py.digit_char (n mod 10) :: tail)).
    destruct (Z.ltb_spec n 10) as [Hlt|Hge].
    + exists 1. split; [lia|]. cbn [Py.digits].
      rewrite (digit_of_digit_char _ Hd), Z.mod_small by lia.
      f_equal. lia.
    + assert (0 <= n / 10 < 10 ^ Z.of_nat (S fuel)) as Hq.
      { split; [apply Z.div_pos; lia|].
        apply Z.div_lt_upper_bound; [lia|].
        rewrite (Nat2Z.inj_succ (S fuel)), Z.pow_succ_r in Hn by lia. lia. }
      destruct (IH (n / 10) acc after_digit (Py.digit_char (n mod 10) :: tail) Hq)
        as (k & Hk & ->).
      exists (k + 1). split; [lia|]. cbn [Py.digits].
      rewrite (digit_of_digit_char _ Hd). f_equal.
      rewrite Z.pow_add_r by lia.
      pose proof (Z.div_mod n 10). lia.
Qed.

Lemma str_pos_not_space fuel :
  forall n tail,
    Forall (fun c => Py.is_space c = false) tail ->
    Forall (fun c => Py.is_space c = false) (Py.str_pos fuel n tail).
Proof.
  induction fuel as [|fuel IH]; intros n tail Htail; cbn [Py.str_pos]; [exact Htail|].
  assert (Forall (fun c => Py.is_space c = false) (Py.digit_char (n mod 10) :: tail)).
  { constructor; [|exact Htail]. apply digit_char_not_space.
    pose proof (Z.mod_pos_bound n 10). lia. }
  destruct (n <? 10); auto.
Qed.

(** [str_pos] with fuel puts a digit first. *)
Lemma str_pos_head fuel :
  forall n tail,
    exists d rest, 0 <= d <= 9 /\ Py.str_pos (S fuel) n tail = Py.digit_char d :: rest.
Proof.
  induction fuel as [|fuel IH]; intros n tail;
    assert (0 <= n mod 10 <= 9) as Hd by (pose proof (Z.mod_pos_bound n 10); lia).
  - cbn. destruct (n <? 10); eauto.
  - change (Py.str_pos (S (S fuel)) n tail)
      with (if n <? 10 then Py.digit_char (n mod 10) :: tail
            else Py.str_pos (S fuel) (n / 10) (Py.digit_char (n mod 10) :: tail)).
    destruct (n <? 10); eauto.
Qed.

Lemma lstrip_no_space l :
  Forall (fun c => Py.is_space c = false) l -> Py.lstrip l = l.
Proof. intros [|c l' Hc _]; cbn; [reflexivity|now rewrite Hc]. Qed.

Lemma strip_no_space l :
  Forall (fun c => Py.is_space c = false) l -> Py.strip l = l.
Proof.
  intros H. unfold Py.strip.
  rewrite (lstrip_no_space l H), lstrip_no_space by now apply Forall_rev.
  apply rev_involutive.
Qed.

Lemma enough_fuel n :
  0 <= n -> n < 10 ^ Z.of_nat (S (Z.to_nat (Z.log2 n))).
Proof.
  intros Hn. rewrite Nat2Z.inj_succ, Z2Nat.id by apply Z.log2_nonneg.
  destruct (Z.eq_dec n 0) as [->|Hn0]; [reflexivity|].
  pose proof (Z.log2_spec n ltac:(lia)) as [_ Hlt].
  apply (Z.lt_le_trans _ _ _ Hlt).
  apply Z.pow_le_mono_l. pose proof (Z.log2_nonneg n). lia.
Qed.

(** The digits of a number that is not negative read back as the number. *)
Lemma int_of_decimal n :
  0 <= n ->
  Py.int (string_of_list_ascii (Py.str_pos (S (Z.to_nat (Z.log2 n))) n [])) = Some n
  /\ Py.digits 0 false (Py.str_pos (S (Z.to_nat (Z.log2 n))) n []) = Some n
  /\ Forall (fun c => Py.is_space c = false) (Py.str_pos (S (Z.to_nat (Z.log2 n))) n []).
Proof.
  intros Hn.
  assert (Py.digits 0 false (Py.str_pos (S (Z.to_nat (Z.log2 n))) n []) = Some n) as Hdigits.
  { destruct (digits_str_pos _ n 0 false [] (conj Hn (enough_fuel n Hn))) as (k & _ & ->).
    cbn [Py.digits]. f_equal; lia. }
  assert (Forall (fun c => Py.is_space c = false)
            (Py.str_pos (S (Z.to_nat (Z.log2 n))) n [])) as Hspace
      by (apply str_pos_not_space; constructor).
  repeat split; auto.
  unfold Py.int.
  rewrite list_ascii_of_string_of_list_ascii, (strip_no_space _ Hspace).
  destruct (str_pos_head (Z.to_nat (Z.log2 n)) n []) as (d & rest & Hd & Heq).
  rewrite Heq in *. revert Hdigits. each_digit d Hd; trivial.
Qed.

(** Reading back what [str] writes gives the number: the subject the login
    writes into a token, [str(user.id)], is read by [int] as the user's
    id. *)
Lemma int_str n : Py.int (Py.str n) = Some n.
Proof.
  unfold Py.str. destruct (Z.ltb_spec n 0) as [Hneg|Hpos].
  - destruct (int_of_decimal (- n) ltac:(lia)) as (_ & Hdigits & Hspace).
    unfold Py.int. cbn [list_ascii_of_string].
    rewrite list_ascii_of_string_of_list_ascii.
    rewrite strip_no_space by (constructor; [reflexivity|exact Hspace]).
    rewrite Hdigits. cbn. f_equal. lia.
  - now apply int_of_decimal.
Qed.

(** What [int] reads and what it refuses, as the interpreter does: white
    space around a literal, a sign, an underscore between digits; not a
    separator of the range 28 to 31, nor a sign set apart. *)
Example int_reads :
  Py.int (String (ascii_of_nat 160) " 1_0 ") = Some 10
  /\ Py.int "+7" = Some 7 /\ Py.int "-0_1" = Some (-1)
  /\ Py.int (String (ascii_of_nat 11) "12") = Some 12.
Proof. repeat split. Qed.

Example int_refuses :
  Py.int (String (ascii_of_nat 28) "1") = None
  /\ Py.int ("1" ++ String (ascii_of_nat 31) "") = None
  /\ Py.int "- 1" = None /\ Py.int "1__2" = None /\ Py.int "_1" = None
  /\ Py.int "" = None /\ Py.int "seven" = None.
Proof. repeat split. Qed.

Lemma str_not_empty n : String.eqb (Py.str n) "" = false.
Proof.
  unfold Py.str. destruct (n <? 0); [reflexivity|].
  destruct (str_pos_head (Z.to_nat (Z.log2 n)) n []) as (d & rest & _ & ->).
  reflexivity.
Qed.

(* --------------------------------------------------------------------- *)
(** ** Context resolution ([security.get_current_user_context]) *)
(* --------------------------------------------------------------------- *)

Section ContextResolution.

Variable jwt_decode : string -> jwt_error + Payload.t.

(** Whatever makes resolution fail, the caller sees status 401. *)
Lemma resolution_fails_unauthenticated credentials s e :
  outcome (security.get_current_user_context jwt_decode credentials RequestSession) s
    = inl e ->
  exists detail, e = HTTPException status.HTTP_401_UNAUTHORIZED detail.
Proof.
  unfold outcome, security.get_current_user_context.
  destruct credentials as [token|]; [|cbn; intros [= <-]; eauto].
  run_queries.
  destruct (jwt_decode token) as [[|]|payload]; cbn.
  1,2: intros [= <-]; eauto.
  destruct (Payload.sub payload) as [sub|]; [|cbn; intros [= <-]; eauto].
  destruct (Payload.context payload) as [ctx|]; [|cbn; intros [= <-]; eauto].
  destruct (_ || _); [cbn; intros [= <-]; eauto|].
  destruct (Py.int sub) as [uid|]; [|cbn; intros [= <-]; eauto].
  destruct (String.eqb ctx "core").
  { cbn. destruct (find _ _) as [u|]; [|cbn; intros [= <-]; eauto].
    destruct (negb _); cbn; [intros [= <-]; eauto|discriminate]. }
  destruct (String.eqb ctx "tenant"); [|cbn; intros [= <-]; eauto].
  destruct (Payload.tenant payload) as [slug|]; [|cbn; intros [= <-]; eauto].
  destruct (Payload.org_id payload) as [oid|]; [|cbn; intros [= <-]; eauto].
  destruct (_ || _); [cbn; intros [= <-]; eauto|].
  cbn. destruct (find _ _) as [o|]; [|cbn; intros [= <-]; eauto].
  destruct (negb _); cbn; [intros [= <-]; eauto|discriminate].
Qed.

(** What the tenant branch does once the token has verified and carries a
    subject, the tenant context and both tenant fields. *)
Lemma resolution_tenant_branch token payload sub uid slug oid s :
  jwt_decode token = inr payload ->
  Payload.sub payload = Some sub -> String.eqb sub "" = false ->
  Py.int sub = Some uid ->
  Payload.context payload = Some "tenant" ->
  Payload.tenant payload = Some slug -> String.eqb slug "" = false ->
  Payload.org_id payload = Some oid -> oid <> 0 ->
  security.get_current_user_context jwt_decode (Some token) RequestSession s =
  (match find (fun o => String.eqb (Organization.slug o) slug
                        && Organization.is_active o)
              (organizations (store s)) with
   | Some o =>
       if Organization.id o =? oid then inr (uid, "tenant", Some slug)
       else inl (HTTPException status.HTTP_401_UNAUTHORIZED "Invalid tenant in token")
   | None => inl (HTTPException status.HTTP_401_UNAUTHORIZED "Invalid tenant in token")
   end,
   after s [SelectOrganizationBySlug slug]).
Proof.
  intros Hdec Hsub Hsub0 Hint Hctx Hten Hten0 Horg Horg0.
  unfold security.get_current_user_context. run_queries.
  rewrite Hdec, Hsub, Hctx, Hsub0, Hint, Hten, Horg, Hten0. cbn.
  destruct (Z.eqb_spec oid 0) as [|_]; [contradiction|].
  unfold after. cbn.
  destruct (find _ _) as [o|]; [|reflexivity].
  destruct (Organization.id o =? oid); reflexivity.
Qed.

(** The core branch: a verified core token whose subject is the id of a
    user, as the login writes it, resolves to the core principal exactly
    when that user is in the store and active. *)
Lemma resolution_core_branch token payload user_id s :
  jwt_decode token = inr payload ->
  Payload.sub payload = Some (Py.str user_id) ->
  Payload.context payload = Some "core" ->
  security.get_current_user_context jwt_decode (Some token) RequestSession s
  = (match find (fun u => CoreUser.id u =? user_id) (core_users (store s)) with
     | Some u =>
         if CoreUser.is_active u then inr (user_id, "core", None)
         else inl (HTTPException status.HTTP_401_UNAUTHORIZED
                     "User not found or inactive")
     | None => inl (HTTPException status.HTTP_401_UNAUTHORIZED
                      "User not found or inactive")
     end,
     after s [SelectCoreUserById user_id]).
Proof.
  intros Hdec Hsub Hctx.
  unfold security.get_current_user_context. run_queries.
  rewrite Hdec, Hsub, Hctx, str_not_empty, int_str. cbn. unfold after.
  destruct (find _ _) as [u|]; [|reflexivity].
  destruct (CoreUser.is_active u); reflexivity.
Qed.

(** C1 (as the code has it): once a tenant token has verified and its tenant
    binding checks out, resolution returns the tenant principal after the
    organization lookup alone.  No statement reads the tenant users, and the
    result does not depend on them: the user named by the subject may be
    absent or inactive. *)
Theorem tenant_principal_without_user_lookup token payload sub uid slug o s :
  jwt_decode token = inr payload ->
  Payload.sub payload = Some sub -> String.eqb sub "" = false ->
  Py.int sub = Some uid ->
  Payload.context payload = Some "tenant" ->
  Payload.tenant payload = Some slug -> String.eqb slug "" = false ->
  Payload.org_id payload = Some (Organization.id o) ->
  (Organization.id o =? 0) = false ->
  find (fun o => String.eqb (Organization.slug o) slug && Organization.is_active o)
       (organizations (store s)) = Some o ->
  security.get_current_user_context jwt_decode (Some token) RequestSession s
  = (inr (uid, "tenant", Some slug), after s [SelectOrganizationBySlug slug]).
Proof.
  intros Hdec Hsub Hsub0 Hint Hctx Hten Hten0 Horg Horg0 Hfind.
  rewrite (resolution_tenant_branch token payload sub uid slug (Organization.id o) s)
    by (auto; intros E; rewrite E in Horg0; discriminate).
  rewrite Hfind, Z.eqb_refl. reflexivity.
Qed.

(** C4: a tenant-context claim set whose [org_id] is not the id of a live
    organization with the claimed slug (none may exist) is refused with
    status 401, whatever else the verified token says; no principal is
    returned. *)
Theorem tenant_binding_mismatch_unauthenticated token payload s :
  jwt_decode token = inr payload ->
  Payload.context payload = Some "tenant" ->
  (forall slug o,
      Payload.tenant payload = Some slug ->
      In o (organizations (store s)) -> live slug o ->
      Payload.org_id payload <> Some (Organization.id o)) ->
  Unauthenticated
    (outcome (security.get_current_user_context jwt_decode (Some token) RequestSession) s).
Proof.
  intros Hdec Hctx Hmis.
  destruct (outcome _ s) as [e|[[uid ctx] ten]] eqn:Hout.
  { destruct (resolution_fails_unauthenticated _ _ _ Hout) as [d ->]. now exists d. }
  revert Hout.
  unfold outcome, security.get_current_user_context. run_queries.
  rewrite Hdec, Hctx.
  destruct (Payload.sub payload) as [sub|]; [|discriminate].
  destruct (_ || _); [discriminate|].
  destruct (Py.int sub) as [uid'|]; [|discriminate].
  cbn [String.eqb Ascii.eqb Bool.eqb].
  destruct (Payload.tenant payload) as [slug|] eqn:Hten; [|discriminate].
  destruct (Payload.org_id payload) as [oid|] eqn:Horg; [|discriminate].
  destruct (_ || _); [discriminate|].
  cbn [fst]. destruct (find _ _) as [o|] eqn:Hfind; [|discriminate].
  apply find_some in Hfind as [Hin Hlive].
  apply andb_true_iff in Hlive as [Hslug Hact]. apply String.eqb_eq in Hslug.
  destruct (Z.eqb_spec (Organization.id o) oid) as [E|]; [|discriminate]. subst oid.
  intros _. now destruct (Hmis slug o eq_refl Hin (conj Hslug Hact)).
Qed.

(** C10: for a token that verifies, a subject that [int()] does not read as
    an integer is refused with 401 before any lookup: the session is
    returned as it was received, no statement was executed.  The detail is
    "Invalid user ID in token"; when the subject or the context is missing
    or empty, which is tested first, it is "Invalid token payload". *)
Theorem invalid_subject_refused_before_lookup token payload s :
  jwt_decode token = inr payload ->
  ((Payload.sub payload = None \/ Payload.sub payload = Some ""
    \/ Payload.context payload = None \/ Payload.context payload = Some "") ->
   security.get_current_user_context jwt_decode (Some token) RequestSession s
   = (inl (HTTPException status.HTTP_401_UNAUTHORIZED "Invalid token payload"), s))
  /\
  (forall sub context,
      Payload.sub payload = Some sub -> Payload.context payload = Some context ->
      sub <> "" -> context <> "" ->
      Py.int sub = None ->
      security.get_current_user_context jwt_decode (Some token) RequestSession s
      = (inl (HTTPException status.HTTP_401_UNAUTHORIZED "Invalid user ID in token"), s))
  /\
  ((Payload.sub payload = None \/ Payload.context payload = None
    \/ exists sub, Payload.sub payload = Some sub /\ Py.int sub = None) ->
   Unauthenticated
     (outcome (security.get_current_user_context jwt_decode (Some token)
                 RequestSession) s)
   /\ snd (security.get_current_user_context jwt_decode (Some token)
             RequestSession s) = s).
Proof.
  intros Hdec. unfold outcome, security.get_current_user_context. run_queries.
  rewrite Hdec. split; [|split].
  - intros H.
    destruct (Payload.sub payload) as [sub|];
      destruct (Payload.context payload) as [ctx|]; try reflexivity.
    assert (sub = "" \/ ctx = "") as [-> | ->]
      by (destruct H as [H|[H|[H|H]]]; try discriminate; injection H; auto).
    + reflexivity.
    + now rewrite orb_true_r.
  - intros sub ctx -> -> Hsub Hctx ->.
    apply String.eqb_neq in Hsub, Hctx. now rewrite Hsub, Hctx.
  - intros H.
    destruct (Payload.sub payload) as [sub|]; cbn; [|split; [eexists|]; reflexivity].
    destruct (Payload.context payload) as [ctx|]; cbn;
      [|split; [eexists|]; reflexivity].
    destruct (String.eqb sub "" || String.eqb ctx ""); cbn;
      [split; [eexists|]; reflexivity|].
    destruct H as [H|[H|(sub' & [= <-] & H)]]; try discriminate.
    rewrite H. split; [eexists|]; reflexivity.
Qed.

End ContextResolution.

(** A token of tenant [acme] for user 9, who is in no table: resolution
    returns the tenant principal. *)
Lemma tenant_principal_without_user_lookup_witness :
  security.get_current_user_context
    (Scenario.verified (Scenario.tenant_claims "9" "acme" 1)) (Some "t")
    RequestSession (fresh Scenario.db)
  = (inr (9, "tenant", Some "acme"),
     after (fresh Scenario.db) [SelectOrganizationBySlug "acme"]).
Proof.
  apply (tenant_principal_without_user_lookup
           (Scenario.verified (Scenario.tenant_claims "9" "acme" 1)) "t"
           (Scenario.tenant_claims "9" "acme" 1) "9" 9 "acme" Scenario.acme
           (fresh Scenario.db)); reflexivity.
Defined.

(** The same for [dave], a deactivated user of [acme]. *)
Example deactivated_tenant_user_resolves :
  outcome
    (security.get_current_user_context
       (Scenario.verified (Scenario.tenant_claims "8" "acme" 1)) (Some "t")
       RequestSession)
    (fresh Scenario.db)
  = inr (8, "tenant", Some "acme").
Proof. reflexivity. Qed.

(** A token that binds slug [acme] to organization 2 is refused. *)
Lemma tenant_binding_mismatch_unauthenticated_witness :
  Unauthenticated
    (outcome
       (security.get_current_user_context
          (Scenario.verified (Scenario.tenant_claims "7" "acme" 2)) (Some "t")
          RequestSession)
       (fresh Scenario.db)).
Proof.
  apply (tenant_binding_mismatch_unauthenticated
           (Scenario.verified (Scenario.tenant_claims "7" "acme" 2)) "t"
           (Scenario.tenant_claims "7" "acme" 2) (fresh Scenario.db)).
  - reflexivity.
  - reflexivity.
  - intros slug o [= <-] Hin [Hslug _].
    cbn in Hin. destruct Hin as [<-|[<-|[<-|[]]]]; cbn; discriminate.
Defined.

(** A subject that is not a number is refused without touching the store. *)
Lemma invalid_subject_refused_before_lookup_witness :
  security.get_current_user_context
    (Scenario.verified (Scenario.core_claims "seven")) (Some "t")
    RequestSession (fresh Scenario.db)
  = (inl (HTTPException status.HTTP_401_UNAUTHORIZED "Invalid user ID in token"),
     fresh Scenario.db).
Proof.
  apply (proj1 (proj2 (invalid_subject_refused_before_lookup
                         (Scenario.verified (Scenario.core_claims "seven")) "t"
                         (Scenario.core_claims "seven") (fresh Scenario.db) eq_refl))
               "seven" "core"); try reflexivity; discriminate.
Defined.

(** An empty subject is answered as a missing one, and a subject with a
    separator before the digits is not a number. *)
Example empty_subject_is_refused :
  security.get_current_user_context
    (Scenario.verified (Scenario.core_claims "")) (Some "t")
    RequestSession (fresh Scenario.db)
  = (inl (HTTPException status.HTTP_401_UNAUTHORIZED "Invalid token payload"),
     fresh Scenario.db).
Proof. reflexivity. Qed.

Example separator_subject_is_refused :
  security.get_current_user_context
    (Scenario.verified (Scenario.core_claims (String (ascii_of_nat 28) "1")))
    (Some "t") RequestSession (fresh Scenario.db)
  = (inl (HTTPException status.HTTP_401_UNAUTHORIZED "Invalid user ID in token"),
     fresh Scenario.db).
Proof. reflexivity. Qed.

(* --------------------------------------------------------------------- *)
(** ** Tenant resolution ([services.get_tenant_session]) *)
(* --------------------------------------------------------------------- *)

(** Two rows of a table with a unique column that agree on it are the same
    row. *)
Lemma unique_column {Row Key} (column : Row -> Key) (rows : list Row) x y :
  NoDup (map column rows) -> In x rows -> In y rows -> column x = column y -> x = y.
Proof.
  induction rows as [|r rows IH]; cbn; [contradiction|].
  intros Hnd Hx Hy Hxy. inversion Hnd as [|? ? Hnotin Hnd']; subst.
  destruct Hx as [->|Hx], Hy as [->|Hy]; auto.
  - exfalso. apply Hnotin. rewrite Hxy. now apply in_map.
  - exfalso. apply Hnotin. rewrite <- Hxy. now apply in_map.
Qed.

(** The SELECT of [get_organization_by_slug] finds nothing exactly when no
    organization has the slug or the one that has it is inactive. *)
Lemma no_live_organization_iff slug db :
  unique_slugs db ->
  find (fun o => String.eqb (Organization.slug o) slug && Organization.is_active o)
       (organizations db) = None
  <-> ((forall o, In o (organizations db) -> Organization.slug o <> slug)
       \/ (exists o, In o (organizations db)
                     /\ Organization.slug o = slug
                     /\ Organization.is_active o = false)).
Proof.
  intros Huniq. rewrite find_none_iff. split.
  - intros Hnone.
    destruct (find (fun o => String.eqb (Organization.slug o) slug) (organizations db))
      as [o|] eqn:Hfind.
    + right. apply find_some in Hfind as [Hin Hslug].
      exists o. split; [exact Hin|]. apply String.eqb_eq in Hslug. split; [exact Hslug|].
      specialize (Hnone o Hin). apply String.eqb_eq in Hslug.
      rewrite Hslug in Hnone. exact Hnone.
    + left. intros o Hin Hslug.
      pose proof (find_none _ _ Hfind o Hin) as Hne. cbn in Hne.
      apply String.eqb_neq in Hne. contradiction.
  - intros [Hnone|(o & Hin & Hslug & Hinactive)] o' Hin'.
    + apply andb_false_iff. left. apply String.eqb_neq. now apply Hnone.
    + destruct (String.eqb_spec (Organization.slug o') slug) as [Hslug'|]; [|reflexivity].
      assert (o' = o) as ->
          by (apply (unique_column Organization.slug (organizations db)); auto; congruence).
      exact Hinactive.
Qed.

(** C5: with slugs unique, resolving [slug] fails, with [ValueError("Tenant
    not found")], exactly when no organization has the slug or the
    organization that has it is inactive: one and the same error for both
    causes.  It fails in no other way, and when it succeeds it returns the
    session it was given and the active organization of that slug. *)
Theorem tenant_resolution_not_found_iff slug s :
  unique_slugs (store s) ->
  (outcome (services.get_tenant_session slug RequestSession) s
     = inl (ValueError "Tenant not found")
   <-> ((forall o, In o (organizations (store s)) -> Organization.slug o <> slug)
        \/ (exists o, In o (organizations (store s))
                      /\ Organization.slug o = slug
                      /\ Organization.is_active o = false)))
  /\ (forall e, outcome (services.get_tenant_session slug RequestSession) s = inl e ->
                e = ValueError "Tenant not found")
  /\ (forall r, outcome (services.get_tenant_session slug RequestSession) s = inr r ->
                exists o, r = (RequestSession, o)
                          /\ In o (organizations (store s)) /\ live slug o).
Proof.
  intros Huniq.
  rewrite <- (no_live_organization_iff slug (store s) Huniq).
  unfold outcome, services.get_tenant_session. run_queries.
  destruct (find _ _) as [o|] eqn:Hfind; cbn; repeat split; try discriminate; auto.
  - intros r [= <-]. exists o. apply find_some in Hfind as [Hin Hlive].
    apply andb_true_iff in Hlive as [Hslug Hact]. apply String.eqb_eq in Hslug.
    repeat split; auto.
  - intros e [= <-]. reflexivity.
Qed.

Lemma scenario_unique_slugs : unique_slugs Scenario.db.
Proof.
  unfold unique_slugs. cbn.
  repeat constructor; cbn; intuition discriminate.
Qed.

(** The deactivated organization [closed] and the slug [nobody], which no
    organization has, fail alike. *)
Lemma tenant_resolution_not_found_iff_witness :
  outcome (services.get_tenant_session "closed" RequestSession) (fresh Scenario.db)
  = inl (ValueError "Tenant not found")
  /\ outcome (services.get_tenant_session "nobody" RequestSession) (fresh Scenario.db)
     = inl (ValueError "Tenant not found").
Proof.
  split.
  - apply (proj2 (proj1 (tenant_resolution_not_found_iff "closed" (fresh Scenario.db)
                           scenario_unique_slugs))).
    right. exists Scenario.closed. cbn. auto.
  - apply (proj2 (proj1 (tenant_resolution_not_found_iff "nobody" (fresh Scenario.db)
                           scenario_unique_slugs))).
    left. cbn. intros o [<-|[<-|[<-|[]]]]; discriminate.
Defined.

(* --------------------------------------------------------------------- *)
(** ** Login ([endpoints.login] over the two [authenticate] services) *)
(* --------------------------------------------------------------------- *)

Lemma find_map {A B} (g : A -> B) (f : B -> bool) (l : list A) :
  find f (map g l) = option_map g (find (fun a => f (g a)) l).
Proof.
  induction l as [|a l IH]; cbn; [reflexivity|].
  destruct (f (g a)); [reflexivity|exact IH].
Qed.

(** In a table with a unique column, the first row found for a key is the
    row that has it. *)
Lemma find_unique {Row} (column : Row -> string) (rows : list Row) key x :
  NoDup (map column rows) -> In x rows -> column x = key ->
  find (fun r => String.eqb (column r) key) rows = Some x.
Proof.
  intros Hnd Hin Hkey.
  destruct (find _ rows) as [y|] eqn:Hfind.
  - apply find_some in Hfind as [Hy Heq]. apply String.eqb_eq in Heq.
    f_equal. apply (unique_column column rows); auto. congruence.
  - pose proof (find_none _ _ Hfind x Hin) as Hne. cbn in Hne.
    apply String.eqb_neq in Hne. contradiction.
Qed.

Lemma find_live slug db :
  (exists o, In o (organizations db) /\ live slug o) ->
  exists o, find (fun o => String.eqb (Organization.slug o) slug
                           && Organization.is_active o) (organizations db) = Some o.
Proof.
  intros (o & Hin & Hslug & Hact).
  destruct (find _ _) as [o'|] eqn:Hfind; [eauto|].
  pose proof (find_none _ _ Hfind o Hin) as Hno. cbn in Hno.
  rewrite Hact, (proj2 (String.eqb_eq _ _) Hslug) in Hno. discriminate.
Qed.

Section Login.

Variable verify_password : string -> string -> bool.
Variable create_access_token : Payload.t -> string.
Variable create_refresh_token : Payload.t -> string.

Lemma find_live_unique slug db a :
  unique_slugs db -> In a (organizations db) -> live slug a ->
  find (fun o => String.eqb (Organization.slug o) slug && Organization.is_active o)
       (organizations db) = Some a.
Proof.
  intros Huniq Hin Hlive.
  destruct (find_live slug db (ex_intro _ a (conj Hin Hlive))) as [o Ho].
  rewrite Ho. f_equal.
  apply find_some in Ho as [Hin' Hlive'].
  apply andb_true_iff in Hlive' as [Hslug' _]. apply String.eqb_eq in Hslug'.
  destruct Hlive as [Hslug _].
  apply (unique_column Organization.slug (organizations db)); auto. congruence.
Qed.

(** C2 (as the code has it): the lookup of a tenant login searches all
    tenant users by email alone.  A user [u] of organization [b] who logs
    into another live tenant [a] with the right password is authenticated,
    and receives tokens that bind the user's id to [a]. *)
Theorem cross_tenant_login_succeeds email password slug a b u s :
  unique_slugs (store s) ->
  NoDup (map TenantUser.email (tenant_users (store s))) ->
  In a (organizations (store s)) -> live slug a ->
  In b (organizations (store s)) -> Organization.id b <> Organization.id a ->
  In u (tenant_users (store s)) -> belongs_to u b ->
  TenantUser.email u = email ->
  verify_password password (TenantUser.hashed_password u) = true ->
  TenantUser.is_active u = true ->
  outcome (services.authenticate_tenant_user verify_password create_access_token
             create_refresh_token email password slug RequestSession) s
  = inr {| services.success := true;
           services.message := "Authentication successful";
           services.access_token :=
             create_access_token
               (services.claims (Py.str (TenantUser.id u)) "tenant" (Some slug)
                                (Some (Organization.id a)) (Some email));
           services.refresh_token :=
             create_refresh_token
               (services.claims (Py.str (TenantUser.id u)) "tenant" (Some slug)
                                (Some (Organization.id a)) None);
           services.user_id := TenantUser.id u;
           services.context := "tenant" |}.
Proof.
  intros Hslugs Hemails Ha Hlive _ _ Hu _ Hemail Hverify Hactive.
  unfold outcome, services.authenticate_tenant_user, services.get_tenant_session.
  run_queries.
  rewrite (find_live_unique slug (store s) a Hslugs Ha Hlive). cbn.
  rewrite (find_unique TenantUser.email _ email u Hemails Hu Hemail).
  rewrite Hverify, Hactive, Hemail. reflexivity.
Qed.

(** C8 (as the code has it): a tenant login searches all tenant users by
    email, so an attempt with an address that no user of the resolved
    tenant [a] has is not answered as an attempt with a wrong password is.
    When a user [u] of another organization has the address and the
    password verifies against [u]'s hash, the first attempt is answered
    with a token pair for [u] in [a]; the attempt with the address of a
    user [w] of [a] and a password that does not verify is answered 401
    "Invalid credentials". *)
Theorem login_outside_the_scope_is_answered unknown wrong slug a u w s :
  unique_slugs (store s) ->
  NoDup (map TenantUser.email (tenant_users (store s))) ->
  slug <> "" ->
  In a (organizations (store s)) -> live slug a ->
  (forall v, In v (tenant_users (store s)) -> belongs_to v a ->
             TenantUser.email v <> schemas.login_email unknown) ->
  In u (tenant_users (store s)) ->
  TenantUser.email u = schemas.login_email unknown ->
  verify_password (schemas.login_password unknown) (TenantUser.hashed_password u)
  = true ->
  TenantUser.is_active u = true ->
  In w (tenant_users (store s)) -> belongs_to w a ->
  TenantUser.email w = schemas.login_email wrong ->
  verify_password (schemas.login_password wrong) (TenantUser.hashed_password w)
  = false ->
  outcome (endpoints.login verify_password create_access_token create_refresh_token
             unknown (Some slug) RequestSession) s
  = inr {| schemas.success := true;
           schemas.message := "Authentication successful";
           schemas.access_token :=
             Some (create_access_token
                     (services.claims (Py.str (TenantUser.id u)) "tenant" (Some slug)
                                      (Some (Organization.id a))
                                      (Some (TenantUser.email u))));
           schemas.refresh_token :=
             Some (create_refresh_token
                     (services.claims (Py.str (TenantUser.id u)) "tenant" (Some slug)
                                      (Some (Organization.id a)) None));
           schemas.user_id := Some (TenantUser.id u);
           schemas.context := Some "tenant" |}
  /\ outcome (endpoints.login verify_password create_access_token
                create_refresh_token wrong (Some slug) RequestSession) s
     = inl (HTTPException status.HTTP_401_UNAUTHORIZED "Invalid credentials")
  /\ ~ belongs_to u a.
Proof.
  intros Hslugs Hemails Hslug Ha Hlive Hscope Hu Hemail Hverify Hactive
    Hw _ Hemail' Hwrong.
  apply String.eqb_neq in Hslug.
  unfold outcome, endpoints.login, endpoints.try_endpoint, try_except,
    endpoints.header_given, services.authenticate_tenant_user,
    services.get_tenant_session.
  rewrite Hslug. run_queries.
  rewrite (find_live_unique slug (store s) a Hslugs Ha Hlive). cbn.
  rewrite (find_unique TenantUser.email _ _ u Hemails Hu Hemail).
  rewrite (find_unique TenantUser.email _ _ w Hemails Hw Hemail').
  rewrite Hverify, Hactive, Hwrong. cbn.
  repeat split. intros Hbelongs. exact (Hscope u Hu Hbelongs Hemail).
Qed.

End Login.

(** In [acme], the address of [bob], a user of [other], with his password,
    and the address of [dave], a user of [acme], with a guess. *)
Lemma login_outside_the_scope_is_answered_witness :
  outcome (endpoints.login Scenario.checkpw Scenario.create_access_token
             Scenario.create_refresh_token
             {| schemas.login_email := "bob@example.com";
                schemas.login_password := "Secret123" |}
             (Some "acme") RequestSession) (fresh Scenario.db)
  = inr {| schemas.success := true;
           schemas.message := "Authentication successful";
           schemas.access_token :=
             Some (Scenario.create_access_token
                     (services.claims (Py.str (TenantUser.id Scenario.bob)) "tenant"
                                      (Some "acme")
                                      (Some (Organization.id Scenario.acme))
                                      (Some (TenantUser.email Scenario.bob))));
           schemas.refresh_token :=
             Some (Scenario.create_refresh_token
                     (services.claims (Py.str (TenantUser.id Scenario.bob)) "tenant"
                                      (Some "acme")
                                      (Some (Organization.id Scenario.acme)) None));
           schemas.user_id := Some (TenantUser.id Scenario.bob);
           schemas.context := Some "tenant" |}
  /\ outcome (endpoints.login Scenario.checkpw Scenario.create_access_token
                Scenario.create_refresh_token
                {| schemas.login_email := "dave@example.com";
                   schemas.login_password := "guess" |}
                (Some "acme") RequestSession) (fresh Scenario.db)
     = inl (HTTPException status.HTTP_401_UNAUTHORIZED "Invalid credentials")
  /\ ~ belongs_to Scenario.bob Scenario.acme.
Proof.
  apply (login_outside_the_scope_is_answered Scenario.checkpw
           Scenario.create_access_token Scenario.create_refresh_token
           {| schemas.login_email := "bob@example.com";
              schemas.login_password := "Secret123" |}
           {| schemas.login_email := "dave@example.com";
              schemas.login_password := "guess" |}
           "acme" Scenario.acme Scenario.bob Scenario.dave (fresh Scenario.db)).
  - exact scenario_unique_slugs.
  - cbn. repeat constructor; cbn; intuition discriminate.
  - discriminate.
  - cbn. auto.
  - split; reflexivity.
  - cbn. intros v [<-|[<-|[]]]; discriminate.
  - cbn. auto.
  - reflexivity.
  - reflexivity.
  - reflexivity.
  - cbn. auto.
  - reflexivity.
  - reflexivity.
  - reflexivity.
Defined.

(** [bob], a user of [other], logs into [acme] and is given tokens for
    [acme]. *)
Lemma cross_tenant_login_succeeds_witness :
  outcome (services.authenticate_tenant_user Scenario.checkpw
             Scenario.create_access_token Scenario.create_refresh_token
             "bob@example.com" "Secret123" "acme" RequestSession) (fresh Scenario.db)
  = inr {| services.success := true;
           services.message := "Authentication successful";
           services.access_token :=
             Scenario.create_access_token
               (services.claims "7" "tenant" (Some "acme") (Some 1)
                                (Some "bob@example.com"));
           services.refresh_token :=
             Scenario.create_refresh_token
               (services.claims "7" "tenant" (Some "acme") (Some 1) None);
           services.user_id := 7;
           services.context := "tenant" |}.
Proof.
  apply (cross_tenant_login_succeeds Scenario.checkpw Scenario.create_access_token
           Scenario.create_refresh_token "bob@example.com" "Secret123" "acme"
           Scenario.acme Scenario.other Scenario.bob (fresh Scenario.db)).
  - exact scenario_unique_slugs.
  - cbn. repeat constructor; cbn; intuition discriminate.
  - cbn. auto.
  - split; reflexivity.
  - cbn. auto.
  - discriminate.
  - cbn. auto.
  - reflexivity.
  - reflexivity.
  - reflexivity.
  - reflexivity.
Defined.

(* --------------------------------------------------------------------- *)
(** ** Refresh ([services.refresh_access_token], [endpoints.refresh_token]) *)
(* --------------------------------------------------------------------- *)

Section Refresh.

Variable create_access_token : Payload.t -> string.
Variable decode_token : string -> exn + Payload.t.

(** A refresh token of a core user who has been deactivated is refused with
    [ValueError("User not found or inactive")], which the endpoint answers
    as 401. *)
Lemma refresh_for_inactive_core_user token payload sub uid u s :
  decode_token token = inr payload ->
  Payload.sub payload = Some sub -> String.eqb sub "" = false ->
  Py.int sub = Some uid ->
  Payload.context payload = Some "core" ->
  find (fun u => CoreUser.id u =? uid) (core_users (store s)) = Some u ->
  CoreUser.is_active u = false ->
  outcome (services.refresh_access_token create_access_token decode_token
             token RequestSession) s
  = inl (ValueError "User not found or inactive")
  /\ outcome (endpoints.refresh_token create_access_token decode_token
                token RequestSession) s
     = inl (HTTPException status.HTTP_401_UNAUTHORIZED "User not found or inactive").
Proof.
  intros Hdec Hsub Hsub0 Hint Hctx Hfind Hinactive.
  unfold outcome, endpoints.refresh_token, endpoints.try_endpoint, try_except,
    services.refresh_access_token, services.int_.
  run_queries. rewrite Hdec, Hsub, Hctx, Hsub0, Hint. cbn. rewrite Hfind. cbn.
  rewrite Hinactive. cbn. split; reflexivity.
Qed.

(** C3 (as the code has it): when the core user a verified refresh token
    names is no longer in the store, the service reads [user.id] of [None]
    before it tests [not user]: it raises [AttributeError], not
    [ValueError("User not found or inactive")], and the endpoint answers
    500.  No access token is issued. *)
Theorem refresh_for_absent_core_user token payload sub uid s :
  decode_token token = inr payload ->
  Payload.sub payload = Some sub -> String.eqb sub "" = false ->
  Py.int sub = Some uid ->
  Payload.context payload = Some "core" ->
  (forall u, In u (core_users (store s)) -> CoreUser.id u <> uid) ->
  outcome (services.refresh_access_token create_access_token decode_token
             token RequestSession) s
  = inl (AttributeError "'NoneType' object has no attribute 'id'")
  /\ outcome (endpoints.refresh_token create_access_token decode_token
                token RequestSession) s
     = inl (HTTPException 500
              "Token refresh error: 'NoneType' object has no attribute 'id'").
Proof.
  intros Hdec Hsub Hsub0 Hint Hctx Habsent.
  assert (find (fun u => CoreUser.id u =? uid) (core_users (store s)) = None) as Hfind.
  { apply find_none_iff. intros u Hu. apply Z.eqb_neq. now apply Habsent. }
  unfold outcome, endpoints.refresh_token, endpoints.try_endpoint, try_except,
    services.refresh_access_token, services.int_.
  run_queries. rewrite Hdec, Hsub, Hctx, Hsub0, Hint. cbn. rewrite Hfind. cbn.
  split; reflexivity.
Qed.

(** The tenant branch has the same order of operations. *)
Lemma refresh_for_absent_tenant_user token payload sub uid slug oid o s :
  decode_token token = inr payload ->
  Payload.sub payload = Some sub -> String.eqb sub "" = false ->
  Py.int sub = Some uid ->
  Payload.context payload = Some "tenant" ->
  Payload.tenant payload = Some slug -> String.eqb slug "" = false ->
  Payload.org_id payload = Some oid -> (oid =? 0) = false ->
  find (fun o => String.eqb (Organization.slug o) slug && Organization.is_active o)
       (organizations (store s)) = Some o ->
  (forall u, In u (tenant_users (store s)) -> TenantUser.id u <> uid) ->
  outcome (endpoints.refresh_token create_access_token decode_token
             token RequestSession) s
  = inl (HTTPException 500
           "Token refresh error: 'NoneType' object has no attribute 'id'").
Proof.
  intros Hdec Hsub Hsub0 Hint Hctx Hten Hten0 Horg Horg0 Ho Habsent.
  assert (find (fun u => TenantUser.id u =? uid) (tenant_users (store s)) = None)
    as Hfind.
  { apply find_none_iff. intros u Hu. apply Z.eqb_neq. now apply Habsent. }
  unfold outcome, endpoints.refresh_token, endpoints.try_endpoint, try_except,
    services.refresh_access_token, services.get_tenant_session, services.int_.
  run_queries. rewrite Hdec, Hsub, Hctx, Hsub0, Hten, Horg, Hten0, Horg0. cbn.
  rewrite Ho. cbn. rewrite Hint. cbn. rewrite Hfind. reflexivity.
Qed.

End Refresh.

(** A refresh token for core user 5, who is in no table. *)
Lemma refresh_for_absent_core_user_witness :
  outcome (endpoints.refresh_token Scenario.create_access_token
             (fun _ => inr (Scenario.core_claims "5")) "r" RequestSession)
          (fresh Scenario.db)
  = inl (HTTPException 500
           "Token refresh error: 'NoneType' object has no attribute 'id'").
Proof.
  apply (proj2 (refresh_for_absent_core_user Scenario.create_access_token
                  (fun _ => inr (Scenario.core_claims "5")) "r"
                  (Scenario.core_claims "5") "5" 5 (fresh Scenario.db)
                  eq_refl eq_refl eq_refl eq_refl eq_refl
                  ltac:(cbn; intros u [<-|[<-|[]]]; discriminate))).
Defined.

(** The same token for [carol], who is deactivated, is answered 401. *)
Example refresh_for_carol :
  outcome (endpoints.refresh_token Scenario.create_access_token
             (fun _ => inr (Scenario.core_claims "2")) "r" RequestSession)
          (fresh Scenario.db)
  = inl (HTTPException status.HTTP_401_UNAUTHORIZED "User not found or inactive").
Proof. reflexivity. Qed.

(* --------------------------------------------------------------------- *)
(** ** The tenant header guard ([endpoints.get_user_profile],
       [endpoints.update_user_profile]) *)
(* --------------------------------------------------------------------- *)

Section TenantHeaderGuard.

Variable utcnow : Z.

(** C7 (as the code has it): the two refusals of the guard are raised inside
    the endpoint's [try], whose [except Exception] clause catches them: a
    missing header and a header naming another tenant are both answered 500,
    with the intended status left in the detail.  The session is returned
    as it was received: the operation is not performed. *)
Theorem tenant_header_guard_refusals_become_500
    update_data user_id token_tenant tenant_context s :
  (endpoints.header_given tenant_context = None ->
   endpoints.get_user_profile (user_id, token_tenant) tenant_context RequestSession s
   = (inl (HTTPException 500
             "Profile retrieval error: 400: X-TENANT header required"), s)
   /\ endpoints.update_user_profile utcnow update_data (user_id, token_tenant)
        tenant_context RequestSession s
      = (inl (HTTPException 500
                "Profile update error: 400: X-TENANT header required"), s))
  /\ (forall header,
         endpoints.header_given tenant_context = Some header ->
         String.eqb token_tenant header = false ->
         endpoints.get_user_profile (user_id, token_tenant) tenant_context
           RequestSession s
         = (inl (HTTPException 500
                   "Profile retrieval error: 403: Token tenant does not match request tenant"),
            s)
         /\ endpoints.update_user_profile utcnow update_data (user_id, token_tenant)
              tenant_context RequestSession s
            = (inl (HTTPException 500
                      "Profile update error: 403: Token tenant does not match request tenant"),
               s)).
Proof.
  unfold endpoints.get_user_profile, endpoints.update_user_profile,
    endpoints.try_endpoint, try_except.
  split.
  - intros ->. split; reflexivity.
  - intros header -> ->. split; reflexivity.
Qed.

Lemma longer_log (log more : list Statement) :
  more <> [] -> (log ++ more)%list <> log.
Proof.
  intros Hmore Heq. apply Hmore.
  apply (app_inv_head log). now rewrite app_nil_r.
Qed.

(** The part of the guard that works: the profile is looked up, starting
    with the tenant's organization, exactly when the header is given and
    names the tenant of the token. *)
Lemma tenant_header_guard_passes_iff user_id token_tenant tenant_context s :
  statements
    (endpoints.get_user_profile (user_id, token_tenant) tenant_context RequestSession) s
  <> executed s
  <-> endpoints.header_given tenant_context = Some token_tenant.
Proof.
  unfold statements, endpoints.get_user_profile, endpoints.try_endpoint, try_except,
    services.get_tenant_user_profile, services.get_tenant_session.
  run_queries.
  destruct (endpoints.header_given tenant_context) as [header|].
  2: { cbn. split; [intros H; now destruct H|discriminate]. }
  destruct (String.eqb_spec token_tenant header) as [<-|Hne].
  2: { cbn. split; [intros H; now destruct H|congruence]. }
  split; [reflexivity|intros _]. cbn.
  destruct (find _ (organizations _)) as [o|]; cbn.
  - destruct (find _ (tenant_users _)) as [u|]; cbn;
      rewrite <- app_assoc; now apply longer_log.
  - now apply longer_log.
Qed.

End TenantHeaderGuard.

(* --------------------------------------------------------------------- *)
(** ** The token codec *)
(* --------------------------------------------------------------------- *)

Lemma of_char_to_char (x : base64url.sextet) :
  base64url.of_char (base64url.to_char x) = Some x.
Proof.
  destruct x as [[[[[[] []] []] []] []] []]; reflexivity.
Qed.

Lemma to_char_not_dot (x : base64url.sextet) :
  Ascii.eqb (base64url.to_char x) "." = false.
Proof.
  destruct x as [[[[[[] []] []] []] []] []]; reflexivity.
Qed.

Lemma octet1_first_second a b :
  base64url.octet1 (base64url.first a) (base64url.second a b) = a.
Proof. destruct a, b; reflexivity. Qed.

Lemma octet2_second_third a b c :
  base64url.octet2 (base64url.second a b) (base64url.third b c) = b.
Proof. destruct a, b, c; reflexivity. Qed.

Lemma octet3_third_fourth b c :
  base64url.octet3 (base64url.third b c) (base64url.fourth c) = c.
Proof. destruct b, c; reflexivity. Qed.

(** Induction on octet strings three octets at a time. *)
Lemma octets_ind3 (P : string -> Prop) :
  P EmptyString ->
  (forall a, P (String a EmptyString)) ->
  (forall a b, P (String a (String b EmptyString))) ->
  (forall a b c rest, P rest -> P (String a (String b (String c rest)))) ->
  forall octets, P octets.
Proof.
  intros H0 H1 H2 H3.
  fix IH 1. intros [|a [|b [|c rest]]];
    [exact H0 | apply H1 | apply H2 | apply H3; apply IH].
Qed.

(** Reading back what was written gives the octets. *)
Lemma base64url_decode_encode octets :
  base64url.decode (base64url.encode octets) = Some octets.
Proof.
  induction octets as [|a|a b|a b c rest IH] using octets_ind3.
  - reflexivity.
  - cbn [base64url.encode base64url.decode].
    now rewrite !of_char_to_char, octet1_first_second.
  - cbn [base64url.encode base64url.decode].
    now rewrite !of_char_to_char, octet1_first_second, octet2_second_third.
  - cbn [base64url.encode base64url.decode].
    rewrite !of_char_to_char, IH.
    now rewrite octet1_first_second, octet2_second_third, octet3_third_fourth.
Qed.

(** A segment has no dot in it. *)
Lemma split_dots_encode octets :
  Py.split "." (base64url.encode octets) = [base64url.encode octets].
Proof.
  induction octets as [|a|a b|a b c rest IH] using octets_ind3;
    cbn [base64url.encode Py.split];
    rewrite ?to_char_not_dot; cbn [Py.split]; rewrite ?IH; reflexivity.
Qed.

Lemma split_dots_app segment rest :
  Py.split "." segment = [segment] ->
  Py.split "." (segment ++ String "." rest) = segment :: Py.split "." rest.
Proof.
  induction segment as [|c segment IH]; cbn [append Py.split]; [reflexivity|].
  destruct (Ascii.eqb c "."); [discriminate|].
  destruct (Py.split "." segment) as [|s [|? ?]] eqn:Hs; try discriminate.
  - cbn. intros [= <-]. discriminate Hs.
  - cbn. intros [= ->]. now rewrite IH.
Qed.

Lemma append_assoc (a b c : string) : ((a ++ b) ++ c)%string = (a ++ b ++ c)%string.
Proof. induction a as [|x a IH]; cbn; [reflexivity|now rewrite IH]. Qed.

(** What [jwt.encode] writes splits into its three segments. *)
Lemma split_dots_token header body signature :
  Py.split "."
    ((base64url.encode header ++ "." ++ base64url.encode body)
       ++ "." ++ base64url.encode signature)
  = [base64url.encode header; base64url.encode body; base64url.encode signature].
Proof.
  rewrite append_assoc. cbn [append].
  rewrite split_dots_app by apply split_dots_encode.
  rewrite split_dots_app by apply split_dots_encode.
  now rewrite split_dots_encode.
Qed.

Lemma xorb_fixed m c : xorb m c = c -> m = false.
Proof. destruct m, c; cbn; congruence. Qed.

Lemma xor_octet_differs mask c :
  mask <> zero -> xor_octet mask c <> c.
Proof.
  destruct mask as [m0 m1 m2 m3 m4 m5 m6 m7], c as [c0 c1 c2 c3 c4 c5 c6 c7].
  cbn. intros Hmask [= H0 H1 H2 H3 H4 H5 H6 H7]. apply Hmask.
  apply xorb_fixed in H0, H1, H2, H3, H4, H5, H6, H7. now subst.
Qed.

Lemma flip_differs i mask octets :
  mask <> zero -> (i < String.length octets)%nat ->
  String.eqb (flip i mask octets) octets = false.
Proof.
  intros Hmask. revert i.
  induction octets as [|c rest IH]; intros i Hi; cbn in Hi; [lia|].
  apply String.eqb_neq. destruct i as [|i]; cbn; intros [= H].
  - now apply (xor_octet_differs mask c).
  - apply String.eqb_eq in H. rewrite IH in H by lia. discriminate.
Qed.

Section CodecProperties.

Variable SECRET_KEY : string.
Variable hmac_sha256 : string -> string -> string.
Variable json_dumps : Payload.t -> string.
Variable json_loads : string -> option Payload.t.

(** Verifying the signed text of [payload] under any signature: the
    structure parses, so everything hinges on the signature, then on what
    the payload segment reads back as. *)
Lemma decode_compact now payload signature :
  jwt.decode SECRET_KEY hmac_sha256 json_loads now
    (jwt.compact (jwt.signing_input json_dumps payload) signature)
  = if String.eqb signature
         (hmac_sha256 SECRET_KEY (jwt.signing_input json_dumps payload))
    then match json_loads (json_dumps payload) with
         | Some payload' =>
             match Payload.exp payload' with
             | Some exp => if exp <? now then inl ExpiredSignatureError else inr payload'
             | None => inr payload'
             end
         | None => inl InvalidTokenError
         end
    else inl InvalidTokenError.
Proof.
  unfold jwt.decode, jwt.compact, jwt.signing_input.
  rewrite split_dots_token, !base64url_decode_encode, String.eqb_refl.
  cbn [negb]. now destruct (String.eqb signature _).
Qed.

(** A token issued from [claims] at time [issued] for [ttl] seconds
    decodes, until [issued + ttl], to the stamped claim set, when the
    serialisation of the payload reads back what it wrote. *)
Lemma decode_issue_reads_back claims ttl issued now :
  json_loads (json_dumps (jwt.stamp issued ttl claims))
    = Some (jwt.stamp issued ttl claims) ->
  now <= issued + ttl ->
  jwt.decode SECRET_KEY hmac_sha256 json_loads now
    (jwt.issue SECRET_KEY hmac_sha256 json_dumps issued claims ttl)
  = inr (jwt.stamp issued ttl claims).
Proof.
  intros Hjson Hnow.
  unfold jwt.issue, jwt.encode.
  rewrite decode_compact, String.eqb_refl, Hjson. cbn [Payload.exp jwt.stamp].
  destruct (Z.ltb_spec (issued + ttl) now); [lia|reflexivity].
Qed.

(** Past its expiry the same token is refused as expired. *)
Lemma decode_issue_expired claims ttl issued now :
  json_loads (json_dumps (jwt.stamp issued ttl claims))
    = Some (jwt.stamp issued ttl claims) ->
  issued + ttl < now ->
  jwt.decode SECRET_KEY hmac_sha256 json_loads now
    (jwt.issue SECRET_KEY hmac_sha256 json_dumps issued claims ttl)
  = inl ExpiredSignatureError.
Proof.
  intros Hjson Hnow. unfold jwt.issue, jwt.encode.
  rewrite decode_compact, String.eqb_refl, Hjson. cbn [Payload.exp jwt.stamp].
  destruct (Z.ltb_spec (issued + ttl) now); [reflexivity|lia].
Qed.

(** How verification ends, read off the structure of the token. *)
Lemma decode_by_structure now token :
  jwt.decode SECRET_KEY hmac_sha256 json_loads now token
  = match jwt.parse json_loads token with
    | Some (signed, signature, payload) =>
        if jwt.signature_verifies SECRET_KEY hmac_sha256 signed signature then
          match Payload.exp payload with
          | Some exp => if exp <? now then inl ExpiredSignatureError else inr payload
          | None => inr payload
          end
        else inl InvalidTokenError
    | None => inl InvalidTokenError
    end.
Proof.
  unfold jwt.decode, jwt.parse, jwt.signature_verifies.
  destruct (Py.split "." token) as [|h [|p [|s [|? ?]]]]; try reflexivity.
  destruct (base64url.decode h) as [header|]; [|reflexivity].
  destruct (base64url.decode p) as [body|]; [|reflexivity].
  destruct (base64url.decode s) as [signature|]; [|reflexivity].
  destruct (String.eqb header jwt.JOSE_HEADER); cbn [negb]; [|reflexivity].
  destruct (json_loads body) as [payload|];
    destruct (String.eqb signature _); reflexivity.
Qed.

(** C6: verification fails in two ways only.  It fails as expired exactly
    when the token parses, its signature verifies and [now] is past its
    [exp]; it fails as invalid exactly when the token does not parse or its
    signature does not verify.  A token whose signature has an octet
    altered is invalid, whether or not it has expired.  Context resolution
    answers the two failures with different details. *)
Theorem verification_failure_kinds now token :
  (forall e, jwt.decode SECRET_KEY hmac_sha256 json_loads now token = inl e ->
             e = ExpiredSignatureError \/ e = InvalidTokenError)
  /\ (jwt.decode SECRET_KEY hmac_sha256 json_loads now token = inl ExpiredSignatureError
      <-> exists signed signature payload exp,
            jwt.parse json_loads token = Some (signed, signature, payload)
            /\ jwt.signature_verifies SECRET_KEY hmac_sha256 signed signature = true
            /\ Payload.exp payload = Some exp
            /\ now > exp)
  /\ (jwt.decode SECRET_KEY hmac_sha256 json_loads now token = inl InvalidTokenError
      <-> jwt.parse json_loads token = None
          \/ exists signed signature payload,
               jwt.parse json_loads token = Some (signed, signature, payload)
               /\ jwt.signature_verifies SECRET_KEY hmac_sha256 signed signature
                  = false)
  /\ (forall payload i mask,
         mask <> zero ->
         (i < String.length
                (hmac_sha256 SECRET_KEY (jwt.signing_input json_dumps payload)))%nat ->
         jwt.decode SECRET_KEY hmac_sha256 json_loads now
           (jwt.compact (jwt.signing_input json_dumps payload)
              (flip i mask
                 (hmac_sha256 SECRET_KEY (jwt.signing_input json_dumps payload))))
         = inl InvalidTokenError)
  /\ (forall s,
         (jwt.decode SECRET_KEY hmac_sha256 json_loads now token
          = inl ExpiredSignatureError ->
          security.get_current_user_context
            (jwt.decode SECRET_KEY hmac_sha256 json_loads now) (Some token)
            RequestSession s
          = (inl (HTTPException status.HTTP_401_UNAUTHORIZED "Token has expired"), s))
         /\ (jwt.decode SECRET_KEY hmac_sha256 json_loads now token
             = inl InvalidTokenError ->
             security.get_current_user_context
               (jwt.decode SECRET_KEY hmac_sha256 json_loads now) (Some token)
               RequestSession s
             = (inl (HTTPException status.HTTP_401_UNAUTHORIZED "Invalid token"), s))).
Proof.
  split; [|split; [|split; [|split; [|intros s; split]]]].
  - intros []; auto.
  - rewrite decode_by_structure.
    destruct (jwt.parse json_loads token) as [[[signed signature] payload]|].
    2: { split; [discriminate|]. intros (? & ? & ? & ? & H & _). discriminate H. }
    destruct (jwt.signature_verifies _ _ _ _) eqn:Hsig.
    2: { split; [discriminate|].
         intros (? & ? & ? & ? & [= <- <- <-] & H & _). congruence. }
    destruct (Payload.exp payload) as [exp|] eqn:Hexp.
    2: { split; [discriminate|].
         intros (? & ? & ? & ? & [= <- <- <-] & _ & H & _). congruence. }
    destruct (Z.ltb_spec exp now); split; try discriminate; try reflexivity.
    + intros _. exists signed, signature, payload, exp. repeat split; auto. lia.
    + intros (? & ? & ? & ? & [= <- <- <-] & _ & H' & Hlt).
      rewrite Hexp in H'. injection H' as <-. lia.
  - rewrite decode_by_structure.
    destruct (jwt.parse json_loads token) as [[[signed signature] payload]|].
    2: { split; auto. }
    destruct (jwt.signature_verifies _ _ _ _) eqn:Hsig.
    + split.
      * destruct (Payload.exp payload) as [exp|]; [destruct (exp <? now)|]; discriminate.
      * intros [H|(? & ? & ? & [= <- <- <-] & H)]; [discriminate H|congruence].
    + split; auto. intros _. right. exists signed, signature, payload. auto.
  - intros payload i mask Hmask Hi.
    now rewrite decode_compact, flip_differs.
  - unfold security.get_current_user_context, bind, raise. now intros ->.
  - unfold security.get_current_user_context, bind, raise. now intros ->.
Qed.

End CodecProperties.

(* --------------------------------------------------------------------- *)
(** ** The payload segment reads back what was written *)
(* --------------------------------------------------------------------- *)

Lemma read_chars_escape s rest :
  json.read_chars (json.escape s ++ String json.quote rest) = Some (s, rest).
Proof.
  induction s as [|c s IH]; cbn [json.escape String.append json.read_chars].
  - reflexivity.
  - destruct (Ascii.eqb c json.quote) eqn:Hquote; cbn [orb].
    + cbn [String.append json.read_chars].
      change (Ascii.eqb json.backslash json.quote) with false.
      change (Ascii.eqb json.backslash json.backslash) with true.
      cbn iota. now rewrite IH.
    + destruct (Ascii.eqb c json.backslash) eqn:Hbackslash.
      * cbn [String.append json.read_chars].
        change (Ascii.eqb json.backslash json.quote) with false.
        change (Ascii.eqb json.backslash json.backslash) with true.
        cbn iota. now rewrite IH.
      * cbn [String.append json.read_chars]. now rewrite Hquote, Hbackslash, IH.
Qed.

Lemma read_write_string s rest :
  json.read_string (json.write_string s ++ rest) = Some (s, rest).
Proof.
  unfold json.write_string, json.read_string. cbn [String.append].
  change (Ascii.eqb json.quote json.quote) with true. cbn iota.
  rewrite append_assoc. cbn [String.append]. apply read_chars_escape.
Qed.

Lemma str_pos_chars (P : ascii -> Prop) fuel :
  (forall d, 0 <= d <= 9 -> P (Py.digit_char d)) ->
  forall n tail, Forall P tail -> Forall P (Py.str_pos fuel n tail).
Proof.
  intros Hdigit.
  induction fuel as [|fuel IH]; intros n tail Htail; cbn [Py.str_pos]; [exact Htail|].
  assert (Forall P (Py.digit_char (n mod 10) :: tail)).
  { constructor; [|exact Htail]. apply Hdigit.
    pose proof (Z.mod_pos_bound n 10). lia. }
  destruct (n <? 10); auto.
Qed.

(** The characters [str] writes are digits and the minus sign. *)
Lemma str_chars (P : ascii -> Prop) n :
  (forall d, 0 <= d <= 9 -> P (Py.digit_char d)) -> P "-"%char ->
  Forall P (list_ascii_of_string (Py.str n)).
Proof.
  intros Hdigit Hminus. unfold Py.str.
  destruct (n <? 0); cbn [list_ascii_of_string];
    rewrite list_ascii_of_string_of_list_ascii;
    [constructor; [exact Hminus|]|]; now apply str_pos_chars.
Qed.

Lemma read_literal_app literal c rest :
  Forall (fun a => Ascii.eqb a "," || Ascii.eqb a "}" = false)
         (list_ascii_of_string literal) ->
  Ascii.eqb c "," || Ascii.eqb c "}" = true ->
  json.read_literal (literal ++ String c rest) = (literal, String c rest).
Proof.
  intros Hplain Hc.
  induction literal as [|a literal IH]; cbn [String.append json.read_literal].
  - now rewrite Hc.
  - cbn [list_ascii_of_string] in Hplain. inversion Hplain as [|? ? Ha Hrest]; subst.
    now rewrite Ha, (IH Hrest).
Qed.

Lemma read_write_value v c rest :
  Ascii.eqb c "," || Ascii.eqb c "}" = true ->
  json.read_value (json.write_value v ++ String c rest) = Some (v, String c rest).
Proof.
  intros Hc. destruct v as [s|n]; cbn [json.write_value].
  - unfold json.write_string, json.read_value. cbn [String.append].
    change (Ascii.eqb json.quote json.quote) with true. cbn iota.
    rewrite append_assoc. cbn [String.append]. now rewrite read_chars_escape.
  - pose proof (str_chars
                  (fun a => Ascii.eqb a json.quote = false
                            /\ Ascii.eqb a "," || Ascii.eqb a "}" = false) n) as Hchars.
    assert (Forall (fun a => Ascii.eqb a json.quote = false
                             /\ Ascii.eqb a "," || Ascii.eqb a "}" = false)
                   (list_ascii_of_string (Py.str n))) as Hstr.
    { apply Hchars; [|split; reflexivity].
      intros d Hd. each_digit d Hd; split; reflexivity. }
    pose proof (str_not_empty n) as Hne.
    assert (json.read_literal (Py.str n ++ String c rest) = (Py.str n, String c rest))
      as Hliteral.
    { apply read_literal_app; [|exact Hc].
      eapply Forall_impl; [|exact Hstr]. now intros a [_ Ha]. }
    destruct (Py.str n) as [|a literal] eqn:Hwritten; [discriminate|].
    unfold json.read_value. cbn [String.append] in *.
    inversion Hstr as [|? ? [Hquote _] _]; subst. rewrite Hquote, Hliteral.
    rewrite <- Hwritten. now rewrite int_str.
Qed.

Lemma read_write_member m c rest :
  Ascii.eqb c "," || Ascii.eqb c "}" = true ->
  json.read_member (json.write_member m ++ String c rest) = Some (m, String c rest).
Proof.
  intros Hc. destruct m as [key v]. unfold json.write_member, json.read_member.
  cbn [fst snd]. rewrite append_assoc, read_write_string.
  cbn [String.append]. change (Ascii.eqb ":" ":") with true. cbn iota.
  now rewrite (read_write_value v c rest Hc).
Qed.

Lemma write_rest_head ms :
  exists c rest, json.write_rest ms = String c rest
                 /\ Ascii.eqb c "," || Ascii.eqb c "}" = true.
Proof. destruct ms; cbn; eauto. Qed.

Lemma length_append (a b : string) :
  String.length (a ++ b) = (String.length a + String.length b)%nat.
Proof. induction a as [|c a IH]; cbn; [reflexivity|now rewrite IH]. Qed.

Lemma write_rest_length ms : (length ms < String.length (json.write_rest ms))%nat.
Proof.
  induction ms as [|m ms IH]; cbn [json.write_rest length String.append String.length];
    [lia|].
  rewrite length_append. lia.
Qed.

Lemma read_write_rest ms :
  forall fuel, (length ms < fuel)%nat ->
               json.read_rest fuel (json.write_rest ms) = Some ms.
Proof.
  induction ms as [|m ms IH]; intros fuel Hfuel;
    (destruct fuel as [|fuel]; [cbn in Hfuel; lia|]).
  - reflexivity.
  - cbn [json.write_rest String.append json.read_rest].
    change (Ascii.eqb "," "}") with false. change (Ascii.eqb "," ",") with true.
    cbn iota.
    destruct (write_rest_head ms) as (c & rest & Hhead & Hc). rewrite Hhead.
    rewrite (read_write_member m c rest Hc), <- Hhead.
    rewrite IH by (cbn in Hfuel; lia). reflexivity.
Qed.

Lemma read_write_object ms : json.read_object (json.write_object ms) = Some ms.
Proof.
  destruct ms as [|m ms]; [reflexivity|].
  unfold json.write_object, json.read_object. cbn [String.append].
  change (Ascii.eqb "{" "{") with true. cbn iota.
  destruct (write_rest_head ms) as (c & rest & Hhead & Hc). rewrite Hhead.
  rewrite (read_write_member m c rest Hc), <- Hhead.
  rewrite read_write_rest by apply write_rest_length.
  destruct m as [key v]. unfold json.write_member, json.write_string.
  cbn [fst String.append].
  destruct (String.eqb _ "}") eqn:Hbrace; [|reflexivity].
  apply String.eqb_eq in Hbrace. discriminate.
Qed.

Lemma payload_of_members p : json.payload_of (json.members p) = Some p.
Proof.
  destruct p as [[sub|] [context|] [tenant|] [org_id|] [email|] [iat|] [exp|]];
    reflexivity.
Qed.

(** Every claim set is read back from its serialisation. *)
Lemma loads_dumps p : json.loads (json.dumps p) = Some p.
Proof.
  unfold json.loads, json.dumps. rewrite read_write_object. apply payload_of_members.
Qed.

(** C9: a token issued from [claims] at time [issued] for [ttl] seconds
    decodes, at any time [now <= issued + ttl], to the claim set that has
    exactly the entries of [claims] together with [iat = issued] and
    [exp = issued + ttl], whatever the claim set, the secret and the
    signature algorithm. *)
Theorem decode_issue_round_trip SECRET_KEY hmac_sha256 claims ttl issued now :
  now <= issued + ttl ->
  exists decoded,
    jwt.decode SECRET_KEY hmac_sha256 json.loads now
      (jwt.issue SECRET_KEY hmac_sha256 json.dumps issued claims ttl) = inr decoded
    /\ Payload.sub decoded = Payload.sub claims
    /\ Payload.context decoded = Payload.context claims
    /\ Payload.tenant decoded = Payload.tenant claims
    /\ Payload.org_id decoded = Payload.org_id claims
    /\ Payload.email decoded = Payload.email claims
    /\ Payload.iat decoded = Some issued
    /\ Payload.exp decoded = Some (issued + ttl).
Proof.
  intros Hnow. exists (jwt.stamp issued ttl claims). split; [|repeat split].
  apply decode_issue_reads_back; [apply loads_dumps|exact Hnow].
Qed.

(** A tenant token whose email has a quote, a backslash and a comma in it,
    issued at 1000 for 900 seconds and read at 1900. *)
Lemma decode_issue_round_trip_witness :
  exists decoded,
    jwt.decode Scenario.SECRET_KEY Scenario.digest json.loads 1900
      (jwt.issue Scenario.SECRET_KEY Scenario.digest json.dumps 1000
         (services.claims "7" "tenant" (Some "acme") (Some 1)
            (Some (String json.quote (String json.backslash ",}|@example.com"))))
         900) = inr decoded
    /\ Payload.sub decoded = Some "7"
    /\ Payload.context decoded = Some "tenant"
    /\ Payload.tenant decoded = Some "acme"
    /\ Payload.org_id decoded = Some 1
    /\ Payload.email decoded
       = Some (String json.quote (String json.backslash ",}|@example.com"))
    /\ Payload.iat decoded = Some 1000
    /\ Payload.exp decoded = Some 1900.
Proof.
  apply (decode_issue_round_trip Scenario.SECRET_KEY Scenario.digest
           (services.claims "7" "tenant" (Some "acme") (Some 1)
              (Some (String json.quote (String json.backslash ",}|@example.com"))))
           900 1000 1900).
  lia.
Defined.

(** What is written for the claims of a core login. *)
Example dumps_of_core_claims :
  json.dumps (jwt.stamp 1000 900 (Scenario.core_claims "7"))
  = "{" ++ jwt.quoted "sub" ++ ":" ++ jwt.quoted "7" ++ ","
        ++ jwt.quoted "context" ++ ":" ++ jwt.quoted "core" ++ ","
        ++ jwt.quoted "iat" ++ ":1000," ++ jwt.quoted "exp" ++ ":1900}".
Proof. reflexivity. Qed.

(** The three runs the tests of the codec record: a valid token decodes to
    its claims, a token issued with a negative lifetime has expired, and
    text that is no token is invalid. *)
Example test_decode_valid_token :
  option_map Payload.sub
    (match Scenario.decode_token (Scenario.create_access_token (Scenario.core_claims "123"))
     with inr decoded => Some decoded | inl _ => None end)
  = Some (Some "123").
Proof. reflexivity. Qed.

Example test_token_expiration :
  jwt.decode_token Scenario.SECRET_KEY Scenario.digest Scenario.loads Scenario.now
    (jwt.create_access_token Scenario.SECRET_KEY Scenario.digest Scenario.dumps
       Scenario.ACCESS_TOKEN_EXPIRE Scenario.now (Scenario.core_claims "123") (Some (-10)))
  = inl (ValueError "Token has expired").
Proof. reflexivity. Qed.

Example test_decode_invalid_token :
  Scenario.decode_token "invalid.token.here" = inl (ValueError "Invalid token").
Proof. reflexivity. Qed.

(* --------------------------------------------------------------------- *)
(** ** The flows end to end, on the small deployment *)
(* --------------------------------------------------------------------- *)

(** [alice] logs in and her access token resolves to her core principal. *)
Example alice_logs_in_and_is_resolved :
  match outcome (endpoints.login Scenario.checkpw Scenario.create_access_token
                   Scenario.create_refresh_token
                   {| schemas.login_email := "alice@example.com";
                      schemas.login_password := "Passw0rd!" |}
                   None RequestSession) (fresh Scenario.db) with
  | inr response =>
      outcome (security.get_current_user_context Scenario.jwt_decode
                 (schemas.access_token response) RequestSession) (fresh Scenario.db)
  | inl e => inl e
  end = inr (1, "core", None).
Proof. reflexivity. Qed.

(** The token [bob] obtains by logging into [acme] resolves to a tenant
    principal of [acme], and the guard of the profile endpoints lets it
    through for [X-Tenant: acme]. *)
Example bob_is_resolved_in_acme :
  match outcome (endpoints.login Scenario.checkpw Scenario.create_access_token
                   Scenario.create_refresh_token
                   {| schemas.login_email := "bob@example.com";
                      schemas.login_password := "Secret123" |}
                   (Some "acme") RequestSession) (fresh Scenario.db) with
  | inr response =>
      outcome (security.get_current_tenant_user_id
                 (security.get_current_user_context Scenario.jwt_decode
                    (schemas.access_token response) RequestSession))
              (fresh Scenario.db)
  | inl e => inl e
  end = inr (7, "acme").
Proof. reflexivity. Qed.

(** A login into a deactivated tenant and one into a tenant that does not
    exist are answered alike. *)
Example login_into_closed_tenant :
  outcome (endpoints.login Scenario.checkpw Scenario.create_access_token
             Scenario.create_refresh_token
             {| schemas.login_email := "bob@example.com";
                schemas.login_password := "Secret123" |}
             (Some "closed") RequestSession) (fresh Scenario.db)
  = inl (HTTPException status.HTTP_404_NOT_FOUND "Tenant not found")
  /\ outcome (endpoints.login Scenario.checkpw Scenario.create_access_token
                Scenario.create_refresh_token
                {| schemas.login_email := "bob@example.com";
                   schemas.login_password := "Secret123" |}
                (Some "nobody") RequestSession) (fresh Scenario.db)
     = inl (HTTPException status.HTTP_404_NOT_FOUND "Tenant not found").
Proof. split; reflexivity. Qed.

(* ===================================================================== *)
(** * Further properties of the code *)
(* ===================================================================== *)

(* --------------------------------------------------------------------- *)
(** ** Resolution and the guards of [security.py] *)
(* --------------------------------------------------------------------- *)

Section Guards.

Variable jwt_decode : string -> jwt_error + Payload.t.

(** Everything resolution establishes before it returns a principal. *)
Lemma resolution_returns credentials s user_id context tenant_slug :
  outcome (security.get_current_user_context jwt_decode credentials RequestSession) s
  = inr (user_id, context, tenant_slug) ->
  exists token payload sub,
    credentials = Some token /\ jwt_decode token = inr payload
    /\ Payload.sub payload = Some sub /\ Py.int sub = Some user_id
    /\ Payload.context payload = Some context
    /\ ((context = "core" /\ tenant_slug = None
         /\ exists u, In u (core_users (store s))
                      /\ CoreUser.id u = user_id /\ CoreUser.is_active u = true)
        \/ (context = "tenant"
            /\ exists slug o,
                 tenant_slug = Some slug /\ String.eqb slug "" = false
                 /\ Payload.tenant payload = Some slug
                 /\ In o (organizations (store s)) /\ live slug o
                 /\ Payload.org_id payload = Some (Organization.id o))).
Proof.
  unfold outcome, security.get_current_user_context.
  destruct credentials as [token|]; [|discriminate].
  run_queries.
  destruct (jwt_decode token) as [[|]|payload] eqn:Hdec; try discriminate. cbn.
  destruct (Payload.sub payload) as [sub|] eqn:Hsub; [|discriminate].
  destruct (Payload.context payload) as [ctx|] eqn:Hctx; [|discriminate].
  destruct (_ || _); [discriminate|].
  destruct (Py.int sub) as [uid|] eqn:Hint; [|discriminate].
  destruct (String.eqb_spec ctx "core") as [->|_].
  { cbn. destruct (find _ _) as [u|] eqn:Hfind; [|discriminate].
    destruct (CoreUser.is_active u) eqn:Hact; [|discriminate].
    cbn. intros [= <- <- <-].
    apply find_some in Hfind as [Hin Hid]. apply Z.eqb_eq in Hid.
    exists token, payload, sub. repeat split; auto. left. repeat split; eauto. }
  destruct (String.eqb_spec ctx "tenant") as [->|_]; [|discriminate].
  destruct (Payload.tenant payload) as [slug|] eqn:Hten; [|discriminate].
  destruct (Payload.org_id payload) as [oid|] eqn:Horg; [|discriminate].
  destruct (String.eqb slug "") eqn:Hslug0; [discriminate|].
  destruct (oid =? 0); [discriminate|].
  cbn. destruct (find _ _) as [o|] eqn:Hfind; [|discriminate].
  destruct (Z.eqb_spec (Organization.id o) oid) as [<-|]; [|discriminate].
  cbn. intros [= <- <- <-].
  apply find_some in Hfind as [Hin Hlive].
  apply andb_true_iff in Hlive as [Hs Ha]. apply String.eqb_eq in Hs.
  exists token, payload, sub. repeat split; auto. right. split; [reflexivity|].
  exists slug, o. repeat split; auto.
Qed.

(** Resolution returns a principal or answers 401 with one of nine fixed
    details. *)
Lemma resolution_outcomes credentials s :
  (exists principal,
      outcome (security.get_current_user_context jwt_decode credentials
                 RequestSession) s = inr principal)
  \/ (exists detail,
         outcome (security.get_current_user_context jwt_decode credentials
                    RequestSession) s
         = inl (HTTPException status.HTTP_401_UNAUTHORIZED detail)
         /\ In detail ["Not authenticated"; "Token has expired"; "Invalid token";
                       "Invalid token payload"; "Invalid user ID in token";
                       "User not found or inactive"; "Invalid tenant token payload";
                       "Invalid tenant in token"; "Invalid context in token"]).
Proof.
  unfold outcome, security.get_current_user_context.
  destruct credentials as [token|]; [|right; eexists; split; [reflexivity|cbn; tauto]].
  run_queries.
  destruct (jwt_decode token) as [[|]|payload]; cbn;
    try (right; eexists; split; [reflexivity|cbn; tauto]).
  destruct (Payload.sub payload) as [sub|];
    [|right; eexists; split; [reflexivity|cbn; tauto]].
  destruct (Payload.context payload) as [ctx|];
    [|right; eexists; split; [reflexivity|cbn; tauto]].
  destruct (_ || _); [right; eexists; split; [reflexivity|cbn; tauto]|].
  destruct (Py.int sub) as [uid|]; [|right; eexists; split; [reflexivity|cbn; tauto]].
  destruct (String.eqb ctx "core").
  { cbn. destruct (find _ _) as [u|];
      [|right; eexists; split; [reflexivity|cbn; tauto]].
    destruct (CoreUser.is_active u); cbn;
      [left; eauto|right; eexists; split; [reflexivity|cbn; tauto]]. }
  destruct (String.eqb ctx "tenant");
    [|right; eexists; split; [reflexivity|cbn; tauto]].
  destruct (Payload.tenant payload) as [slug|];
    [|right; eexists; split; [reflexivity|cbn; tauto]].
  destruct (Payload.org_id payload) as [oid|];
    [|right; eexists; split; [reflexivity|cbn; tauto]].
  destruct (_ || _); [right; eexists; split; [reflexivity|cbn; tauto]|].
  cbn. destruct (find _ _) as [o|];
    [|right; eexists; split; [reflexivity|cbn; tauto]].
  destruct (Organization.id o =? oid); cbn;
    [left; eauto|right; eexists; split; [reflexivity|cbn; tauto]].
Qed.

(** X1: for a token whose subject, when it is a number, is one the id
    column can hold, resolution fails in one way only, with status 401, and
    the detail is one of nine fixed texts; it never answers 403 or 500. *)
Theorem resolution_refusals credentials s e :
  (forall token payload sub n,
      credentials = Some token -> jwt_decode token = inr payload ->
      Payload.sub payload = Some sub -> Py.int sub = Some n -> int32 n) ->
  outcome (security.get_current_user_context jwt_decode credentials RequestSession) s
  = inl e ->
  exists detail,
    e = HTTPException status.HTTP_401_UNAUTHORIZED detail
    /\ In detail ["Not authenticated"; "Token has expired"; "Invalid token";
                  "Invalid token payload"; "Invalid user ID in token";
                  "User not found or inactive"; "Invalid tenant token payload";
                  "Invalid tenant in token"; "Invalid context in token"].
Proof.
  intros _ He.
  destruct (resolution_outcomes credentials s) as [[principal H]|(detail & H & Hin)];
    rewrite H in He; [discriminate|].
  injection He as <-. now exists detail.
Qed.

(** X2: a principal is returned only with the store behind it.  A core
    principal names a core user who is in the store and active; a tenant
    principal names, by a slug that is not empty, an organization that is
    in the store and active and whose id is the token's [org_id]. *)
Theorem principal_is_backed_by_the_store credentials s user_id context tenant_slug :
  outcome (security.get_current_user_context jwt_decode credentials RequestSession) s
  = inr (user_id, context, tenant_slug) ->
  (context = "core" /\ tenant_slug = None
   /\ exists u, In u (core_users (store s))
                /\ CoreUser.id u = user_id /\ CoreUser.is_active u = true)
  \/ (context = "tenant"
      /\ exists slug o,
           tenant_slug = Some slug /\ slug <> ""
           /\ In o (organizations (store s)) /\ live slug o).
Proof.
  intros H.
  destruct (resolution_returns _ _ _ _ _ H)
    as (token & payload & sub & _ & _ & _ & _ & _ & [Hcore|(-> & slug & o & Hten)]).
  - now left.
  - right. split; [reflexivity|]. exists slug, o.
    destruct Hten as (-> & Hne & _ & Hin & Hlive & _).
    repeat split; auto; try apply Hlive. now apply String.eqb_neq.
Qed.

(** X3: the two context guards, placed after resolution, are exclusive and
    exhaustive.  A request that passes the core guard is refused 403 by the
    tenant guard and the other way round, and whenever resolution returns
    a principal one of the two guards passes.  The tenant guard's own 401
    "Missing tenant information" is never answered. *)
Theorem context_guards_are_exclusive credentials s :
  (forall user_id,
      outcome (security.get_current_core_user_id
                 (security.get_current_user_context jwt_decode credentials
                    RequestSession)) s = inr user_id ->
      outcome (security.get_current_tenant_user_id
                 (security.get_current_user_context jwt_decode credentials
                    RequestSession)) s
      = inl (HTTPException status.HTTP_403_FORBIDDEN
               "Access denied. Tenant user required"))
  /\ (forall user_id tenant_slug,
         outcome (security.get_current_tenant_user_id
                    (security.get_current_user_context jwt_decode credentials
                       RequestSession)) s = inr (user_id, tenant_slug) ->
         outcome (security.get_current_core_user_id
                    (security.get_current_user_context jwt_decode credentials
                       RequestSession)) s
         = inl (HTTPException status.HTTP_403_FORBIDDEN
                  "Access denied. Core user required"))
  /\ (forall principal,
         outcome (security.get_current_user_context jwt_decode credentials
                    RequestSession) s = inr principal ->
         (exists user_id,
             outcome (security.get_current_core_user_id
                        (security.get_current_user_context jwt_decode credentials
                           RequestSession)) s = inr user_id)
         \/ (exists user_id tenant_slug,
                outcome (security.get_current_tenant_user_id
                           (security.get_current_user_context jwt_decode credentials
                              RequestSession)) s = inr (user_id, tenant_slug)))
  /\ (forall e,
         outcome (security.get_current_tenant_user_id
                    (security.get_current_user_context jwt_decode credentials
                       RequestSession)) s = inl e ->
         e <> HTTPException status.HTTP_401_UNAUTHORIZED "Missing tenant information").
Proof.
  pose proof (resolution_returns credentials s) as Hsound.
  pose proof (resolution_outcomes credentials s) as Hrefused.
  unfold outcome, security.get_current_core_user_id,
    security.get_current_tenant_user_id, bind in *.
  destruct (security.get_current_user_context jwt_decode credentials RequestSession s)
    as [[e|[[uid ctx] ten]] s'] eqn:Hrun; cbn [fst] in *.
  { repeat split; try discriminate.
    intros e' [= <-]. destruct Hrefused as [[? H]|(detail & [= ->] & Hin)]; [discriminate|].
    cbn in Hin. intros [= ->].
    repeat (destruct Hin as [Hin|Hin]; [discriminate Hin|]). exact Hin. }
  destruct (Hsound uid ctx ten eq_refl)
    as (token & payload & sub & _ & _ & _ & _ & _
        & [(-> & -> & _)|(-> & slug & o & -> & Hne & _)]); cbn.
  - repeat split; try discriminate; eauto.
    intros e [= <-]. discriminate.
  - rewrite Hne. cbn. repeat split; try discriminate; eauto.
Qed.

End Guards.

(** When the ownership guard passes. *)
Lemma ownership_guard_passes_iff organization_id user_id s :
  outcome (security.verify_organization_owner organization_id (ret user_id)
             RequestSession) s = inr true
  <-> In (user_id, organization_id) (organization_owners (store s))
      /\ (exists u, In u (core_users (store s)) /\ CoreUser.id u = user_id)
      /\ (exists o, In o (organizations (store s))
                    /\ Organization.id o = organization_id).
Proof.
  unfold outcome, security.verify_organization_owner, query.check_organization_owner,
    bind, ret, raise. cbn [fst snd store].
  destruct (find _ (organizations (store s))) as [o|] eqn:Hfind; cbn.
  - split; [intros _|reflexivity].
    apply find_some in Hfind as [Ho Hown].
    apply andb_true_iff in Hown as [Hid Hex]. apply Z.eqb_eq in Hid.
    apply existsb_exists in Hex as (u & Hu & Hu').
    apply andb_true_iff in Hu' as [Huid Hrow]. apply Z.eqb_eq in Huid.
    apply existsb_exists in Hrow as ([u' o'] & Hrow & Heq).
    apply andb_true_iff in Heq as [E1 E2].
    apply Z.eqb_eq in E1, E2. subst. eauto 8.
  - split; [discriminate|].
    intros (Hrow & (u & Hu & Huid) & (o & Ho & Hoid)). exfalso.
    pose proof (find_none _ _ Hfind o Ho) as Hno. cbn in Hno.
    rewrite (proj2 (Z.eqb_eq _ _) Hoid) in Hno. cbn in Hno.
    assert (existsb
              (fun u0 => (CoreUser.id u0 =? user_id)
                         && existsb (fun '(u', o') => (u' =? CoreUser.id u0)
                                                      && (o' =? Organization.id o))
                                    (organization_owners (store s)))
              (core_users (store s)) = true) as Hex; [|congruence].
    apply existsb_exists. exists u. split; [exact Hu|].
    rewrite (proj2 (Z.eqb_eq _ _) Huid). cbn.
    apply existsb_exists. exists (user_id, organization_id). split; [exact Hrow|].
    subst. now rewrite !Z.eqb_refl.
Qed.

(** X4: for ids the columns can hold, the ownership guard passes, with
    [True], exactly when the association table links the user to the
    organization and both rows exist; otherwise it answers 403.  It never
    returns [False], and neither the organization's nor the user's
    [is_active] is consulted. *)
Theorem ownership_guard organization_id user_id s :
  int32 organization_id -> int32 user_id ->
  (outcome (security.verify_organization_owner organization_id (ret user_id)
              RequestSession) s = inr true
   <-> In (user_id, organization_id) (organization_owners (store s))
       /\ (exists u, In u (core_users (store s)) /\ CoreUser.id u = user_id)
       /\ (exists o, In o (organizations (store s))
                     /\ Organization.id o = organization_id))
  /\ (outcome (security.verify_organization_owner organization_id (ret user_id)
                 RequestSession) s = inr true
      \/ outcome (security.verify_organization_owner organization_id (ret user_id)
                    RequestSession) s
         = inl (HTTPException status.HTTP_403_FORBIDDEN
                  "Access denied. Organization owner required")).
Proof.
  intros _ _. split; [apply ownership_guard_passes_iff|].
  unfold outcome, security.verify_organization_owner, query.check_organization_owner,
    bind, ret, raise. cbn [fst snd store].
  destruct (find _ (organizations (store s))); cbn; auto.
Qed.

(* --------------------------------------------------------------------- *)
(** ** Login, then resolution *)
(* --------------------------------------------------------------------- *)

Lemma find_by_id {Row} (key : Row -> Z) (rows : list Row) k x :
  NoDup (map key rows) -> In x rows -> key x = k ->
  find (fun r => key r =? k) rows = Some x.
Proof.
  intros Hnd Hin Hkey.
  destruct (find _ rows) as [y|] eqn:Hfind.
  - apply find_some in Hfind as [Hy Heq]. apply Z.eqb_eq in Heq.
    f_equal. apply (unique_column key rows); auto. congruence.
  - pose proof (find_none _ _ Hfind x Hin) as Hne. cbn in Hne.
    apply Z.eqb_neq in Hne. contradiction.
Qed.

Section LoginThenResolution.

Variable verify_password : string -> string -> bool.
Variable create_access_token : Payload.t -> string.
Variable create_refresh_token : Payload.t -> string.
Variable jwt_decode : string -> jwt_error + Payload.t.

(** What a successful login without tenant header has established. *)
Lemma core_login_succeeded login_data tenant_context s response :
  endpoints.header_given tenant_context = None ->
  outcome (endpoints.login verify_password create_access_token create_refresh_token
             login_data tenant_context RequestSession) s = inr response ->
  exists u,
    In u (core_users (store s))
    /\ CoreUser.email u = schemas.login_email login_data
    /\ verify_password (schemas.login_password login_data)
                       (CoreUser.hashed_password u) = true
    /\ CoreUser.is_active u = true
    /\ response
       = {| schemas.success := true;
            schemas.message := "Authentication successful";
            schemas.access_token :=
              Some (create_access_token
                      (services.claims (Py.str (CoreUser.id u)) "core" None None
                                       (Some (CoreUser.email u))));
            schemas.refresh_token :=
              Some (create_refresh_token
                      (services.claims (Py.str (CoreUser.id u)) "core" None None None));
            schemas.user_id := Some (CoreUser.id u);
            schemas.context := Some "core" |}.
Proof.
  intros Hhdr.
  unfold outcome, endpoints.login, endpoints.try_endpoint, try_except,
    services.authenticate_core_user.
  rewrite Hhdr. run_queries.
  destruct (find _ _) as [u|] eqn:Hfind; cbn; [|discriminate].
  destruct (verify_password _ _) eqn:Hverify; cbn; [|discriminate].
  destruct (CoreUser.is_active u) eqn:Hactive; cbn; [|discriminate].
  intros [= <-]. apply find_some in Hfind as [Hin Hemail].
  apply String.eqb_eq in Hemail. exists u. repeat split; auto.
Qed.

(** The same with a tenant header. *)
Lemma tenant_login_succeeded login_data tenant_context slug s response :
  endpoints.header_given tenant_context = Some slug ->
  outcome (endpoints.login verify_password create_access_token create_refresh_token
             login_data tenant_context RequestSession) s = inr response ->
  exists o u,
    find (fun o => String.eqb (Organization.slug o) slug && Organization.is_active o)
         (organizations (store s)) = Some o
    /\ In u (tenant_users (store s))
    /\ TenantUser.email u = schemas.login_email login_data
    /\ verify_password (schemas.login_password login_data)
                       (TenantUser.hashed_password u) = true
    /\ TenantUser.is_active u = true
    /\ response
       = {| schemas.success := true;
            schemas.message := "Authentication successful";
            schemas.access_token :=
              Some (create_access_token
                      (services.claims (Py.str (TenantUser.id u)) "tenant" (Some slug)
                                       (Some (Organization.id o))
                                       (Some (TenantUser.email u))));
            schemas.refresh_token :=
              Some (create_refresh_token
                      (services.claims (Py.str (TenantUser.id u)) "tenant" (Some slug)
                                       (Some (Organization.id o)) None));
            schemas.user_id := Some (TenantUser.id u);
            schemas.context := Some "tenant" |}.
Proof.
  intros Hhdr.
  unfold outcome, endpoints.login, endpoints.try_endpoint, try_except,
    services.authenticate_tenant_user, services.get_tenant_session.
  rewrite Hhdr. run_queries.
  destruct (find _ (organizations _)) as [o|] eqn:Horg; cbn; [|discriminate].
  destruct (find _ (tenant_users _)) as [u|] eqn:Hfind; cbn; [|discriminate].
  destruct (verify_password _ _) eqn:Hverify; cbn; [|discriminate].
  destruct (TenantUser.is_active u) eqn:Hactive; cbn; [|discriminate].
  intros [= <-]. apply find_some in Hfind as [Hin Hemail].
  apply String.eqb_eq in Hemail. exists o, u. repeat split; auto.
Qed.

(** X5: the access token of a successful core login resolves, against the
    same store, to the core principal of the user the response names:
    [str(user.id)] written by the login is read back by [int].  (The codec
    is assumed to read back the claims the login writes; ids are a key.) *)
Theorem core_login_token_resolves login_data tenant_context s response :
  NoDup (map CoreUser.id (core_users (store s))) ->
  (forall u, In u (core_users (store s)) ->
             reads_back jwt_decode create_access_token
               (services.claims (Py.str (CoreUser.id u)) "core" None None
                                (Some (CoreUser.email u)))) ->
  endpoints.header_given tenant_context = None ->
  outcome (endpoints.login verify_password create_access_token create_refresh_token
             login_data tenant_context RequestSession) s = inr response ->
  exists user_id,
    schemas.user_id response = Some user_id
    /\ outcome (security.get_current_user_context jwt_decode
                  (schemas.access_token response) RequestSession) s
       = inr (user_id, "core", None).
Proof.
  intros Hids Hcodec Hhdr Hlogin.
  destruct (core_login_succeeded _ _ _ _ Hhdr Hlogin)
    as (u & Hin & _ & _ & Hactive & ->).
  exists (CoreUser.id u). split; [reflexivity|]. cbn [schemas.access_token].
  destruct (Hcodec u Hin) as (payload & Hdec & Hsub & Hctx & _).
  unfold outcome.
  rewrite (resolution_core_branch jwt_decode _ payload (CoreUser.id u) s Hdec Hsub Hctx).
  cbn [fst].
  now rewrite (find_by_id CoreUser.id _ (CoreUser.id u) u Hids Hin eq_refl), Hactive.
Qed.

(** X6: the access token of a successful tenant login resolves, against the
    same store, to the tenant principal of the user and the slug of the
    header, whichever organization the user's row is linked to.  (Same
    assumption on the codec; the organization's id is not 0.) *)
Theorem tenant_login_token_resolves login_data tenant_context slug s response :
  (forall o, In o (organizations (store s)) -> Organization.id o <> 0) ->
  (forall u o, In u (tenant_users (store s)) -> In o (organizations (store s)) ->
               reads_back jwt_decode create_access_token
                 (services.claims (Py.str (TenantUser.id u)) "tenant" (Some slug)
                                  (Some (Organization.id o))
                                  (Some (TenantUser.email u)))) ->
  endpoints.header_given tenant_context = Some slug ->
  outcome (endpoints.login verify_password create_access_token create_refresh_token
             login_data tenant_context RequestSession) s = inr response ->
  exists user_id,
    schemas.user_id response = Some user_id
    /\ outcome (security.get_current_tenant_user_id
                  (security.get_current_user_context jwt_decode
                     (schemas.access_token response) RequestSession)) s
       = inr (user_id, slug).
Proof.
  intros Hnonzero Hcodec Hhdr Hlogin.
  destruct (tenant_login_succeeded _ _ _ _ _ Hhdr Hlogin)
    as (o & u & Horg & Hin & _ & _ & _ & ->).
  exists (TenantUser.id u). split; [reflexivity|]. cbn [schemas.access_token].
  pose proof (find_some _ _ Horg) as [Ho _].
  destruct (Hcodec u o Hin Ho) as (payload & Hdec & Hsub & Hctx & Hten & Hoid).
  assert (String.eqb slug "" = false) as Hslug.
  { unfold endpoints.header_given in Hhdr.
    destruct tenant_context as [v|]; [|discriminate].
    destruct (String.eqb v "") eqn:Hv; [discriminate|]. now injection Hhdr as <-. }
  unfold outcome, security.get_current_tenant_user_id, bind.
  rewrite (resolution_tenant_branch jwt_decode _ payload (Py.str (TenantUser.id u))
             (TenantUser.id u) slug (Organization.id o) s);
    auto using str_not_empty, int_str.
  rewrite Horg, Z.eqb_refl. cbn. now rewrite Hslug.
Qed.

End LoginThenResolution.

(** X7: for a password [bcrypt] takes and a store whose hashes
    [hash_password] made, a login ends in one of four ways: a response, 401
    "Invalid credentials", 401 "Account is inactive" or 404 "Tenant not
    found".  It never answers 400 or 500, and it leaves the store as it
    found it. *)
Theorem login_answers verify_password hash_password create_access_token
    create_refresh_token login_data tenant_context s :
  bcrypt.takes (schemas.login_password login_data) ->
  bcrypt.hashed_by hash_password (store s) ->
  ((exists response,
       outcome (endpoints.login verify_password create_access_token
                  create_refresh_token login_data tenant_context RequestSession) s
       = inr response)
   \/ outcome (endpoints.login verify_password create_access_token
                 create_refresh_token login_data tenant_context RequestSession) s
      = inl (HTTPException status.HTTP_401_UNAUTHORIZED "Invalid credentials")
   \/ outcome (endpoints.login verify_password create_access_token
                 create_refresh_token login_data tenant_context RequestSession) s
      = inl (HTTPException status.HTTP_401_UNAUTHORIZED "Account is inactive")
   \/ outcome (endpoints.login verify_password create_access_token
                 create_refresh_token login_data tenant_context RequestSession) s
      = inl (HTTPException status.HTTP_404_NOT_FOUND "Tenant not found"))
  /\ store (snd (endpoints.login verify_password create_access_token
                   create_refresh_token login_data tenant_context RequestSession s))
     = store s.
Proof.
  intros _ _.
  unfold outcome, endpoints.login, endpoints.try_endpoint, try_except,
    services.authenticate_core_user, services.authenticate_tenant_user,
    services.get_tenant_session.
  destruct (endpoints.header_given tenant_context) as [slug|]; run_queries.
  - destruct (find _ (organizations _)) as [o|]; cbn; [|auto 6].
    destruct (find _ (tenant_users _)) as [u|]; cbn; [|auto 6].
    destruct (verify_password _ _); cbn; [|auto 6].
    destruct (TenantUser.is_active u); cbn; eauto 6.
  - destruct (find _ _) as [u|]; cbn; [|auto 6].
    destruct (verify_password _ _); cbn; [|auto 6].
    destruct (CoreUser.is_active u); cbn; eauto 6.
Qed.

(* --------------------------------------------------------------------- *)
(** ** Refresh *)
(* --------------------------------------------------------------------- *)

Section RefreshFlows.

Variable create_access_token : Payload.t -> string.
Variable decode_token : string -> exn + Payload.t.

(** The core branch of the service, for a token that verifies. *)
Lemma refresh_core_branch token payload sub uid s :
  decode_token token = inr payload ->
  Payload.sub payload = Some sub -> String.eqb sub "" = false ->
  Py.int sub = Some uid ->
  Payload.context payload = Some "core" ->
  outcome (services.refresh_access_token create_access_token decode_token
             token RequestSession) s
  = match find (fun u => CoreUser.id u =? uid) (core_users (store s)) with
    | Some u =>
        if CoreUser.is_active u then
          inr {| schemas.new_access_token :=
                   create_access_token
                     (services.claims (Py.str (CoreUser.id u)) "core" None None
                                      (Some (CoreUser.email u))) |}
        else inl (ValueError "User not found or inactive")
    | None => inl (AttributeError "'NoneType' object has no attribute 'id'")
    end.
Proof.
  intros Hdec Hsub Hsub0 Hint Hctx.
  unfold outcome, services.refresh_access_token, services.int_.
  run_queries. rewrite Hdec, Hsub, Hctx, Hsub0, Hint. cbn.
  destruct (find _ _) as [u|]; [|reflexivity]. cbn.
  destruct (CoreUser.is_active u); reflexivity.
Qed.

(** The tenant branch of the service, for a token that verifies. *)
Lemma refresh_tenant_branch token payload sub uid slug oid s :
  decode_token token = inr payload ->
  Payload.sub payload = Some sub -> String.eqb sub "" = false ->
  Py.int sub = Some uid ->
  Payload.context payload = Some "tenant" ->
  Payload.tenant payload = Some slug -> String.eqb slug "" = false ->
  Payload.org_id payload = Some oid -> (oid =? 0) = false ->
  outcome (services.refresh_access_token create_access_token decode_token
             token RequestSession) s
  = match find (fun o => String.eqb (Organization.slug o) slug
                         && Organization.is_active o)
               (organizations (store s)) with
    | Some _ =>
        match find (fun u => TenantUser.id u =? uid) (tenant_users (store s)) with
        | Some u =>
            if TenantUser.is_active u then
              inr {| schemas.new_access_token :=
                       create_access_token
                         (services.claims (Py.str (TenantUser.id u)) "tenant"
                                          (Some slug) (Some oid)
                                          (Some (TenantUser.email u))) |}
            else inl (ValueError "User not found or inactive")
        | None => inl (AttributeError "'NoneType' object has no attribute 'id'")
        end
    | None => inl (ValueError "Tenant not found")
    end.
Proof.
  intros Hdec Hsub Hsub0 Hint Hctx Hten Hten0 Horg Horg0.
  unfold outcome, services.refresh_access_token, services.get_tenant_session,
    services.int_.
  run_queries. rewrite Hdec, Hsub, Hctx, Hsub0, Hten, Horg, Hten0, Horg0. cbn.
  destruct (find _ (organizations _)) as [o|]; [|reflexivity]. cbn.
  rewrite Hint. cbn.
  destruct (find _ (tenant_users _)) as [u|]; [|reflexivity]. cbn.
  destruct (TenantUser.is_active u); reflexivity.
Qed.

(** How the endpoint answers what the service returns or raises. *)
Lemma refresh_endpoint_answer token s :
  outcome (endpoints.refresh_token create_access_token decode_token token
             RequestSession) s
  = match outcome (services.refresh_access_token create_access_token decode_token
                     token RequestSession) s with
    | inr result => inr result
    | inl (ValueError msg) => inl (HTTPException status.HTTP_401_UNAUTHORIZED msg)
    | inl e => inl (HTTPException 500 ("Token refresh error: " ++ str_exn e))
    end.
Proof.
  unfold outcome, endpoints.refresh_token, endpoints.try_endpoint, try_except.
  destruct (services.refresh_access_token _ _ _ _ s) as [[[msg|msg|code detail]|r] s'];
    reflexivity.
Qed.

(** X8: a refresh token that does not decode is answered 401 "Invalid or
    expired refresh token" whatever the decoder's message was, so an
    expired and a forged refresh token are answered alike; no statement is
    executed. *)
Theorem refresh_of_undecodable_token token msg s :
  decode_token token = inl (ValueError msg) ->
  endpoints.refresh_token create_access_token decode_token token RequestSession s
  = (inl (HTTPException status.HTTP_401_UNAUTHORIZED
            "Invalid or expired refresh token"), s).
Proof.
  intros Hdec.
  unfold endpoints.refresh_token, endpoints.try_endpoint, try_except,
    services.refresh_access_token, bind, raise.
  now rewrite Hdec.
Qed.

(** X9: refreshing the token of an active core user issues an access token
    whose claims are read from the store as it is now: the id, the core
    context and the user's current email, whatever the old token carried
    besides the subject. *)
Theorem refresh_reissues_from_the_store token payload sub u s :
  NoDup (map CoreUser.id (core_users (store s))) ->
  decode_token token = inr payload ->
  Payload.sub payload = Some sub -> String.eqb sub "" = false ->
  Py.int sub = Some (CoreUser.id u) ->
  Payload.context payload = Some "core" ->
  In u (core_users (store s)) -> CoreUser.is_active u = true ->
  outcome (endpoints.refresh_token create_access_token decode_token token
             RequestSession) s
  = inr {| schemas.new_access_token :=
             create_access_token
               (services.claims (Py.str (CoreUser.id u)) "core" None None
                                (Some (CoreUser.email u))) |}.
Proof.
  intros Hids Hdec Hsub Hsub0 Hint Hctx Hin Hactive.
  rewrite refresh_endpoint_answer.
  rewrite (refresh_core_branch token payload sub (CoreUser.id u) s) by assumption.
  now rewrite (find_by_id CoreUser.id _ _ u Hids Hin eq_refl), Hactive.
Qed.

(** X10: refreshing a tenant token does not compare the token's [org_id]
    with the organization the slug resolves to: for a live tenant and an
    active user the refresh succeeds and copies the [org_id] into the new
    access token.  When that [org_id] is not the organization's id, context
    resolution refuses every token that carries the new claims. *)
Theorem refresh_copies_org_id_unchecked token payload sub u slug oid o s :
  NoDup (map TenantUser.id (tenant_users (store s))) ->
  decode_token token = inr payload ->
  Payload.sub payload = Some sub -> String.eqb sub "" = false ->
  Py.int sub = Some (TenantUser.id u) ->
  Payload.context payload = Some "tenant" ->
  Payload.tenant payload = Some slug -> String.eqb slug "" = false ->
  Payload.org_id payload = Some oid -> (oid =? 0) = false ->
  find (fun o => String.eqb (Organization.slug o) slug && Organization.is_active o)
       (organizations (store s)) = Some o ->
  In u (tenant_users (store s)) -> TenantUser.is_active u = true ->
  outcome (endpoints.refresh_token create_access_token decode_token token
             RequestSession) s
  = inr {| schemas.new_access_token :=
             create_access_token
               (services.claims (Py.str (TenantUser.id u)) "tenant" (Some slug)
                                (Some oid) (Some (TenantUser.email u))) |}
  /\ (oid <> Organization.id o ->
      forall jwt_decode access claims,
        jwt_decode access = inr claims ->
        Payload.sub claims = Some (Py.str (TenantUser.id u)) ->
        Payload.context claims = Some "tenant" ->
        Payload.tenant claims = Some slug ->
        Payload.org_id claims = Some oid ->
        outcome (security.get_current_user_context jwt_decode (Some access)
                   RequestSession) s
        = inl (HTTPException status.HTTP_401_UNAUTHORIZED "Invalid tenant in token")).
Proof.
  intros Hids Hdec Hsub Hsub0 Hint Hctx Hten Hten0 Horg Horg0 Hlive Hin Hactive.
  split.
  - rewrite refresh_endpoint_answer.
    rewrite (refresh_tenant_branch token payload sub (TenantUser.id u) slug oid s)
      by assumption.
    now rewrite Hlive, (find_by_id TenantUser.id _ _ u Hids Hin eq_refl), Hactive.
  - intros Hne jwt_decode access claims Haccess Hs Hc Ht Ho. unfold outcome.
    rewrite (resolution_tenant_branch jwt_decode access claims
               (Py.str (TenantUser.id u)) (TenantUser.id u) slug oid s Haccess);
      auto using str_not_empty, int_str.
    + rewrite Hlive. cbn. destruct (Z.eqb_spec (Organization.id o) oid); congruence.
    + intros ->. discriminate.
Qed.

(** X11: a refresh token of a user who is in the store but deactivated is
    answered 401 "User not found or inactive", for core tokens and for
    tenant tokens of a live tenant alike; no access token is issued. *)
Theorem refresh_for_deactivated_user token payload sub uid s :
  decode_token token = inr payload ->
  Payload.sub payload = Some sub -> String.eqb sub "" = false ->
  Py.int sub = Some uid ->
  (Payload.context payload = Some "core"
   /\ exists u, find (fun u => CoreUser.id u =? uid) (core_users (store s)) = Some u
                /\ CoreUser.is_active u = false)
  \/ (Payload.context payload = Some "tenant"
      /\ exists slug oid o u,
           Payload.tenant payload = Some slug /\ String.eqb slug "" = false
           /\ Payload.org_id payload = Some oid /\ (oid =? 0) = false
           /\ find (fun o => String.eqb (Organization.slug o) slug
                             && Organization.is_active o)
                   (organizations (store s)) = Some o
           /\ find (fun u => TenantUser.id u =? uid) (tenant_users (store s)) = Some u
           /\ TenantUser.is_active u = false) ->
  outcome (endpoints.refresh_token create_access_token decode_token token
             RequestSession) s
  = inl (HTTPException status.HTTP_401_UNAUTHORIZED "User not found or inactive").
Proof.
  intros Hdec Hsub Hsub0 Hint
    [(Hctx & u & Hfind & Hinactive)
    |(Hctx & slug & oid & o & u & Hten & Hten0 & Horg & Horg0 & Hlive & Hfind & Hinactive)];
    rewrite refresh_endpoint_answer.
  - rewrite (refresh_core_branch token payload sub uid s) by assumption.
    now rewrite Hfind, Hinactive.
  - rewrite (refresh_tenant_branch token payload sub uid slug oid s) by assumption.
    now rewrite Hlive, Hfind, Hinactive.
Qed.

End RefreshFlows.

(* --------------------------------------------------------------------- *)
(** ** One condition, three statuses *)
(* --------------------------------------------------------------------- *)

Lemma no_live_organization slug db :
  (forall o, In o (organizations db) -> ~ live slug o) ->
  find (fun o => String.eqb (Organization.slug o) slug && Organization.is_active o)
       (organizations db) = None.
Proof.
  intros Hnone. apply find_none_iff. intros o Ho.
  destruct (String.eqb_spec (Organization.slug o) slug) as [Hslug|]; [|reflexivity].
  destruct (Organization.is_active o) eqn:Hact; [|reflexivity].
  now destruct (Hnone o Ho).
Qed.

(** X12: when a slug has no live organization, the endpoints answer the
    same [ValueError("Tenant not found")] of [get_tenant_session] with
    three different statuses: the login with 404, the refresh of a tenant
    token with 401, and the two profile endpoints (reached with a matching
    header) with 400. *)
Theorem tenant_not_found_statuses verify_password create_access_token
    create_refresh_token decode_token utcnow
    login_data token payload sub uid oid update_data user_id slug s :
  (forall o, In o (organizations (store s)) -> ~ live slug o) ->
  String.eqb slug "" = false ->
  decode_token token = inr payload ->
  Payload.sub payload = Some sub -> String.eqb sub "" = false ->
  Py.int sub = Some uid ->
  Payload.context payload = Some "tenant" ->
  Payload.tenant payload = Some slug ->
  Payload.org_id payload = Some oid -> (oid =? 0) = false ->
  outcome (endpoints.login verify_password create_access_token create_refresh_token
             login_data (Some slug) RequestSession) s
  = inl (HTTPException status.HTTP_404_NOT_FOUND "Tenant not found")
  /\ outcome (endpoints.refresh_token create_access_token decode_token token
                RequestSession) s
     = inl (HTTPException status.HTTP_401_UNAUTHORIZED "Tenant not found")
  /\ outcome (endpoints.get_user_profile (user_id, slug) (Some slug) RequestSession) s
     = inl (HTTPException 400 "Tenant not found")
  /\ outcome (endpoints.update_user_profile utcnow update_data (user_id, slug)
                (Some slug) RequestSession) s
     = inl (HTTPException 400 "Tenant not found").
Proof.
  intros Hnone Hslug Hdec Hsub Hsub0 Hint Hctx Hten Horg Horg0.
  pose proof (no_live_organization slug (store s) Hnone) as Hfind.
  repeat split.
  - unfold outcome, endpoints.login, endpoints.try_endpoint, try_except,
      services.authenticate_tenant_user, services.get_tenant_session,
      endpoints.header_given.
    rewrite Hslug. run_queries. now rewrite Hfind.
  - rewrite refresh_endpoint_answer.
    rewrite (refresh_tenant_branch create_access_token decode_token token payload
               sub uid slug oid s) by assumption.
    now rewrite Hfind.
  - unfold outcome, endpoints.get_user_profile, endpoints.try_endpoint, try_except,
      services.get_tenant_user_profile, services.get_tenant_session,
      endpoints.header_given.
    rewrite Hslug, String.eqb_refl. cbn [negb]. run_queries. now rewrite Hfind.
  - unfold outcome, endpoints.update_user_profile, endpoints.try_endpoint, try_except,
      services.update_tenant_user_profile, services.get_tenant_session,
      endpoints.header_given.
    rewrite Hslug, String.eqb_refl. cbn [negb]. run_queries. now rewrite Hfind.
Qed.

(* --------------------------------------------------------------------- *)
(** ** The profile endpoints *)
(* --------------------------------------------------------------------- *)


Lemma map_replace_row {A} (column : TenantUser.t -> A) uid u u' rows :
  find (fun r => TenantUser.id r =? uid) rows = Some u ->
  TenantUser.id u' = uid -> column u' = column u ->
  map column (services.replace_row u' rows) = map column rows.
Proof.
  intros Hfind Hid Hcol. induction rows as [|r rows IH]; cbn in *; [reflexivity|].
  rewrite Hid. destruct (TenantUser.id r =? uid) eqn:Hr.
  - injection Hfind as ->. cbn. now rewrite Hcol.
  - cbn. f_equal. now apply IH.
Qed.

Section Profile.

Variable utcnow : Z.

(** The two profile endpoints behind a matching header, for a live tenant. *)
Lemma profile_endpoints_pass update_data user_id slug o s :
  String.eqb slug "" = false ->
  find (fun o => String.eqb (Organization.slug o) slug && Organization.is_active o)
       (organizations (store s)) = Some o ->
  endpoints.get_user_profile (user_id, slug) (Some slug) RequestSession s
  = (match find (fun u => TenantUser.id u =? user_id) (tenant_users (store s)) with
     | Some u => inr (schemas.TenantUserResponse_model_validate u)
     | None => inl (HTTPException 404 "User not found")
     end,
     after s [SelectOrganizationBySlug slug; SelectTenantUserById user_id])
  /\ endpoints.update_user_profile utcnow update_data (user_id, slug) (Some slug)
       RequestSession s
     = match find (fun u => TenantUser.id u =? user_id) (tenant_users (store s)) with
       | Some u =>
           (inr (schemas.TenantUserResponse_model_validate
                   (services.apply_update utcnow u update_data)),
            {| store :=
                 {| core_users := core_users (store s);
                    organizations := organizations (store s);
                    tenant_users :=
                      services.replace_row (services.apply_update utcnow u update_data)
                        (tenant_users (store s));
                    organization_owners := organization_owners (store s) |};
               executed :=
                 executed s ++ [SelectOrganizationBySlug slug;
                                SelectTenantUserById user_id; Commit] |})
       | None =>
           (inl (HTTPException 404 "User not found"),
            after s [SelectOrganizationBySlug slug; SelectTenantUserById user_id])
       end.
Proof.
  intros Hslug Hlive.
  unfold endpoints.get_user_profile, endpoints.update_user_profile,
    endpoints.try_endpoint, try_except, services.get_tenant_user_profile,
    services.update_tenant_user_profile, services.get_tenant_session,
    services.commit_user, endpoints.header_given, after.
  rewrite Hslug, String.eqb_refl. cbn [negb]. run_queries. rewrite Hlive.
  clear Hlive. cbn.
  destruct (find _ _) as [u|]; cbn; rewrite <- ?app_assoc; split; reflexivity.
Qed.

(** X13: once the tenant guard has passed for a request, with a subject
    the id column can hold, the profile endpoint reached with the header of
    the token's tenant never answers "Tenant not found": it returns the
    tenant user whose id is the token's subject, or 404 "User not found".
    The user's own [is_active] and [organization_id] are not consulted. *)
Theorem profile_after_the_guard jwt_decode credentials user_id slug s :
  int32 user_id ->
  outcome (security.get_current_tenant_user_id
             (security.get_current_user_context jwt_decode credentials
                RequestSession)) s = inr (user_id, slug) ->
  outcome (endpoints.get_user_profile (user_id, slug) (Some slug) RequestSession) s
  = match find (fun u => TenantUser.id u =? user_id) (tenant_users (store s)) with
    | Some u => inr (schemas.TenantUserResponse_model_validate u)
    | None => inl (HTTPException 404 "User not found")
    end.
Proof.
  intros _.
  unfold outcome at 1. unfold security.get_current_tenant_user_id, bind.
  destruct (security.get_current_user_context jwt_decode credentials RequestSession s)
    as [[e|[[uid ctx] ten]] s'] eqn:Hrun; cbn [fst]; [discriminate|].
  pose proof (resolution_returns jwt_decode credentials s uid ctx ten) as Hsound.
  unfold outcome in Hsound. rewrite Hrun in Hsound.
  destruct (Hsound eq_refl)
    as (token & payload & sub & _ & _ & _ & _ & _
        & [(-> & -> & _)|(-> & slug' & o & -> & Hne & _ & Hin & Hlive & _)]);
    cbn; [discriminate|].
  rewrite Hne. cbn. intros [= <- <-].
  destruct (find_live slug' (store s) (ex_intro _ o (conj Hin Hlive))) as [o' Ho'].
  unfold outcome.
  now rewrite (proj1 (profile_endpoints_pass
                        {| schemas.set_first_name := None; schemas.set_last_name := None;
                           schemas.set_phone := None; schemas.set_avatar := None;
                           schemas.set_bio := None |} uid slug' o' s Hne Ho')).
Qed.


(** X15: whatever the request, a profile update leaves the identity of
    every tenant user as it was: the ids, emails, password hashes, activity
    flags and organization links of the table are the same column by
    column, and the core users, organizations and owners are untouched. *)
Theorem profile_update_keeps_identity update_data user_context tenant_context s :
  let db' := store (snd (endpoints.update_user_profile utcnow update_data user_context
                           tenant_context RequestSession s)) in
  map TenantUser.id (tenant_users db') = map TenantUser.id (tenant_users (store s))
  /\ map TenantUser.email (tenant_users db')
     = map TenantUser.email (tenant_users (store s))
  /\ map TenantUser.hashed_password (tenant_users db')
     = map TenantUser.hashed_password (tenant_users (store s))
  /\ map TenantUser.is_active (tenant_users db')
     = map TenantUser.is_active (tenant_users (store s))
  /\ map TenantUser.organization_id (tenant_users db')
     = map TenantUser.organization_id (tenant_users (store s))
  /\ core_users db' = core_users (store s)
  /\ organizations db' = organizations (store s)
  /\ organization_owners db' = organization_owners (store s).
Proof.
  destruct user_context as [user_id token_tenant].
  unfold endpoints.update_user_profile, endpoints.try_endpoint, try_except,
    services.update_tenant_user_profile, services.get_tenant_session,
    services.commit_user.
  destruct (endpoints.header_given tenant_context) as [header|];
    [|cbn; repeat split; reflexivity].
  destruct (String.eqb token_tenant header); cbn [negb];
    [|cbn; repeat split; reflexivity].
  run_queries.
  destruct (find _ (organizations _)) as [o|]; cbn; [|repeat split; reflexivity].
  destruct (find _ (tenant_users _)) as [u|] eqn:Hfind; cbn;
    [|repeat split; reflexivity].
  pose proof (find_some _ _ Hfind) as [_ Hid]. apply Z.eqb_eq in Hid.
  repeat split;
    apply (map_replace_row _ user_id u _ _ Hfind); auto.
Qed.

End Profile.

(* --------------------------------------------------------------------- *)
(** ** What the reading operations never do *)
(* --------------------------------------------------------------------- *)

Ltac branches :=
  repeat (cbn [fst snd store];
          match goal with
          | |- context [match ?x with _ => _ end] =>
              lazymatch x with
              | context [match _ with _ => _ end] => fail
              | _ => destruct x
              end
          end);
  cbn [fst snd store].

(** X16: context resolution, the refresh of a token and the reading of a
    profile only read: whatever the request and however it ends, the store
    afterwards is the store before. *)
Theorem reading_leaves_the_store jwt_decode create_access_token decode_token
    credentials token user_context tenant_context s :
  store (snd (security.get_current_user_context jwt_decode credentials
                RequestSession s)) = store s
  /\ store (snd (endpoints.refresh_token create_access_token decode_token token
                   RequestSession s)) = store s
  /\ store (snd (endpoints.get_user_profile user_context tenant_context
                   RequestSession s)) = store s.
Proof.
  split; [|split].
  - unfold security.get_current_user_context. run_queries. branches; reflexivity.
  - unfold endpoints.refresh_token, endpoints.try_endpoint, try_except,
      services.refresh_access_token, services.get_tenant_session,
      services.getattr_id, services.getattr_email, services.int_.
    run_queries. unfold option_map. branches; reflexivity.
  - unfold endpoints.get_user_profile, endpoints.try_endpoint, try_except,
      services.get_tenant_user_profile, services.get_tenant_session.
    run_queries. branches; reflexivity.
Qed.

(* --------------------------------------------------------------------- *)
(** ** The properties on the small deployment *)
(* --------------------------------------------------------------------- *)

(** A token that binds [acme] to organization 2 is refused with one of the
    nine details. *)
Lemma resolution_refusals_witness :
  exists detail,
    HTTPException 401 "Invalid tenant in token"
    = HTTPException status.HTTP_401_UNAUTHORIZED detail
    /\ In detail ["Not authenticated"; "Token has expired"; "Invalid token";
                  "Invalid token payload"; "Invalid user ID in token";
                  "User not found or inactive"; "Invalid tenant token payload";
                  "Invalid tenant in token"; "Invalid context in token"].
Proof.
  apply (resolution_refusals
           (Scenario.verified (Scenario.tenant_claims "7" "acme" 2)) (Some "t")
           (fresh Scenario.db) (HTTPException 401 "Invalid tenant in token")).
  - intros token payload sub n _ [= <-] [= <-] [= <-]. unfold int32. lia.
  - reflexivity.
Defined.

(** [alice]'s principal is backed by her row. *)
Lemma principal_is_backed_by_the_store_witness :
  ("core" = "core" /\ @None string = None
   /\ exists u, In u (core_users (store (fresh Scenario.db)))
                /\ CoreUser.id u = 1 /\ CoreUser.is_active u = true)
  \/ ("core" = "tenant"
      /\ exists slug o,
           None = Some slug /\ slug <> ""
           /\ In o (organizations (store (fresh Scenario.db))) /\ live slug o).
Proof.
  apply (principal_is_backed_by_the_store
           (Scenario.verified (Scenario.core_claims "1")) (Some "t")
           (fresh Scenario.db) 1 "core" None).
  reflexivity.
Defined.

(** [alice] logs in and her access token resolves to her. *)
Lemma core_login_token_resolves_witness :
  exists user_id,
    Some 1 = Some user_id
    /\ outcome (security.get_current_user_context Scenario.jwt_decode
                  (Some (Scenario.create_access_token
                           (services.claims "1" "core" None None
                                            (Some "alice@example.com"))))
                  RequestSession) (fresh Scenario.db)
       = inr (user_id, "core", None).
Proof.
  apply (core_login_token_resolves Scenario.checkpw Scenario.create_access_token
           Scenario.create_refresh_token Scenario.jwt_decode
           {| schemas.login_email := "alice@example.com";
              schemas.login_password := "Passw0rd!" |}
           None (fresh Scenario.db)
           {| schemas.success := true;
              schemas.message := "Authentication successful";
              schemas.access_token :=
                Some (Scenario.create_access_token
                        (services.claims "1" "core" None None
                                         (Some "alice@example.com")));
              schemas.refresh_token :=
                Some (Scenario.create_refresh_token
                        (services.claims "1" "core" None None None));
              schemas.user_id := Some 1;
              schemas.context := Some "core" |}).
  - cbn. repeat constructor; cbn; intuition discriminate.
  - cbn. intros u [<-|[<-|[]]];
      (eexists; split; [vm_compute; reflexivity|repeat split]).
  - reflexivity.
  - reflexivity.
Defined.

(** [bob] logs into [acme] and his access token passes the tenant guard. *)
Lemma tenant_login_token_resolves_witness :
  exists user_id,
    Some 7 = Some user_id
    /\ outcome (security.get_current_tenant_user_id
                  (security.get_current_user_context Scenario.jwt_decode
                     (Some (Scenario.create_access_token
                              (services.claims "7" "tenant" (Some "acme") (Some 1)
                                               (Some "bob@example.com"))))
                     RequestSession)) (fresh Scenario.db)
       = inr (user_id, "acme").
Proof.
  apply (tenant_login_token_resolves Scenario.checkpw Scenario.create_access_token
           Scenario.create_refresh_token Scenario.jwt_decode
           {| schemas.login_email := "bob@example.com";
              schemas.login_password := "Secret123" |}
           (Some "acme") "acme" (fresh Scenario.db)
           {| schemas.success := true;
              schemas.message := "Authentication successful";
              schemas.access_token :=
                Some (Scenario.create_access_token
                        (services.claims "7" "tenant" (Some "acme") (Some 1)
                                         (Some "bob@example.com")));
              schemas.refresh_token :=
                Some (Scenario.create_refresh_token
                        (services.claims "7" "tenant" (Some "acme") (Some 1) None));
              schemas.user_id := Some 7;
              schemas.context := Some "tenant" |}).
  - cbn. intros o [<-|[<-|[<-|[]]]]; discriminate.
  - cbn. intros u o [<-|[<-|[]]] [<-|[<-|[<-|[]]]];
      (eexists; split; [vm_compute; reflexivity|repeat split]).
  - reflexivity.
  - reflexivity.
Defined.

(** A text that is no token is answered 401 and nothing is executed. *)
Lemma refresh_of_undecodable_token_witness :
  endpoints.refresh_token Scenario.create_access_token Scenario.decode_token
    "garbage" RequestSession (fresh Scenario.db)
  = (inl (HTTPException status.HTTP_401_UNAUTHORIZED
            "Invalid or expired refresh token"), fresh Scenario.db).
Proof.
  eapply (refresh_of_undecodable_token Scenario.create_access_token
            Scenario.decode_token "garbage" _ (fresh Scenario.db)).
  vm_compute. reflexivity.
Defined.

(** [alice]'s refresh token gives an access token with her email. *)
Lemma refresh_reissues_from_the_store_witness :
  outcome (endpoints.refresh_token Scenario.create_access_token Scenario.decode_token
             (Scenario.create_refresh_token (Scenario.core_claims "1"))
             RequestSession) (fresh Scenario.db)
  = inr {| schemas.new_access_token :=
             Scenario.create_access_token
               (services.claims (Py.str (CoreUser.id Scenario.alice)) "core" None None
                                (Some (CoreUser.email Scenario.alice))) |}.
Proof.
  eapply (refresh_reissues_from_the_store Scenario.create_access_token
            Scenario.decode_token
            (Scenario.create_refresh_token (Scenario.core_claims "1"))
            _ "1" Scenario.alice (fresh Scenario.db)).
  - cbn. repeat constructor; cbn; intuition discriminate.
  - vm_compute. reflexivity.
  - reflexivity.
  - reflexivity.
  - reflexivity.
  - reflexivity.
  - cbn. auto.
  - reflexivity.
Defined.

(** A refresh token of [bob] that binds [acme] to organization 2 is
    refreshed, and the access token it gives is refused. *)
Lemma refresh_copies_org_id_unchecked_witness :
  outcome (endpoints.refresh_token Scenario.create_access_token
             (fun _ => inr (Scenario.tenant_claims "7" "acme" 2)) "r"
             RequestSession) (fresh Scenario.db)
  = inr {| schemas.new_access_token :=
             Scenario.create_access_token
               (services.claims (Py.str (TenantUser.id Scenario.bob)) "tenant"
                                (Some "acme") (Some 2)
                                (Some (TenantUser.email Scenario.bob))) |}
  /\ (2 <> Organization.id Scenario.acme ->
      forall jwt_decode access claims,
        jwt_decode access = inr claims ->
        Payload.sub claims = Some (Py.str (TenantUser.id Scenario.bob)) ->
        Payload.context claims = Some "tenant" ->
        Payload.tenant claims = Some "acme" ->
        Payload.org_id claims = Some 2 ->
        outcome (security.get_current_user_context jwt_decode (Some access)
                   RequestSession) (fresh Scenario.db)
        = inl (HTTPException status.HTTP_401_UNAUTHORIZED "Invalid tenant in token")).
Proof.
  apply (refresh_copies_org_id_unchecked Scenario.create_access_token
           (fun _ => inr (Scenario.tenant_claims "7" "acme" 2)) "r"
           (Scenario.tenant_claims "7" "acme" 2) "7" Scenario.bob "acme" 2
           Scenario.acme (fresh Scenario.db)); try reflexivity.
  - cbn. repeat constructor; cbn; intuition discriminate.
  - cbn. auto.
Defined.

(** [carol], deactivated, is refused a new access token. *)
Lemma refresh_for_deactivated_user_witness :
  outcome (endpoints.refresh_token Scenario.create_access_token
             (fun _ => inr (Scenario.core_claims "2")) "r" RequestSession)
          (fresh Scenario.db)
  = inl (HTTPException status.HTTP_401_UNAUTHORIZED "User not found or inactive").
Proof.
  apply (refresh_for_deactivated_user Scenario.create_access_token
           (fun _ => inr (Scenario.core_claims "2")) "r" (Scenario.core_claims "2")
           "2" 2 (fresh Scenario.db)); try reflexivity.
  left. split; [reflexivity|]. exists Scenario.carol. split; reflexivity.
Defined.

(** The tenant [closed] is not live: 404, 401, 400 and 400. *)
Lemma tenant_not_found_statuses_witness :
  outcome (endpoints.login Scenario.checkpw Scenario.create_access_token
             Scenario.create_refresh_token
             {| schemas.login_email := "bob@example.com";
                schemas.login_password := "Secret123" |}
             (Some "closed") RequestSession) (fresh Scenario.db)
  = inl (HTTPException status.HTTP_404_NOT_FOUND "Tenant not found")
  /\ outcome (endpoints.refresh_token Scenario.create_access_token
                (fun _ => inr (Scenario.tenant_claims "7" "closed" 3)) "r"
                RequestSession) (fresh Scenario.db)
     = inl (HTTPException status.HTTP_401_UNAUTHORIZED "Tenant not found")
  /\ outcome (endpoints.get_user_profile (7, "closed") (Some "closed") RequestSession)
       (fresh Scenario.db)
     = inl (HTTPException 400 "Tenant not found")
  /\ outcome (endpoints.update_user_profile 2000
                {| schemas.set_first_name := Some (Some "Bob");
                   schemas.set_last_name := None; schemas.set_phone := None;
                   schemas.set_avatar := None; schemas.set_bio := None |}
                (7, "closed") (Some "closed") RequestSession) (fresh Scenario.db)
     = inl (HTTPException 400 "Tenant not found").
Proof.
  apply (tenant_not_found_statuses Scenario.checkpw Scenario.create_access_token
           Scenario.create_refresh_token
           (fun _ => inr (Scenario.tenant_claims "7" "closed" 3)) 2000
           {| schemas.login_email := "bob@example.com";
              schemas.login_password := "Secret123" |}
           "r" (Scenario.tenant_claims "7" "closed" 3) "7" 7 3
           {| schemas.set_first_name := Some (Some "Bob");
              schemas.set_last_name := None; schemas.set_phone := None;
              schemas.set_avatar := None; schemas.set_bio := None |}
           7 "closed" (fresh Scenario.db)); try reflexivity.
  cbn. intros o [<-|[<-|[<-|[]]]] [Hslug Hactive]; discriminate.
Defined.

(** With a token for [acme], [bob] reads his profile through [acme]. *)
Lemma profile_after_the_guard_witness :
  outcome (endpoints.get_user_profile (7, "acme") (Some "acme") RequestSession)
    (fresh Scenario.db)
  = match find (fun u => TenantUser.id u =? 7)
               (tenant_users (store (fresh Scenario.db))) with
    | Some u => inr (schemas.TenantUserResponse_model_validate u)
    | None => inl (HTTPException 404 "User not found")
    end.
Proof.
  apply (profile_after_the_guard 2000
           (Scenario.verified (Scenario.tenant_claims "7" "acme" 1)) (Some "t")
           7 "acme" (fresh Scenario.db)).
  - unfold int32. lia.
  - reflexivity.
Defined.


(** [alice] owns [acme]: the guard passes for her. *)
Lemma ownership_guard_witness :
  (outcome (security.verify_organization_owner 1 (ret 1) RequestSession)
           (fresh Scenario.db) = inr true
   <-> In (1, 1) (organization_owners (store (fresh Scenario.db)))
       /\ (exists u, In u (core_users (store (fresh Scenario.db)))
                     /\ CoreUser.id u = 1)
       /\ (exists o, In o (organizations (store (fresh Scenario.db)))
                     /\ Organization.id o = 1))
  /\ (outcome (security.verify_organization_owner 1 (ret 1) RequestSession)
              (fresh Scenario.db) = inr true
      \/ outcome (security.verify_organization_owner 1 (ret 1) RequestSession)
                 (fresh Scenario.db)
         = inl (HTTPException status.HTTP_403_FORBIDDEN
                  "Access denied. Organization owner required")).
Proof.
  apply (ownership_guard 1 1 (fresh Scenario.db)); unfold int32; lia.
Defined.

Lemma scenario_hashed_by : bcrypt.hashed_by Fixtures.hashpw Scenario.db.
Proof.
  split; cbn.
  - intros u [<-|[<-|[]]]; exists "Passw0rd!";
      (split; [split; [cbn; lia|cbn; intuition discriminate]|reflexivity]).
  - intros u [<-|[<-|[]]]; exists "Secret123";
      (split; [split; [cbn; lia|cbn; intuition discriminate]|reflexivity]).
Qed.

(** [alice] logs in with a guess. *)
Lemma login_answers_witness :
  ((exists response,
       outcome (endpoints.login Scenario.checkpw Scenario.create_access_token
                  Scenario.create_refresh_token
                  {| schemas.login_email := "alice@example.com";
                     schemas.login_password := "guess" |} None RequestSession)
               (fresh Scenario.db)
       = inr response)
   \/ outcome (endpoints.login Scenario.checkpw Scenario.create_access_token
                 Scenario.create_refresh_token
                 {| schemas.login_email := "alice@example.com";
                    schemas.login_password := "guess" |} None RequestSession)
              (fresh Scenario.db)
      = inl (HTTPException status.HTTP_401_UNAUTHORIZED "Invalid credentials")
   \/ outcome (endpoints.login Scenario.checkpw Scenario.create_access_token
                 Scenario.create_refresh_token
                 {| schemas.login_email := "alice@example.com";
                    schemas.login_password := "guess" |} None RequestSession)
              (fresh Scenario.db)
      = inl (HTTPException status.HTTP_401_UNAUTHORIZED "Account is inactive")
   \/ outcome (endpoints.login Scenario.checkpw Scenario.create_access_token
                 Scenario.create_refresh_token
                 {| schemas.login_email := "alice@example.com";
                    schemas.login_password := "guess" |} None RequestSession)
              (fresh Scenario.db)
      = inl (HTTPException status.HTTP_404_NOT_FOUND "Tenant not found"))
  /\ store (snd (endpoints.login Scenario.checkpw Scenario.create_access_token
                   Scenario.create_refresh_token
                   {| schemas.login_email := "alice@example.com";
                      schemas.login_password := "guess" |} None RequestSession
                   (fresh Scenario.db)))
     = store (fresh Scenario.db).
Proof.
  apply (login_answers Scenario.checkpw Fixtures.hashpw Scenario.create_access_token
           Scenario.create_refresh_token
           {| schemas.login_email := "alice@example.com";
              schemas.login_password := "guess" |} None (fresh Scenario.db)).
  - split; [cbn; lia|cbn; intuition discriminate].
  - exact scenario_hashed_by.
Defined.

(* --------------------------------------------------------------------- *)
(** ** The validators of [schemas.py] *)
(* --------------------------------------------------------------------- *)

Lemma search_iff class text :
  re.search class text = true
  <-> exists c, In c (list_ascii_of_string text) /\ class c = true.
Proof. apply existsb_exists. Qed.

(** X17: a password is accepted, and returned as it is, exactly when it has
    at least eight characters, among them an uppercase letter, a lowercase
    letter and a digit; every refusal is a [ValueError]; and the validator
    of the tenant body decides as the one of the core body does. *)
Theorem password_accepted_iff password :
  (CoreUserCreate.validate_password password = inr password
   <-> (8 <= String.length password)%nat
       /\ (exists c, In c (list_ascii_of_string password) /\ re.upper c = true)
       /\ (exists c, In c (list_ascii_of_string password) /\ re.lower c = true)
       /\ (exists c, In c (list_ascii_of_string password) /\ re.digit c = true))
  /\ (CoreUserCreate.validate_password password = inr password
      \/ exists msg, CoreUserCreate.validate_password password = inl (ValueError msg))
  /\ TenantUserCreate.validate_password password
     = CoreUserCreate.validate_password password.
Proof.
  split; [|split; [|reflexivity]].
  - rewrite <- !search_iff. unfold CoreUserCreate.validate_password.
    destruct password as [|c rest]; cbn [String.eqb String.length].
    { split; [discriminate|]. intros [H _]. cbn in H. lia. }
    destruct (Nat.ltb_spec (S (String.length rest)) 8).
    { split; [discriminate|]. intros [H' _]. lia. }
    destruct (re.search re.upper _); cbn [negb];
      [|split; [discriminate|intros (_ & [=] & _)]].
    destruct (re.search re.lower _); cbn [negb];
      [|split; [discriminate|intros (_ & _ & [=] & _)]].
    destruct (re.search re.digit _); cbn [negb];
      [|split; [discriminate|intros (_ & _ & _ & [=])]].
    split; auto.
  - unfold CoreUserCreate.validate_password.
    repeat match goal with
           | |- context [if ?b then _ else _] => destruct b; eauto
           end.
Qed.

Lemma match_all_iff class seen text :
  re.match_all class seen text = true
  <-> exists w, forallb class (list_ascii_of_string w) = true
                /\ (seen = true \/ w <> EmptyString)
                /\ (text = w \/ text = w ++ String (ascii_of_nat 10) EmptyString).
Proof.
  revert seen. induction text as [|c rest IH]; intros seen; cbn [re.match_all].
  - split.
    + intros ->. exists EmptyString. cbn. auto.
    + intros (w & _ & [Hseen|Hw] & [Hword|Hword]); auto;
        destruct w; try discriminate; contradiction.
  - destruct (class c) eqn:Hc.
    + rewrite IH. split.
      * intros (w & Hall & _ & Hword). exists (String c w). cbn. rewrite Hc, Hall.
        split; [reflexivity|]. split; [right; discriminate|].
        destruct Hword as [->| ->]; auto.
      * intros (w & Hall & _ & Hword). destruct w as [|c' w].
        { destruct Hword as [Hword|Hword]; [discriminate|].
          cbn in Hword. injection Hword as -> ->. exists EmptyString. cbn. auto. }
        cbn in Hall. apply andb_true_iff in Hall as [_ Hall].
        exists w. split; [exact Hall|]. split; [now left|].
        destruct Hword as [Hword|Hword]; cbn in Hword; injection Hword as _ ->; auto.
    + split.
      * intros H. apply andb_true_iff in H as [H Hrest].
        apply andb_true_iff in H as [-> Hnl].
        apply Ascii.eqb_eq in Hnl. apply String.eqb_eq in Hrest. subst.
        exists EmptyString. cbn. auto.
      * intros (w & Hall & Hseen & Hword). destruct w as [|c' w].
        { destruct Hseen as [->|Hw]; [|contradiction].
          destruct Hword as [Hword|Hword]; [discriminate|].
          cbn in Hword. injection Hword as -> ->. reflexivity. }
        cbn in Hall. apply andb_true_iff in Hall as [Hc' _].
        destruct Hword as [Hword|Hword]; cbn in Hword; injection Hword as -> _;
          congruence.
Qed.

Lemma pattern_iff w :
  OrganizationCreate.pattern w = true
  <-> forallb re.slug_char (list_ascii_of_string w) = true /\ w <> EmptyString.
Proof.
  unfold OrganizationCreate.pattern. rewrite andb_true_iff, negb_true_iff.
  rewrite String.eqb_neq. tauto.
Qed.

(** X18: the validator of the slug accepts what the constraint of the field
    accepts, so it never refuses a body the constraint let through; on its
    own it also accepts such a slug followed by one newline, because it
    matches with [$]. *)
Theorem slug_validator_is_weaker slug :
  (OrganizationCreate.pattern slug = true ->
   OrganizationCreate.validate_slug slug = inr slug)
  /\ (OrganizationCreate.validate_slug slug = inr slug
      <-> exists w, OrganizationCreate.pattern w = true
                    /\ (slug = w \/ slug = w ++ String (ascii_of_nat 10) EmptyString)).
Proof.
  assert (OrganizationCreate.validate_slug slug = inr slug
          <-> re.match_all re.slug_char false slug = true) as Hvalid.
  { unfold OrganizationCreate.validate_slug.
    destruct (re.match_all _ _ _); cbn; split; congruence. }
  rewrite Hvalid, match_all_iff. split.
  - intros Hp. apply pattern_iff in Hp as [Hall Hne]. exists slug. auto.
  - split.
    + intros (w & Hall & [Hseen|Hne] & Hword); [discriminate|].
      exists w. split; [|exact Hword]. now apply pattern_iff.
    + intros (w & Hp & Hword). apply pattern_iff in Hp as [Hall Hne]. exists w. auto.
Qed.

(** The bodies of the tests. *)
Example test_core_user_create_valid_password :
  CoreUserCreate.validate_password "ValidPass123" = inr "ValidPass123".
Proof. reflexivity. Qed.

Example test_core_user_create_weak_password :
  CoreUserCreate.validate_password "weak"
  = inl (ValueError "Password must contain at least 8 characters").
Proof. reflexivity. Qed.

Example test_core_user_create_password_no_uppercase :
  CoreUserCreate.validate_password "lowercase123"
  = inl (ValueError "Password must contain at least one uppercase letter").
Proof. reflexivity. Qed.

Example test_organization_create_valid_slug :
  OrganizationCreate.accepted
    {| OrganizationCreate.name := "Test Company";
       OrganizationCreate.slug := "test-company-123";
       OrganizationCreate.description := None |} = true.
Proof. reflexivity. Qed.

Example test_organization_create_invalid_slug :
  OrganizationCreate.validate_slug "Test_Company!"
  = inl (ValueError "Slug can only contain lowercase letters, numbers, and hyphens").
Proof. reflexivity. Qed.

(* --------------------------------------------------------------------- *)
(** ** What the database does with a new row *)
(* --------------------------------------------------------------------- *)

Lemma next_id_above ids x : In x ids -> x < postgres.next_id ids.
Proof.
  unfold postgres.next_id.
  induction ids as [|y ids IH]; cbn [fold_right In]; [contradiction|].
  intros [->|H]; [lia|]. specialize (IH H). lia.
Qed.

Lemma next_id_fresh ids : ~ In (postgres.next_id ids) ids.
Proof. intros H. apply next_id_above in H. lia. Qed.


Lemma varchar_fits n value : fits n value -> postgres.varchar n value = Some value.
Proof.
  unfold fits, postgres.varchar. intros H. apply Nat.leb_le in H. now rewrite H.
Qed.

Lemma nullable_varchar_fits n entry :
  within n (Some entry) -> postgres.nullable_varchar n entry = Some entry.
Proof.
  destruct entry as [text|]; cbn; [|reflexivity].
  intros H. now rewrite (varchar_fits n text H).
Qed.

Lemma all_spaces_get text p c :
  postgres.all_spaces text = true -> String.get p text = Some c -> c = " "%char.
Proof.
  unfold postgres.all_spaces. revert p.
  induction text as [|a text IH]; intros p;
    cbn [list_ascii_of_string forallb String.get]; [discriminate|].
  intros H. apply andb_true_iff in H as [Ha Hall]. apply Ascii.eqb_eq in Ha.
  destruct p; [congruence|]. now apply IH.
Qed.

(** A value longer than the column whose last character is not a space is
    refused. *)
Lemma varchar_refuses n value c :
  (n < String.length value)%nat ->
  String.get (String.length value - 1) value = Some c -> c <> " "%char ->
  postgres.varchar n value = None.
Proof.
  intros Hlong Hlast Hc. unfold postgres.varchar.
  destruct (Nat.leb_spec (String.length value) n); [lia|].
  destruct (postgres.all_spaces _) eqn:Hall; [|reflexivity].
  exfalso. apply Hc.
  apply (all_spaces_get _ (String.length value - 1 - n) c Hall).
  rewrite substring_correct1 by lia.
  now replace (String.length value - 1 - n + n)%nat with (String.length value - 1)%nat
    by lia.
Qed.

Lemma existsb_find {A} (f : A -> bool) (l : list A) :
  existsb f l = match find f l with Some _ => true | None => false end.
Proof.
  induction l as [|a l IH]; cbn; [reflexivity|]. now destruct (f a).
Qed.

Lemma existsb_false {A} (f : A -> bool) (l : list A) :
  existsb f l = false -> forall x, In x l -> f x = false.
Proof.
  intros H x Hx. destruct (f x) eqn:Hfx; [|reflexivity].
  rewrite <- H. symmetry. apply existsb_exists. eauto.
Qed.

Lemma NoDup_snoc {A} (l : list A) x : NoDup l -> ~ In x l -> NoDup (l ++ [x]).
Proof.
  intros Hl Hx. apply NoDup_app; auto.
  - repeat constructor. intros [].
  - intros y Hy [<-|[]]. contradiction.
Qed.

Lemma NoDup_map_snoc {A B} (f : A -> B) (l : list A) x :
  NoDup (map f l) -> ~ In (f x) (map f l) -> NoDup (map f (l ++ [x])).
Proof.
  intros Hl Hx. rewrite map_app. now apply NoDup_snoc.
Qed.

Lemma not_in_column {A} (column : A -> string) key rows :
  find (fun r => String.eqb (column r) key) rows = None ->
  ~ In key (map column rows).
Proof.
  intros Hfind Hin. apply in_map_iff in Hin as (r & Hkey & Hr).
  pose proof (find_none _ _ Hfind r Hr) as Hno. cbn in Hno.
  apply String.eqb_neq in Hno. contradiction.
Qed.

Lemma find_snoc {A} (f : A -> bool) (l : list A) x :
  find f (l ++ [x])
  = match find f l with
    | Some y => Some y
    | None => if f x then Some x else None
    end.
Proof.
  induction l as [|a l IH]; cbn; [reflexivity|]. now destruct (f a).
Qed.

(* --------------------------------------------------------------------- *)
(** ** Registration ([endpoints.register_user], [services.create_core_user],
       [services.create_tenant_user]) *)
(* --------------------------------------------------------------------- *)

Section Registration.

Variable hash_password : string -> string.
Variable utcnow : Z.
Variable describe : postgres.DBAPIError -> string.
Variable validation_error : string -> string.


(** X20: the body puts no bound on [first_name], the column holds 100
    characters.  A registration with a password [bcrypt] takes and a
    longer first name (one that does not end in a space) is answered 500,
    with the text of the driver's error, and nothing is stored. *)
Theorem registration_with_a_long_name user_data tenant_context name c s :
  endpoints.header_given tenant_context = None ->
  bcrypt.takes (CoreUserCreate.password user_data) ->
  (forall u, In u (core_users (store s)) ->
             CoreUser.email u <> CoreUserCreate.email user_data) ->
  CoreUserCreate.first_name user_data = Some name ->
  (100 < String.length name)%nat ->
  String.get (String.length name - 1) name = Some c -> c <> " "%char ->
  writing.register_user hash_password utcnow describe validation_error
    user_data tenant_context RequestSession s
  = (inl (HTTPException 500 ("Registration error: " ++ describe postgres.DataError)),
     after s [SelectCoreUserByEmail (CoreUserCreate.email user_data)]).
Proof.
  intros Hhdr _ Hnone Hname Hlong Hlast Hc.
  unfold writing.register_user, writing.try_endpoint,
    creating.create_core_user, flush.core_user, bindW, lift, retW, raiseW, after.
  rewrite Hhdr. run_queries.
  rewrite (proj2 (find_none_iff _ _)).
  2:{ intros u Hu. apply String.eqb_neq. now apply Hnone. }
  rewrite Hname. cbn [postgres.nullable_varchar].
  rewrite (varchar_refuses 100 name c Hlong Hlast Hc). cbn [option_map].
  destruct (postgres.varchar 255 (CoreUserCreate.email user_data));
    [destruct (postgres.varchar 255 _)|]; reflexivity.
Qed.

(** X21: who has registered can log in.  After a registration without
    tenant header has succeeded, a login with the same address and password
    on the store it left succeeds and names the user of the registration's
    response.  (The address and the hash fit their columns; the password
    verifies against its own hash.) *)
Theorem registration_then_login verify_password create_access_token
    create_refresh_token user_data tenant_context s response :
  endpoints.header_given tenant_context = None ->
  fits 255 (CoreUserCreate.email user_data) ->
  fits 255 (hash_password (CoreUserCreate.password user_data)) ->
  verify_password (CoreUserCreate.password user_data)
                  (hash_password (CoreUserCreate.password user_data)) = true ->
  outcome (writing.register_user hash_password utcnow describe validation_error
       user_data tenant_context RequestSession) s
  = inr (inr response) ->
  exists answer,
    outcome (endpoints.login verify_password create_access_token create_refresh_token
               {| schemas.login_email := CoreUserCreate.email user_data;
                  schemas.login_password := CoreUserCreate.password user_data |}
               tenant_context RequestSession)
            (snd (writing.register_user hash_password utcnow describe validation_error
       user_data tenant_context RequestSession s))
    = inr answer
    /\ schemas.user_id answer = Some (CoreUserResponse.id response)
    /\ schemas.context answer = Some "core".
Proof.
  intros Hhdr Hemail Hhash Hverify.
  unfold outcome, writing.register_user, writing.try_endpoint,
    creating.create_core_user, flush.core_user, bindW, lift, retW, raiseW,
    endpoints.login, endpoints.try_endpoint, try_except,
    services.authenticate_core_user.
  rewrite Hhdr. run_queries.
  rewrite (varchar_fits _ _ Hemail), (varchar_fits _ _ Hhash).
  destruct (find _ _) as [u|] eqn:Hfind; cbn; [discriminate|].
  rewrite existsb_find, Hfind.
  destruct (postgres.nullable_varchar 100 (CoreUserCreate.first_name user_data));
    [|discriminate].
  destruct (postgres.nullable_varchar 100 (CoreUserCreate.last_name user_data));
    [|discriminate].
  cbn. intros [= <-].
  rewrite find_snoc, Hfind. cbn. rewrite String.eqb_refl. cbn.
  rewrite Hverify. cbn. eexists. repeat split.
Qed.


(** What a registration does to the store. *)
Lemma registration_store user_data tenant_context s :
  let db' := store (snd (writing.register_user hash_password utcnow describe
                           validation_error user_data tenant_context
                           RequestSession s)) in
  (db' = store s
   /\ forall response,
        outcome (writing.register_user hash_password utcnow describe validation_error
                   user_data tenant_context RequestSession) s <> inr response)
  \/ (exists user,
         db' = {| core_users := core_users (store s) ++ [user];
                  organizations := organizations (store s);
                  tenant_users := tenant_users (store s);
                  organization_owners := organization_owners (store s) |}
         /\ ~ In (CoreUser.id user) (map CoreUser.id (core_users (store s)))
         /\ ~ In (CoreUser.email user) (map CoreUser.email (core_users (store s))))
  \/ (exists user,
         db' = {| core_users := core_users (store s);
                  organizations := organizations (store s);
                  tenant_users := tenant_users (store s) ++ [user];
                  organization_owners := organization_owners (store s) |}
         /\ ~ In (TenantUser.id user) (map TenantUser.id (tenant_users (store s)))
         /\ ~ In (TenantUser.email user)
                 (map TenantUser.email (tenant_users (store s)))).
Proof.
  unfold outcome, writing.register_user, writing.try_endpoint,
    writing.TenantUserCreate_of, creating.create_tenant_user,
    creating.create_core_user, services.get_tenant_session,
    flush.tenant_user, flush.core_user, bindW, lift, retW, raiseW.
  destruct (endpoints.header_given tenant_context) as [slug|].
  - destruct (TenantUserCreate.validate_password _) as [e|password]; run_queries;
      [left; split; [reflexivity|discriminate]|].
    destruct (find _ (organizations _)) as [o|]; cbn;
      [|left; split; [reflexivity|discriminate]].
    destruct (find _ (tenant_users _)) as [u|]; cbn;
      [left; split; [reflexivity|discriminate]|].
    destruct (postgres.varchar 255 _) as [email|]; cbn;
      [|left; split; [reflexivity|discriminate]].
    destruct (postgres.varchar 255 _) as [hashed|]; cbn;
      [|left; split; [reflexivity|discriminate]].
    destruct (postgres.nullable_varchar 100 _) as [first|]; cbn;
      [|left; split; [reflexivity|discriminate]].
    destruct (postgres.nullable_varchar 100 _) as [last|]; cbn;
      [|left; split; [reflexivity|discriminate]].
    rewrite existsb_find.
    destruct (find _ _) eqn:Hfind; cbn; [left; split; [reflexivity|discriminate]|].
    right. right. eexists. split; [reflexivity|]. cbn. split.
    + apply next_id_fresh.
    + now apply not_in_column.
  - run_queries.
    destruct (find _ _) as [u|]; cbn; [left; split; [reflexivity|discriminate]|].
    destruct (postgres.varchar 255 _) as [email|]; cbn;
      [|left; split; [reflexivity|discriminate]].
    destruct (postgres.varchar 255 _) as [hashed|]; cbn;
      [|left; split; [reflexivity|discriminate]].
    destruct (postgres.nullable_varchar 100 _) as [first|]; cbn;
      [|left; split; [reflexivity|discriminate]].
    destruct (postgres.nullable_varchar 100 _) as [last|]; cbn;
      [|left; split; [reflexivity|discriminate]].
    rewrite existsb_find.
    destruct (find _ _) eqn:Hfind; cbn; [left; split; [reflexivity|discriminate]|].
    right. left. eexists. split; [reflexivity|]. cbn. split.
    + apply next_id_fresh.
    + now apply not_in_column.
Qed.

(** Every way a registration ends without a response. *)
Lemma registration_failures user_data tenant_context s e :
  outcome (writing.register_user hash_password utcnow describe validation_error
             user_data tenant_context RequestSession) s = inl e ->
  (exists detail, e = HTTPException 400 detail)
  \/ (exists error, e = HTTPException 500 ("Registration error: " ++ describe error)).
Proof.
  unfold outcome, writing.register_user, writing.try_endpoint,
    writing.TenantUserCreate_of, creating.create_tenant_user,
    creating.create_core_user, services.get_tenant_session,
    flush.tenant_user, flush.core_user, bindW, lift, retW, raiseW.
  destruct (endpoints.header_given tenant_context) as [slug|].
  - destruct (TenantUserCreate.validate_password _) as [e'|password]; run_queries;
      [intros [= <-]; eauto|].
    destruct (find _ (organizations _)) as [o|]; cbn; [|intros [= <-]; eauto].
    destruct (find _ (tenant_users _)) as [u|]; cbn; [intros [= <-]; eauto|].
    destruct (postgres.varchar 255 _) as [email|]; cbn; [|intros [= <-]; eauto].
    destruct (postgres.varchar 255 _) as [hashed|]; cbn; [|intros [= <-]; eauto].
    destruct (postgres.nullable_varchar 100 _) as [first|]; cbn;
      [|intros [= <-]; eauto].
    destruct (postgres.nullable_varchar 100 _) as [last|]; cbn;
      [|intros [= <-]; eauto].
    destruct (existsb _ _); cbn; [intros [= <-]; eauto|discriminate].
  - run_queries.
    destruct (find _ _) as [u|]; cbn; [intros [= <-]; eauto|].
    destruct (postgres.varchar 255 _) as [email|]; cbn; [|intros [= <-]; eauto].
    destruct (postgres.varchar 255 _) as [hashed|]; cbn; [|intros [= <-]; eauto].
    destruct (postgres.nullable_varchar 100 _) as [first|]; cbn;
      [|intros [= <-]; eauto].
    destruct (postgres.nullable_varchar 100 _) as [last|]; cbn;
      [|intros [= <-]; eauto].
    destruct (existsb _ _); cbn; [intros [= <-]; eauto|discriminate].
Qed.

(** X23: a registration that returns no response answers 400 or 500 (the
    latter with the text of the database driver's error) and nothing else,
    and it leaves the store as it found it. *)
Theorem registration_refusals user_data tenant_context s e :
  outcome (writing.register_user hash_password utcnow describe validation_error
             user_data tenant_context RequestSession) s = inl e ->
  ((exists detail, e = HTTPException 400 detail)
   \/ (exists error, e = HTTPException 500 ("Registration error: " ++ describe error)))
  /\ store (snd (writing.register_user hash_password utcnow describe validation_error
                   user_data tenant_context RequestSession s)) = store s.
Proof.
  intros He. split; [exact (registration_failures _ _ _ _ He)|].
  assert (forall response,
             outcome (writing.register_user hash_password utcnow describe
                        validation_error user_data tenant_context RequestSession) s
             = inr response -> False) as Hno by (intros r Hr; congruence).
  revert Hno.
  unfold outcome, writing.register_user, writing.try_endpoint,
    writing.TenantUserCreate_of, creating.create_tenant_user,
    creating.create_core_user, services.get_tenant_session,
    flush.tenant_user, flush.core_user, bindW, lift, retW, raiseW.
  destruct (endpoints.header_given tenant_context) as [slug|].
  - destruct (TenantUserCreate.validate_password _) as [e'|password]; run_queries;
      [reflexivity|].
    destruct (find _ (organizations _)) as [o|]; cbn; [|reflexivity].
    destruct (find _ (tenant_users _)) as [u|]; cbn; [reflexivity|].
    destruct (postgres.varchar 255 _) as [email|]; cbn; [|reflexivity].
    destruct (postgres.varchar 255 _) as [hashed|]; cbn; [|reflexivity].
    destruct (postgres.nullable_varchar 100 _) as [first|]; cbn; [|reflexivity].
    destruct (postgres.nullable_varchar 100 _) as [last|]; cbn; [|reflexivity].
    destruct (existsb _ _); cbn; [reflexivity|].
    intros Hno. now destruct (Hno _ eq_refl).
  - run_queries.
    destruct (find _ _) as [u|]; cbn; [reflexivity|].
    destruct (postgres.varchar 255 _) as [email|]; cbn; [|reflexivity].
    destruct (postgres.varchar 255 _) as [hashed|]; cbn; [|reflexivity].
    destruct (postgres.nullable_varchar 100 _) as [first|]; cbn; [|reflexivity].
    destruct (postgres.nullable_varchar 100 _) as [last|]; cbn; [|reflexivity].
    destruct (existsb _ _); cbn; [reflexivity|].
    intros Hno. now destruct (Hno _ eq_refl).
Qed.

End Registration.

(* --------------------------------------------------------------------- *)
(** ** Organizations ([endpoints.create_organization],
       [services.create_organization]) *)
(* --------------------------------------------------------------------- *)

Lemma get_last text :
  text <> EmptyString ->
  exists c, String.get (String.length text - 1) text = Some c
            /\ In c (list_ascii_of_string text).
Proof.
  induction text as [|a rest IH]; [contradiction|]. intros _.
  destruct rest as [|b rest].
  - exists a. cbn. auto.
  - destruct IH as (c & Hget & Hin); [discriminate|].
    exists c. split; [|now right].
    cbn [String.length] in *. rewrite Nat.sub_succ, Nat.sub_0_r in *.
    exact Hget.
Qed.

Lemma slug_char_not_space c : re.slug_char c = true -> c <> " "%char.
Proof. intros H ->. discriminate. Qed.

Section Organizations.

Variable utcnow : Z.
Variable describe : postgres.DBAPIError -> string.

(** X24: a slug that is taken is refused in two ways.  When an active
    organization holds it, the service finds it and the answer is 400
    "Organization with this slug already exists".  When only a deactivated
    organization holds it, the service's check, which looks among the
    active ones, passes, the unique index refuses the row, and the answer
    is 500.  Nothing is stored either way.  (For an owner that exists and
    values that fit their columns.) *)
Theorem creation_over_a_taken_slug org_data user_id owner s :
  In owner (core_users (store s)) -> CoreUser.id owner = user_id ->
  fits 255 (OrganizationCreate.name org_data) ->
  fits 93 (OrganizationCreate.slug org_data) ->
  within 500 (Some (OrganizationCreate.description org_data)) ->
  ((exists o, In o (organizations (store s))
              /\ live (OrganizationCreate.slug org_data) o) ->
   outcome (writing.create_organization utcnow describe org_data user_id
              RequestSession) s
   = inl (HTTPException 400 "Organization with this slug already exists")
   /\ store (snd (writing.create_organization utcnow describe org_data user_id
                    RequestSession s)) = store s)
  /\ ((exists o, In o (organizations (store s))
                 /\ Organization.slug o = OrganizationCreate.slug org_data) ->
      (forall o, In o (organizations (store s)) ->
                 ~ live (OrganizationCreate.slug org_data) o) ->
      outcome (writing.create_organization utcnow describe org_data user_id
                 RequestSession) s
      = inl (HTTPException 500
               ("Organization creation error: "
                  ++ describe postgres.IntegrityError))
      /\ store (snd (writing.create_organization utcnow describe org_data user_id
                       RequestSession s)) = store s).
Proof.
  intros Howner Hid Hname Hslug Hdescription.
  assert (fits 100 (OrganizationCreate.slug org_data)) as Hslug'
    by (unfold fits in *; lia).
  assert (fits 100 ("tenant_" ++ OrganizationCreate.slug org_data)) as Hdb
    by (unfold fits in *; cbn [String.append String.length]; lia).
  unfold outcome, writing.create_organization, writing.try_endpoint,
    creating.create_organization, flush.organization, bindW, lift, retW, raiseW.
  run_queries. split.
  - intros Hlive. destruct (find_live _ _ Hlive) as [o Ho]. now rewrite Ho.
  - intros (o & Ho & Hheld) Hnone.
    rewrite (no_live_organization _ _ Hnone).
    destruct (find _ (core_users _)) as [owner'|] eqn:Hfind.
    2:{ exfalso. pose proof (find_none _ _ Hfind owner Howner) as Hno. cbn in Hno.
        apply Z.eqb_neq in Hno. contradiction. }
    cbn [fst snd store executed].
    rewrite (varchar_fits _ _ Hname), (varchar_fits _ _ Hslug'),
      (nullable_varchar_fits _ _ Hdescription), (varchar_fits _ _ Hdb).
    replace (existsb _ _) with true; [auto|].
    symmetry. apply existsb_exists. exists o. split; [exact Ho|].
    rewrite (proj2 (String.eqb_eq _ _) Hheld). reflexivity.
Qed.

(** X25: the body lets a slug have up to 100 characters, and the database
    name made of it, [tenant_] and the slug, has seven more than the column
    [database_name] holds.  The creation of an organization whose accepted
    slug has more than 93 characters is answered 500, and nothing is
    stored. *)
Theorem creation_with_a_long_slug org_data user_id owner s :
  OrganizationCreate.accepted org_data = true ->
  (93 < String.length (OrganizationCreate.slug org_data))%nat ->
  In owner (core_users (store s)) -> CoreUser.id owner = user_id ->
  (forall o, In o (organizations (store s)) ->
             ~ live (OrganizationCreate.slug org_data) o) ->
  writing.create_organization utcnow describe org_data user_id RequestSession s
  = (inl (HTTPException 500
            ("Organization creation error: " ++ describe postgres.DataError)),
     after s [SelectOrganizationBySlug (OrganizationCreate.slug org_data);
              SelectCoreUserById user_id]).
Proof.
  intros Haccepted Hlong Howner Hid Hnone.
  unfold OrganizationCreate.accepted in Haccepted.
  apply andb_true_iff in Haccepted as [Haccepted _].
  apply andb_true_iff in Haccepted as [_ Hpattern].
  apply pattern_iff in Hpattern as [Hchars Hne].
  destruct (get_last _ Hne) as (c & Hget & Hc).
  assert (postgres.varchar 100 ("tenant_" ++ OrganizationCreate.slug org_data) = None)
    as Hdb.
  { apply (varchar_refuses 100 _ c).
    - cbn [String.append String.length]. lia.
    - change ("tenant_" ++ OrganizationCreate.slug org_data)
        with (String "t" (String "e" (String "n" (String "a" (String "n" (String "t"
                (String "_" (OrganizationCreate.slug org_data)))))))).
      cbn [String.length].
      destruct (OrganizationCreate.slug org_data) as [|a rest]; [contradiction|].
      cbn [String.length] in *. rewrite Nat.sub_succ, Nat.sub_0_r in *.
      exact Hget.
    - apply slug_char_not_space.
      exact (proj1 (forallb_forall _ _) Hchars c Hc). }
  unfold writing.create_organization, writing.try_endpoint,
    creating.create_organization, flush.organization, bindW, lift, retW, raiseW, after.
  run_queries.
  rewrite (no_live_organization _ _ Hnone).
  destruct (find _ (core_users _)) as [owner'|] eqn:Hfind.
  2:{ exfalso. pose proof (find_none _ _ Hfind owner Howner) as Hno. cbn in Hno.
      apply Z.eqb_neq in Hno. contradiction. }
  cbn [fst snd store executed]. rewrite Hdb, <- app_assoc. clear Hdb.
  destruct (postgres.varchar 255 (OrganizationCreate.name org_data));
    destruct (postgres.varchar 100 (OrganizationCreate.slug org_data));
    destruct (postgres.nullable_varchar 500 (OrganizationCreate.description org_data));
    reflexivity.
Qed.

(** What the creation of an organization does to the store. *)
Lemma creation_store org_data user_id s :
  let db' := store (snd (writing.create_organization utcnow describe org_data user_id
                           RequestSession s)) in
  db' = store s
  \/ (exists organization owner,
         db' = {| core_users := core_users (store s);
                  organizations := organizations (store s) ++ [organization];
                  tenant_users := tenant_users (store s);
                  organization_owners :=
                    organization_owners (store s)
                      ++ [(CoreUser.id owner, Organization.id organization)] |}
         /\ In owner (core_users (store s))
         /\ ~ In (Organization.id organization)
                 (map Organization.id (organizations (store s)))
         /\ ~ In (Organization.slug organization)
                 (map Organization.slug (organizations (store s)))
         /\ ~ In (Organization.database_name organization)
                 (map Organization.database_name (organizations (store s)))).
Proof.
  unfold writing.create_organization, writing.try_endpoint,
    creating.create_organization, flush.organization, bindW, lift, retW, raiseW.
  run_queries.
  destruct (find _ (organizations _)) as [o|]; cbn; [now left|].
  destruct (find _ (core_users _)) as [owner|] eqn:Howner; cbn; [|now left].
  destruct (postgres.varchar 255 _) as [name|]; cbn; [|now left].
  destruct (postgres.varchar 100 _) as [slug|]; cbn; [|now left].
  destruct (postgres.nullable_varchar 500 _) as [description|]; cbn; [|now left].
  destruct (postgres.varchar 100 _) as [database_name|]; cbn; [|now left].
  destruct (existsb _ _) eqn:Hheld; cbn; [now left|].
  right.
  match goal with
  | |- context [(organizations (store s) ++ [?row])%list] => exists row, owner
  end.
  split; [reflexivity|]. cbn [Organization.id Organization.slug
                              Organization.database_name].
  apply find_some in Howner as [Howner _].
  split; [exact Howner|]. split; [apply next_id_fresh|].
  split; intros Hin; apply in_map_iff in Hin as (o & Heq & Ho);
    pose proof (existsb_false _ _ Hheld o Ho) as Hno;
    cbn in Hno; apply orb_false_iff in Hno as [Hs Hd];
    apply String.eqb_neq in Hs, Hd; contradiction.
Qed.

End Organizations.



(* --------------------------------------------------------------------- *)
(** ** The writing endpoints keep the constraints *)
(* --------------------------------------------------------------------- *)

(** What a profile update does to the store. *)
Lemma profile_update_store utcnow update_data user_context tenant_context s :
  map TenantUser.id
      (tenant_users (store (snd (endpoints.update_user_profile utcnow update_data
                                   user_context tenant_context RequestSession s))))
  = map TenantUser.id (tenant_users (store s))
  /\ map TenantUser.email
         (tenant_users (store (snd (endpoints.update_user_profile utcnow update_data
                                      user_context tenant_context RequestSession s))))
     = map TenantUser.email (tenant_users (store s))
  /\ core_users (store (snd (endpoints.update_user_profile utcnow update_data
                               user_context tenant_context RequestSession s)))
     = core_users (store s)
  /\ organizations (store (snd (endpoints.update_user_profile utcnow update_data
                                  user_context tenant_context RequestSession s)))
     = organizations (store s)
  /\ organization_owners
       (store (snd (endpoints.update_user_profile utcnow update_data
                      user_context tenant_context RequestSession s)))
     = organization_owners (store s).
Proof.
  destruct user_context as [user_id token_tenant].
  unfold endpoints.update_user_profile, endpoints.try_endpoint, try_except,
    services.update_tenant_user_profile, services.get_tenant_session,
    services.commit_user.
  destruct (endpoints.header_given tenant_context) as [header|];
    [|cbn; repeat split; reflexivity].
  destruct (String.eqb token_tenant header); cbn [negb];
    [|cbn; repeat split; reflexivity].
  run_queries.
  destruct (find _ (organizations _)) as [o|]; cbn; [|repeat split; reflexivity].
  destruct (find _ (tenant_users _)) as [u|] eqn:Hfind; cbn;
    [|repeat split; reflexivity].
  pose proof (find_some _ _ Hfind) as [_ Hid]. apply Z.eqb_eq in Hid.
  repeat split;
    apply (map_replace_row _ user_id u _ _ Hfind); auto.
Qed.

Lemma constraints_with_core_user db user :
  constraints db ->
  ~ In (CoreUser.id user) (map CoreUser.id (core_users db)) ->
  ~ In (CoreUser.email user) (map CoreUser.email (core_users db)) ->
  constraints {| core_users := core_users db ++ [user];
                 organizations := organizations db;
                 tenant_users := tenant_users db;
                 organization_owners := organization_owners db |}.
Proof.
  unfold constraints, unique_ids, unique_emails, unique_slugs. cbn.
  intros ((Hc & Ho & Ht) & (Hce & Hte) & Hs & Hd & Hw & Hfk) Hid Hemail.
  repeat split; auto using NoDup_map_snoc.
  - destruct (Hfk _ _ H) as [(u & Hu & Hu') _]. exists u. split; [|exact Hu'].
    apply in_or_app. now left.
  - now destruct (Hfk _ _ H) as [_ Horg].
Qed.

Lemma constraints_with_tenant_user db user :
  constraints db ->
  ~ In (TenantUser.id user) (map TenantUser.id (tenant_users db)) ->
  ~ In (TenantUser.email user) (map TenantUser.email (tenant_users db)) ->
  constraints {| core_users := core_users db;
                 organizations := organizations db;
                 tenant_users := tenant_users db ++ [user];
                 organization_owners := organization_owners db |}.
Proof.
  unfold constraints, unique_ids, unique_emails, unique_slugs. cbn.
  intros ((Hc & Ho & Ht) & (Hce & Hte) & Hs & Hd & Hw & Hfk) Hid Hemail.
  repeat split; auto using NoDup_map_snoc; now destruct (Hfk _ _ H).
Qed.

Lemma constraints_with_organization db organization owner :
  constraints db ->
  In owner (core_users db) ->
  ~ In (Organization.id organization) (map Organization.id (organizations db)) ->
  ~ In (Organization.slug organization) (map Organization.slug (organizations db)) ->
  ~ In (Organization.database_name organization)
       (map Organization.database_name (organizations db)) ->
  constraints {| core_users := core_users db;
                 organizations := organizations db ++ [organization];
                 tenant_users := tenant_users db;
                 organization_owners :=
                   organization_owners db
                     ++ [(CoreUser.id owner, Organization.id organization)] |}.
Proof.
  unfold constraints, unique_ids, unique_emails, unique_slugs. cbn.
  intros ((Hc & Ho & Ht) & (Hce & Hte) & Hs & Hd & Hw & Hfk) Howner Hid Hslug Hdb.
  repeat split; auto using NoDup_map_snoc.
  - apply NoDup_snoc; [exact Hw|]. intros Hin.
    destruct (Hfk _ _ Hin) as [_ (o & Ho' & Heq)].
    apply Hid. rewrite <- Heq. now apply in_map.
  - apply in_app_or in H as [H|[[= <- <-]|[]]]; [|eauto].
    now destruct (Hfk _ _ H).
  - apply in_app_or in H as [H|[[= <- <-]|[]]].
    + destruct (Hfk _ _ H) as [_ (o & Ho' & Heq)]. exists o. split; [|exact Heq].
      apply in_or_app. now left.
    + exists organization. split; [|reflexivity]. apply in_or_app. right. now left.
Qed.

(** X27: each of the three endpoints that write keeps the constraints of
    the tables, whatever the request and however it ends: the primary keys
    and the unique emails, slugs and database names stay unique, and every
    row of the association table still names a core user and an
    organization of the store. *)
Theorem writes_keep_the_constraints hash_password utcnow describe validation_error
    user_data tenant_context org_data owner_id update_data user_context s :
  constraints (store s) ->
  constraints (store (snd (writing.register_user hash_password utcnow describe
                             validation_error user_data tenant_context
                             RequestSession s)))
  /\ constraints (store (snd (writing.create_organization utcnow describe org_data
                                owner_id RequestSession s)))
  /\ constraints (store (snd (endpoints.update_user_profile utcnow update_data
                                user_context tenant_context RequestSession s))).
Proof.
  intros Hdb. split; [|split].
  - destruct (registration_store hash_password utcnow describe validation_error
                user_data tenant_context s)
      as [[-> _]|[(user & -> & Hid & Hemail)|(user & -> & Hid & Hemail)]];
      auto using constraints_with_core_user, constraints_with_tenant_user.
  - destruct (creation_store utcnow describe org_data owner_id s)
      as [->|(organization & owner & -> & Howner & Hid & Hslug & Hname)];
      auto using constraints_with_organization.
  - destruct (profile_update_store utcnow update_data user_context tenant_context s)
      as (Hids & Hemails & Hcore & Horgs & Howners).
    revert Hdb. unfold constraints, unique_ids, unique_emails, unique_slugs.
    rewrite Hids, Hemails, Hcore, Horgs, Howners. tauto.
Qed.

(* --------------------------------------------------------------------- *)
(** ** A tenant user, from registration to profile *)
(* --------------------------------------------------------------------- *)

Lemma find_fresh_id {Row} (key : Row -> Z) (rows : list Row) k :
  ~ In k (map key rows) -> find (fun r => key r =? k) rows = None.
Proof.
  intros Hfresh. apply find_none_iff. intros r Hr. apply Z.eqb_neq.
  intros <-. apply Hfresh. now apply in_map.
Qed.

Section TenantRoundTrip.

Variable hash_password : string -> string.
Variable utcnow : Z.
Variable describe : postgres.DBAPIError -> string.
Variable validation_error : string -> string.

(** What a successful registration with a tenant header has established. *)
Lemma tenant_registration_succeeded user_data tenant_context slug s response :
  endpoints.header_given tenant_context = Some slug ->
  outcome (writing.register_user hash_password utcnow describe validation_error
             user_data tenant_context RequestSession) s = inr response ->
  exists o user,
    find (fun o => String.eqb (Organization.slug o) slug && Organization.is_active o)
         (organizations (store s)) = Some o
    /\ find (fun u => String.eqb (TenantUser.email u) (CoreUserCreate.email user_data))
            (tenant_users (store s)) = None
    /\ find (fun u => TenantUser.id u =? TenantUser.id user) (tenant_users (store s))
       = None
    /\ postgres.varchar 255 (CoreUserCreate.email user_data)
       = Some (TenantUser.email user)
    /\ postgres.varchar 255 (hash_password (CoreUserCreate.password user_data))
       = Some (TenantUser.hashed_password user)
    /\ TenantUser.is_active user = true
    /\ TenantUser.organization_id user = Organization.id o
    /\ response = inl (schemas.TenantUserResponse_model_validate user)
    /\ store (snd (writing.register_user hash_password utcnow describe validation_error
                     user_data tenant_context RequestSession s))
       = {| core_users := core_users (store s);
            organizations := organizations (store s);
            tenant_users := tenant_users (store s) ++ [user];
            organization_owners := organization_owners (store s) |}.
Proof.
  intros Hhdr.
  unfold outcome, writing.register_user, writing.try_endpoint,
    writing.TenantUserCreate_of, creating.create_tenant_user,
    services.get_tenant_session, flush.tenant_user, bindW, lift, retW, raiseW.
  rewrite Hhdr.
  destruct (TenantUserCreate.validate_password _) as [e|password] eqn:Hvalid;
    run_queries; [destruct e; discriminate|].
  assert (password = CoreUserCreate.password user_data) as ->.
  { revert Hvalid. unfold TenantUserCreate.validate_password.
    repeat match goal with
           | |- context [if ?b then _ else _] => destruct b; try discriminate
           end.
    now intros [= <-]. }
  destruct (find _ (organizations _)) as [o|] eqn:Horg; cbn; [|discriminate].
  destruct (find _ (tenant_users _)) as [u|] eqn:Hfree; cbn; [discriminate|].
  destruct (postgres.varchar 255 (CoreUserCreate.email user_data)) as [email|];
    cbn; [|discriminate].
  destruct (postgres.varchar 255 (hash_password _)) as [hashed|]; cbn; [|discriminate].
  destruct (postgres.nullable_varchar 100 (CoreUserCreate.first_name user_data))
    as [first|]; cbn; [|discriminate].
  destruct (postgres.nullable_varchar 100 (CoreUserCreate.last_name user_data))
    as [last|]; cbn; [|discriminate].
  destruct (existsb _ _); cbn; [discriminate|].
  intros [= <-]. exists o.
  match goal with
  | |- context [(tenant_users (store s) ++ [?row])%list] => exists row
  end.
  cbn [TenantUser.id TenantUser.email TenantUser.hashed_password TenantUser.is_active
       TenantUser.organization_id].
  repeat split. apply find_fresh_id, next_id_fresh.
Qed.

(** X28: a tenant user, from registration to profile.  After a
    registration with a tenant header has succeeded, on the store it left:
    reading the profile as the new user through the same tenant returns
    what the registration returned, and a login with the same header,
    address and password succeeds and names the new user in the tenant
    context.  (The address and the hash fit their columns; the password
    verifies against its own hash.) *)
Theorem tenant_registration_round_trip verify_password create_access_token
    create_refresh_token user_data tenant_context slug s response :
  endpoints.header_given tenant_context = Some slug ->
  fits 255 (CoreUserCreate.email user_data) ->
  fits 255 (hash_password (CoreUserCreate.password user_data)) ->
  verify_password (CoreUserCreate.password user_data)
                  (hash_password (CoreUserCreate.password user_data)) = true ->
  outcome (writing.register_user hash_password utcnow describe validation_error
             user_data tenant_context RequestSession) s = inr (inl response) ->
  outcome (endpoints.get_user_profile (schemas.id response, slug) tenant_context
             RequestSession)
          (snd (writing.register_user hash_password utcnow describe validation_error
                  user_data tenant_context RequestSession s))
  = inr response
  /\ exists answer,
       outcome (endpoints.login verify_password create_access_token
                  create_refresh_token
                  {| schemas.login_email := CoreUserCreate.email user_data;
                     schemas.login_password := CoreUserCreate.password user_data |}
                  tenant_context RequestSession)
               (snd (writing.register_user hash_password utcnow describe
                       validation_error user_data tenant_context RequestSession s))
       = inr answer
       /\ schemas.user_id answer = Some (schemas.id response)
       /\ schemas.context answer = Some "tenant".
Proof.
  intros Hhdr Hemail Hhash Hverify Hregistered.
  destruct (tenant_registration_succeeded _ _ _ _ _ Hhdr Hregistered)
    as (o & user & Horg & Hfree & Hid & Hemail' & Hhash' & Hactive & _ & [= ->] & Hstore).
  rewrite (varchar_fits _ _ Hemail) in Hemail'. injection Hemail' as Hemail'.
  rewrite (varchar_fits _ _ Hhash) in Hhash'. injection Hhash' as Hhash'.
  destruct (writing.register_user hash_password utcnow describe validation_error
              user_data tenant_context RequestSession s) as [result s'].
  cbn [snd] in *. clear Hregistered. split.
  - unfold outcome, endpoints.get_user_profile, endpoints.try_endpoint, try_except,
      services.get_tenant_user_profile, services.get_tenant_session.
    rewrite Hhdr, String.eqb_refl. cbn [negb]. run_queries.
    rewrite Hstore. cbn [organizations tenant_users]. rewrite Horg. cbn.
    rewrite find_snoc, Hid. cbn. now rewrite Z.eqb_refl.
  - unfold outcome, endpoints.login, endpoints.try_endpoint, try_except,
      services.authenticate_tenant_user, services.get_tenant_session.
    rewrite Hhdr. run_queries.
    rewrite Hstore. cbn [organizations tenant_users]. rewrite Horg. cbn.
    rewrite find_snoc, Hfree. cbn. rewrite <- Hemail', String.eqb_refl. cbn.
    rewrite <- Hhash', Hverify. cbn. rewrite Hactive. cbn.
    eexists. repeat split.
Qed.

End TenantRoundTrip.

(* --------------------------------------------------------------------- *)
(** ** The statements no service executes *)
(* --------------------------------------------------------------------- *)

(** X29: the organizations listed for a user are the active ones for which
    the ownership guard lets the user through.  (The organization ids are
    a key.) *)
Theorem listed_organizations_are_owned user_id o s :
  NoDup (map Organization.id (organizations (store s))) ->
  In o (selects.get_user_organizations user_id (store s))
  <-> In o (organizations (store s)) /\ Organization.is_active o = true
      /\ outcome (security.verify_organization_owner (Organization.id o)
                    (ret user_id) RequestSession) s = inr true.
Proof.
  intros Hids. unfold selects.get_user_organizations. rewrite filter_In.
  unfold outcome, security.verify_organization_owner, query.check_organization_owner,
    bind, ret, raise. cbn [fst snd store].
  change (fun o0 : Organization.t =>
            (Organization.id o0 =? Organization.id o)
            && existsb (fun u => (CoreUser.id u =? user_id)
                                 && existsb (fun '(u', o') => (u' =? CoreUser.id u)
                                                              && (o' =? Organization.id o0))
                                            (organization_owners (store s)))
                       (core_users (store s)))
    with (fun o0 => (Organization.id o0 =? Organization.id o)
                    && selects.owners_any (store s) user_id o0).
  split.
  - intros (Hin & Howned). apply andb_true_iff in Howned as [Howned Hactive].
    repeat split; auto.
    destruct (find _ _) eqn:Hfind; [reflexivity|]. exfalso.
    pose proof (find_none _ _ Hfind o Hin) as Hno. cbn in Hno.
    now rewrite Z.eqb_refl, Howned in Hno.
  - intros (Hin & Hactive & Hguard). split; [exact Hin|].
    rewrite Hactive, andb_true_r.
    destruct (find _ _) as [o'|] eqn:Hfind; [|discriminate].
    apply find_some in Hfind as [Hin' Howned].
    apply andb_true_iff in Howned as [Hid Howned]. apply Z.eqb_eq in Hid.
    now rewrite <- (unique_column Organization.id _ o' o Hids Hin' Hin Hid).
Qed.

(** X30: with unique addresses, the check whether another tenant user
    holds an address says yes exactly when the lookup by that address
    returns a user with another id. *)
Theorem email_held_by_another email user_id s :
  NoDup (map TenantUser.email (tenant_users (store s))) ->
  selects.check_tenant_user_email_exists email user_id (store s) = true
  <-> exists u, outcome (query.get_tenant_user_by_email email RequestSession) s
                = inr (Some u)
                /\ TenantUser.id u <> user_id.
Proof.
  intros Hemails. unfold selects.check_tenant_user_email_exists, outcome.
  run_queries. split.
  - destruct (find _ _) as [u|] eqn:Hfind; [intros _|discriminate].
    apply find_some in Hfind as [Hin Hu]. apply andb_true_iff in Hu as [Hemail Hid].
    apply String.eqb_eq in Hemail. apply negb_true_iff, Z.eqb_neq in Hid.
    exists u. split; [|exact Hid].
    now rewrite (find_unique TenantUser.email _ email u Hemails Hin Hemail).
  - intros (u & [= Hfind] & Hid). apply find_some in Hfind as [Hin Hemail].
    destruct (find _ _) eqn:Hnone; [reflexivity|]. exfalso.
    pose proof (find_none _ _ Hnone u Hin) as Hno. cbn in Hno.
    rewrite Hemail in Hno. apply Z.eqb_neq in Hid. now rewrite Hid in Hno.
Qed.

(* --------------------------------------------------------------------- *)
(** ** The writing endpoints on the small deployment *)
(* --------------------------------------------------------------------- *)

Lemma scenario_constraints : constraints Scenario.db.
Proof.
  unfold constraints, unique_ids, unique_emails, unique_slugs. cbn.
  repeat split; repeat constructor; cbn; try intuition discriminate.
  - destruct H as [[= <- <-]|[]]. exists Scenario.alice. cbn. auto.
  - destruct H as [[= <- <-]|[]]. exists Scenario.acme. cbn. auto.
Qed.


(** A first name of 101 characters. *)
Lemma registration_with_a_long_name_witness :
  writing.register_user Fixtures.hashpw 2000 Fixtures.describe
    Fixtures.validation_error Fixtures.long_named None RequestSession
    (fresh Scenario.db)
  = (inl (HTTPException 500 "Registration error: DataError"),
     after (fresh Scenario.db) [SelectCoreUserByEmail "frank@example.com"]).
Proof.
  apply (registration_with_a_long_name Fixtures.hashpw 2000 Fixtures.describe
           Fixtures.validation_error Fixtures.long_named None
           (Fixtures.times 101 "F") "F"%char (fresh Scenario.db)).
  - reflexivity.
  - split; [cbn; lia|cbn; intuition discriminate].
  - cbn. intros u [<-|[<-|[]]]; discriminate.
  - reflexivity.
  - cbn. lia.
  - reflexivity.
  - discriminate.
Defined.

(** [erin] registers and logs in. *)
Lemma registration_then_login_witness :
  exists answer,
    outcome (endpoints.login Scenario.checkpw Scenario.create_access_token
               Scenario.create_refresh_token
               {| schemas.login_email := CoreUserCreate.email Fixtures.erin;
                  schemas.login_password := CoreUserCreate.password Fixtures.erin |}
               None RequestSession)
            (snd (writing.register_user Fixtures.hashpw 2000 Fixtures.describe
                    Fixtures.validation_error Fixtures.erin None RequestSession
                    (fresh Scenario.db)))
    = inr answer
    /\ schemas.user_id answer
       = Some (CoreUserResponse.id
                 {| CoreUserResponse.id := 3;
                    CoreUserResponse.email := "erin@example.com";
                    CoreUserResponse.first_name := Some "Erin";
                    CoreUserResponse.last_name := None;
                    CoreUserResponse.is_active := true;
                    CoreUserResponse.created_at := 2000 |})
    /\ schemas.context answer = Some "core".
Proof.
  apply (registration_then_login Fixtures.hashpw 2000 Fixtures.describe
           Fixtures.validation_error Scenario.checkpw Scenario.create_access_token
           Scenario.create_refresh_token Fixtures.erin None (fresh Scenario.db)).
  - reflexivity.
  - unfold fits. cbn. lia.
  - unfold fits. cbn. lia.
  - reflexivity.
  - reflexivity.
Defined.


(** The address of [alice] is taken. *)
Lemma registration_refusals_witness :
  ((exists detail, HTTPException 400 "Email already registered"
                   = HTTPException 400 detail)
   \/ (exists error,
          HTTPException 400 "Email already registered"
          = HTTPException 500 ("Registration error: " ++ Fixtures.describe error)))
  /\ store (snd (writing.register_user Fixtures.hashpw 2000 Fixtures.describe
                   Fixtures.validation_error Fixtures.erin_again None RequestSession
                   (fresh Scenario.db)))
     = store (fresh Scenario.db).
Proof.
  apply (registration_refusals Fixtures.hashpw 2000 Fixtures.describe
           Fixtures.validation_error Fixtures.erin_again None (fresh Scenario.db)
           (HTTPException 400 "Email already registered")).
  reflexivity.
Defined.

(** The slug of the deactivated organization [closed] cannot be taken
    again. *)
Lemma creation_over_a_taken_slug_witness :
  outcome (writing.create_organization 2000 Fixtures.describe Fixtures.closed_again 1
             RequestSession) (fresh Scenario.db)
  = inl (HTTPException 500 ("Organization creation error: "
                              ++ Fixtures.describe postgres.IntegrityError))
  /\ store (snd (writing.create_organization 2000 Fixtures.describe
                   Fixtures.closed_again 1 RequestSession (fresh Scenario.db)))
     = store (fresh Scenario.db).
Proof.
  apply (proj2 (creation_over_a_taken_slug 2000 Fixtures.describe
                  Fixtures.closed_again 1 Scenario.alice (fresh Scenario.db)
                  ltac:(cbn; auto) eq_refl
                  ltac:(unfold fits; cbn; lia) ltac:(unfold fits; cbn; lia)
                  ltac:(exact I))).
  - exists Scenario.closed. cbn. auto.
  - cbn. intros o [<-|[<-|[<-|[]]]] [Hslug Hactive]; discriminate.
Defined.

(** A slug of 94 characters. *)
Lemma creation_with_a_long_slug_witness :
  writing.create_organization 2000 Fixtures.describe Fixtures.long_slug 1
    RequestSession (fresh Scenario.db)
  = (inl (HTTPException 500
            ("Organization creation error: "
               ++ Fixtures.describe postgres.DataError)),
     after (fresh Scenario.db)
       [SelectOrganizationBySlug (OrganizationCreate.slug Fixtures.long_slug);
        SelectCoreUserById 1]).
Proof.
  apply (creation_with_a_long_slug 2000 Fixtures.describe Fixtures.long_slug 1
           Scenario.alice (fresh Scenario.db)).
  - reflexivity.
  - cbn. lia.
  - cbn. auto.
  - reflexivity.
  - cbn. intros o [<-|[<-|[<-|[]]]] [Hslug Hactive]; discriminate.
Defined.


(** The three writes on the small deployment. *)
Lemma writes_keep_the_constraints_witness :
  constraints (store (snd (writing.register_user Fixtures.hashpw 2000
                             Fixtures.describe Fixtures.validation_error
                             Fixtures.erin (Some "acme") RequestSession
                             (fresh Scenario.db))))
  /\ constraints (store (snd (writing.create_organization 2000 Fixtures.describe
                                Fixtures.shop 1 RequestSession (fresh Scenario.db))))
  /\ constraints (store (snd (endpoints.update_user_profile 2000 Fixtures.name_update
                                (7, "acme") (Some "acme") RequestSession
                                (fresh Scenario.db)))).
Proof.
  apply (writes_keep_the_constraints Fixtures.hashpw 2000 Fixtures.describe
           Fixtures.validation_error Fixtures.erin (Some "acme") Fixtures.shop 1
           Fixtures.name_update (7, "acme") (fresh Scenario.db)).
  exact scenario_constraints.
Defined.

(** [erin] registers in [acme], reads her profile and logs in. *)
Lemma tenant_registration_round_trip_witness :
  outcome (endpoints.get_user_profile (9, "acme") (Some "acme") RequestSession)
          (snd (writing.register_user Fixtures.hashpw 2000 Fixtures.describe
                  Fixtures.validation_error Fixtures.erin (Some "acme") RequestSession
                  (fresh Scenario.db)))
  = inr {| schemas.id := 9;
           schemas.email := "erin@example.com";
           schemas.first_name := Some "Erin";
           schemas.last_name := None;
           schemas.phone := None;
           schemas.avatar := None;
           schemas.bio := None;
           schemas.is_active := true;
           schemas.created_at := 2000 |}
  /\ exists answer,
       outcome (endpoints.login Scenario.checkpw Scenario.create_access_token
                  Scenario.create_refresh_token
                  {| schemas.login_email := CoreUserCreate.email Fixtures.erin;
                     schemas.login_password := CoreUserCreate.password Fixtures.erin |}
                  (Some "acme") RequestSession)
               (snd (writing.register_user Fixtures.hashpw 2000 Fixtures.describe
                       Fixtures.validation_error Fixtures.erin (Some "acme")
                       RequestSession (fresh Scenario.db)))
       = inr answer
       /\ schemas.user_id answer = Some 9
       /\ schemas.context answer = Some "tenant".
Proof.
  apply (tenant_registration_round_trip Fixtures.hashpw 2000 Fixtures.describe
           Fixtures.validation_error Scenario.checkpw Scenario.create_access_token
           Scenario.create_refresh_token Fixtures.erin (Some "acme") "acme"
           (fresh Scenario.db)
           {| schemas.id := 9;
              schemas.email := "erin@example.com";
              schemas.first_name := Some "Erin";
              schemas.last_name := None;
              schemas.phone := None;
              schemas.avatar := None;
              schemas.bio := None;
              schemas.is_active := true;
              schemas.created_at := 2000 |}).
  - reflexivity.
  - unfold fits. cbn. lia.
  - unfold fits. cbn. lia.
  - reflexivity.
  - reflexivity.
Defined.

(** [acme] is listed for [alice], its owner. *)
Lemma listed_organizations_are_owned_witness :
  In Scenario.acme (selects.get_user_organizations 1 (store (fresh Scenario.db)))
  <-> In Scenario.acme (organizations (store (fresh Scenario.db)))
      /\ Organization.is_active Scenario.acme = true
      /\ outcome (security.verify_organization_owner (Organization.id Scenario.acme)
                    (ret 1) RequestSession) (fresh Scenario.db) = inr true.
Proof.
  apply (listed_organizations_are_owned 1 Scenario.acme (fresh Scenario.db)).
  cbn. repeat constructor; cbn; intuition discriminate.
Defined.

(** The address of [bob] is held by another user than [dave]. *)
Lemma email_held_by_another_witness :
  selects.check_tenant_user_email_exists "bob@example.com" 8
    (store (fresh Scenario.db)) = true
  <-> exists u, outcome (query.get_tenant_user_by_email "bob@example.com"
                           RequestSession) (fresh Scenario.db)
                = inr (Some u)
                /\ TenantUser.id u <> 8.
Proof.
  apply (email_held_by_another "bob@example.com" 8 (fresh Scenario.db)).
  cbn. repeat constructor; cbn; intuition discriminate.
Defined.
